(** * MeetSync relay server: the Zoom token cache and the HTTP handlers

    A shallow embedding of [server/index.js] (the Zoom + Stripe relay) and
    of the properties its specification states about it.  The file
    modelled is the current [server/index.js] (Zoom meetings, Stripe
    checkout with dynamic prices, webhook, welcome e-mail); the two older
    copies in the repository have the same [getZoomAccessToken] and the
    same meeting handler, the oldest without the credentials check.

    - [Js]: the fragment of JavaScript the server relies on: JSON values,
      truthiness, [||], property access, [Math.round], [Buffer] base64.
      Numbers are IEEE-754 binary64, as in JavaScript.
    - [Runtime]: what a handler can observe and do: [process.env], the
      clock, [console], [axios.post] and the Stripe SDK, as an explicit
      state-and-exception monad over an oracle for the outside world.
    - [Server]: the token cache, [getZoomAccessToken] and the route
      handlers, each written after its source text.
    - [Sample]: concrete configurations, caches and worlds.
    - [Mounted]: the handlers behind the body parsers, given [req.body]
      itself, and the webhook route with its two parsers.
    - The theorems follow, one block per property. *)

From Stdlib Require Import ZArith List String Ascii Bool Floats Lia.
Import ListNotations.
Local Open Scope string_scope.

(* ================================================================== *)
(** ** JavaScript values and built-ins *)

Module Js.

#[local] Set Warnings "-register-all".

(** A JavaScript value as it reaches this server: [undefined], or what
    [JSON.parse] can produce.  Object properties are kept in insertion
    order; the keys of one object are distinct. *)
Inductive value : Type :=
| VUndefined
| VNull
| VBool (b : bool)
| VNum (x : float)
| VStr (s : string)
| VArr (items : list value)
| VObj (props : list (string * value)).

(** [ToBoolean] on numbers: [0], [-0] and [NaN] are falsy. *)
Definition truthy_number (x : float) : bool :=
  negb (is_zero x || is_nan x).

(** [ToBoolean] on strings: only the empty string is falsy. *)
Definition truthy_string (s : string) : bool :=
  negb (s =? "").

Definition ToBoolean (v : value) : bool :=
  match v with
  | VUndefined | VNull => false
  | VBool b => b
  | VNum x => truthy_number x
  | VStr s => truthy_string s
  | VArr _ | VObj _ => true
  end.

(** [a || b] *)
Definition or (a b : value) : value :=
  if ToBoolean a then a else b.

(** [!!a] *)
Definition not_not (a : value) : value := VBool (ToBoolean a).

(** Own property [k] of a property list; [undefined] when absent. *)
Fixpoint prop (ps : list (string * value)) (k : string) : value :=
  match ps with
  | [] => VUndefined
  | (k', v) :: ps' => if k' =? k then v else prop ps' k
  end.

Fixpoint has_prop (ps : list (string * value)) (k : string) : bool :=
  match ps with
  | [] => false
  | (k', _) :: ps' => (k' =? k) || has_prop ps' k
  end.

(** [v.k] for a [v] that is neither [undefined] nor [null]; the names
    read by the server are never array indices or built-in members. *)
Definition get (v : value) (k : string) : value :=
  match v with
  | VObj ps => prop ps k
  | _ => VUndefined
  end.

Definition nullish (v : value) : bool :=
  match v with
  | VUndefined | VNull => true
  | _ => false
  end.

(** [v?.k] *)
Definition opt_get (v : value) (k : string) : value :=
  if nullish v then VUndefined else get v k.

(** A variable of [process.env]: a string, or [undefined] when unset. *)
Definition of_env (x : option string) : value :=
  match x with
  | Some s => VStr s
  | None => VUndefined
  end.

(** [Math.round]: the integer closest to [x], ties towards +infinity;
    NaN, the infinities, the zeros and integral numbers are returned
    unchanged, and a result of zero keeps the sign of [x].  The finite
    case works on the exact value [(-1)^s * m * 2^e] of the double. *)
Definition Math_round (x : float) : float :=
  match Prim2SF x with
  | S754_finite s m e =>
      if (0 <=? e)%Z then x
      else
        let sm := if s then Z.neg m else Z.pos m in
        match Z.shiftr (2 * sm + 2 ^ (- e)) (1 - e) with
        | Z0 => if s then neg_zero else zero
        | Z.pos p => of_uint63 (Uint63.of_Z (Z.pos p))
        | Z.neg p => (- of_uint63 (Uint63.of_Z (Z.pos p)))%float
        end
  | _ => x
  end.

(** [s.substring(0, n)]; strings are sequences of one-byte code units
    (tokens and credentials are ASCII). *)
Definition substring0 (n : nat) (s : string) : string :=
  String.substring 0 n s.

(** *** [Buffer.from(s).toString('base64')] *)

Definition base64_alphabet : string :=
  "ABCDEFGHIJKLMNOPQRSTUVWXYZabcdefghijklmnopqrstuvwxyz0123456789+/".

Definition base64_digit (n : N) : ascii :=
  match String.get (N.to_nat n) base64_alphabet with
  | Some c => c
  | None => "="%char
  end.

Definition byte (c : ascii) : N := N_of_ascii c.

Fixpoint base64 (s : string) : string :=
  match s with
  | EmptyString => EmptyString
  | String a EmptyString =>
      let n := N.shiftl (byte a) 16 in
      String (base64_digit (N.shiftr n 18))
        (String (base64_digit (N.land (N.shiftr n 12) 63)) "==")
  | String a (String b EmptyString) =>
      let n := N.lor (N.shiftl (byte a) 16) (N.shiftl (byte b) 8) in
      String (base64_digit (N.shiftr n 18))
        (String (base64_digit (N.land (N.shiftr n 12) 63))
           (String (base64_digit (N.land (N.shiftr n 6) 63)) "="))
  | String a (String b (String c rest)) =>
      let n := N.lor (N.lor (N.shiftl (byte a) 16) (N.shiftl (byte b) 8))
                     (byte c) in
      String (base64_digit (N.shiftr n 18))
        (String (base64_digit (N.land (N.shiftr n 12) 63))
           (String (base64_digit (N.land (N.shiftr n 6) 63))
              (String (base64_digit (N.land n 63)) (base64 rest))))
  end.

End Js.
Import Js.

(* ================================================================== *)
(** ** The runtime: environment, outside world, effects *)

Module Runtime.

(** An [Error] object.  [response] is the field axios adds when the
    upstream answered with a status outside 2xx; [type] and [code] are
    the fields Stripe adds.  [new Error(m)] has none of them. *)
Record ErrResponse : Type := mkErrResponse {
  status : value;
  data : value
}.

Record Error : Type := mkError {
  message : string;
  response : option ErrResponse;
  type : value;
  code : value
}.

Definition new_Error (m : string) : Error :=
  {| message := m; response := None; type := VUndefined; code := VUndefined |}.

(** The [TypeError] of reading member [k] of [null] (V8's wording). *)
Definition TypeError_null (k : string) : Error :=
  new_Error ("Cannot read properties of null (reading '" ++ k ++ "')").

(** [error.response?.status] and [error.response?.data] *)
Definition response_status (e : Error) : value :=
  match response e with
  | Some r => status r
  | None => VUndefined
  end.

Definition response_data (e : Error) : value :=
  match response e with
  | Some r => data r
  | None => VUndefined
  end.

(** [process.env] as read by the server. *)
Record Config : Type := mkConfig {
  ZOOM_ACCOUNT_ID : option string;
  ZOOM_CLIENT_ID : option string;
  ZOOM_CLIENT_SECRET : option string;
  STRIPE_SECRET_KEY : option string;
  STRIPE_WEBHOOK_SECRET : option string
}.

(** [response.data] of a 2xx answer of the Zoom token endpoint, at the
    type the endpoint documents: [access_token] is a string and
    [expires_in] a number (of seconds).  A 2xx answer of another shape
    is outside this model; there the assignments of l.293-294 are made
    before [accessToken.substring] (l.297) throws. *)
Record TokenData : Type := mkTokenData {
  access_token : string;
  expires_in : float
}.

(** A Stripe event, as [constructEvent] returns it: [event.type] and
    the properties of [event.data.object]. *)
Record StripeEvent : Type := mkStripeEvent {
  event_type : string;
  event_object : list (string * value)
}.

(** A Stripe checkout session returned by [sessions.create]. *)
Record StripeSession : Type := mkStripeSession {
  session_id : value;
  session_url : value
}.

(** A promise of the outside world once settled: fulfilled or
    rejected, and what [Date.now()] reads when the handler resumes. *)
Record Settled (A : Type) : Type := mkSettled {
  result : Error + A;
  resumed_at : float
}.
Arguments mkSettled {A} _ _.
Arguments result {A} _.
Arguments resumed_at {A} _.

Definition header : Type := (string * string)%type.

(** The outside world during one request.  [axios.post] fulfils on a
    2xx answer and rejects otherwise (an [Error] with [response] set)
    or when the transport fails (no [response]).  The Stripe entries
    are the SDK's methods, consulted only when the SDK is loaded. *)
Record World : Type := mkWorld {
  now : float;
  zoom_oauth_token : string -> list header -> Settled TokenData;
  zoom_create_meeting : value -> list header -> Settled value;
  stripe_constructEvent : value -> value -> value -> Error + StripeEvent;
  stripe_sessions_create : value -> Settled StripeSession;
  stripe_sessions_retrieve : value -> Settled value
}.

(** One argument of a [console] call: a value, an [Error] object, or
    the text [JSON.stringify(v, null, 2)] (kept unrendered). *)
Inductive logarg : Type :=
| Arg (v : value)
| ArgError (e : Error)
| ArgJson (v : value).

(** What a handler does to the outside, in order. *)
Inductive event : Type :=
| Console (method : string) (args : list logarg)
| AxiosPost (url : string) (payload : value) (headers : list header)
| StripeCall (method : string) (args : list value).

Definition is_request (ev : event) : bool :=
  match ev with
  | AxiosPost _ _ _ => true
  | _ => false
  end.

(** Number of outbound HTTP requests in a trace. *)
Definition requests (t : list event) : nat :=
  List.length (List.filter is_request t).

(** The module-level token cache: [accessToken] and [tokenExpiry],
    both [null] ([None]) when the process starts. *)
Record Cache : Type := mkCache {
  accessToken : option string;
  tokenExpiry : option float
}.

Definition empty_cache : Cache :=
  {| accessToken := None; tokenExpiry := None |}.

(** The state a computation threads: the cache, the clock, and the
    events emitted so far (oldest first). *)
Record State : Type := mkState {
  cache : Cache;
  clock : float;
  trace : list event
}.

(** A computation: reads the configuration and the world, updates the
    state, and either returns or throws. *)
Definition M (A : Type) : Type :=
  Config -> World -> State -> (Error + A) * State.

Definition ret {A} (a : A) : M A :=
  fun _ _ s => (inr a, s).

Definition throw {A} (e : Error) : M A :=
  fun _ _ s => (inl e, s).

Definition bind {A B} (m : M A) (k : A -> M B) : M B :=
  fun c w s =>
    match m c w s with
    | (inr a, s') => k a c w s'
    | (inl e, s') => (inl e, s')
    end.

(** [try { m } catch (e) { h e }]: state changes made before the throw
    stay. *)
Definition try_catch {A} (m : M A) (h : Error -> M A) : M A :=
  fun c w s =>
    match m c w s with
    | (inr a, s') => (inr a, s')
    | (inl e, s') => h e c w s'
    end.

Definition env : M Config := fun c _ s => (inr c, s).
Definition world : M World := fun _ w s => (inr w, s).
Definition get_cache : M Cache := fun _ _ s => (inr (cache s), s).

Definition set_cache (k : Cache) : M unit :=
  fun _ _ s => (inr tt, {| cache := k; clock := clock s; trace := trace s |}).

Definition emit (ev : event) : M unit :=
  fun _ _ s =>
    (inr tt, {| cache := cache s; clock := clock s; trace := trace s ++ [ev] |}).

(** [Date.now()] *)
Definition Date_now : M float := fun _ _ s => (inr (clock s), s).

(** [await p] for a promise of the outside world: the handler resumes
    at the time the world gives, with the value or the rejection. *)
Definition await {A} (p : Settled A) : M A :=
  fun _ _ s =>
    (result p, {| cache := cache s; clock := resumed_at p; trace := trace s |}).

Definition console_log (args : list logarg) : M unit := emit (Console "log" args).
Definition console_warn (args : list logarg) : M unit := emit (Console "warn" args).
Definition console_error (args : list logarg) : M unit := emit (Console "error" args).

(** The outcome of a whole request: what the computation returned or
    threw, the cache it left, and the events it emitted.  A request
    runs to completion from the cache the previous one left: Node runs
    one handler at a time between two [await]s, and the interleavings
    of requests suspended at an [await] are not part of this model. *)
Definition run {A} (m : M A) (c : Config) (w : World) (k : Cache)
  : (Error + A) * State :=
  m c w {| cache := k; clock := now w; trace := [] |}.

Definition outcome {A} (r : (Error + A) * State) : Error + A := fst r.
Definition cache_after {A} (r : (Error + A) * State) : Cache := cache (snd r).
Definition trace_of {A} (r : (Error + A) * State) : list event := trace (snd r).

End Runtime.
Import Runtime.

Declare Scope js_scope.
Delimit Scope js_scope with js.
Notation "x <- m ;; k" := (bind m (fun x => k))
  (at level 100, m at next level, right associativity) : js_scope.
Notation "m ;; k" := (bind m (fun _ => k))
  (at level 100, right associativity) : js_scope.

(* ================================================================== *)
(** ** The server *)

Module Server.
Local Open Scope js_scope.

(** *** HTTP responses *)

Inductive Body : Type :=
| Json (v : value)       (* res.json(v) *)
| Text (s : string).     (* res.send(s) *)

Record Response : Type := mkResponse {
  http_status : Z;
  body : Body
}.

(** [res.json(v)] and [res.status(n).json(v)] / [.send(s)] *)
Definition res_json (v : value) : Response :=
  {| http_status := 200; body := Json v |}.
Definition res_status_json (n : Z) (v : value) : Response :=
  {| http_status := n; body := Json v |}.
Definition res_status_send (n : Z) (s : string) : Response :=
  {| http_status := n; body := Text s |}.

(** [v.k], which throws a [TypeError] when [v] is [undefined] or [null]. *)
Definition member (v : value) (k : string) : M value :=
  match v with
  | VUndefined =>
      throw (new_Error ("Cannot read properties of undefined (reading '" ++ k ++ "')"))
  | VNull => throw (TypeError_null k)
  | _ => ret (get v k)
  end.

(** A template-literal hole filled with a variable read from
    [process.env]. *)
Definition env_text (x : option string) : string :=
  match x with
  | Some s => s
  | None => "undefined"
  end.

(** *** The token cache *)

(** The values held by the module variables [accessToken] and
    [tokenExpiry]. *)
Definition token_value (k : Cache) : value :=
  match accessToken k with
  | Some s => VStr s
  | None => VNull
  end.

Definition expiry_value (k : Cache) : value :=
  match tokenExpiry k with
  | Some e => VNum e
  | None => VNull
  end.

(** [tokenExpiry] as the right operand of [<] ([null] counts as [0]). *)
Definition expiry_number (k : Cache) : float :=
  match tokenExpiry k with
  | Some e => e
  | None => zero
  end.

(** [accessToken && tokenExpiry && Date.now() < tokenExpiry] *)
Definition cache_hit (k : Cache) (t : float) : bool :=
  ToBoolean (token_value k) && ToBoolean (expiry_value k) && (t <? expiry_number k)%float.

Definition set_accessToken (tok : string) : M unit :=
  k <- get_cache ;;
  set_cache {| accessToken := Some tok; tokenExpiry := tokenExpiry k |}.

Definition set_tokenExpiry (e : float) : M unit :=
  k <- get_cache ;;
  set_cache {| accessToken := accessToken k; tokenExpiry := Some e |}.

(** [return accessToken] *)
Definition return_accessToken : M (option string) :=
  k <- get_cache ;; ret (accessToken k).

Definition token_url : string := "https://zoom.us/oauth/token".

(** The body and the headers of the token request. *)
Definition token_request_body (c : Config) : string :=
  "grant_type=account_credentials&account_id=" ++ env_text (ZOOM_ACCOUNT_ID c).

Definition token_request_headers (c : Config) : list header :=
  let credentials :=
    base64 (env_text (ZOOM_CLIENT_ID c) ++ ":" ++ env_text (ZOOM_CLIENT_SECRET c)) in
  [ ("Authorization", "Basic " ++ credentials);
    ("Content-Type", "application/x-www-form-urlencoded") ].

Definition set_or_missing (x : option string) : value :=
  if ToBoolean (of_env x) then VStr "✓ Set" else VStr "✗ Missing".

(** [!ZOOM_ACCOUNT_ID || !ZOOM_CLIENT_ID || !ZOOM_CLIENT_SECRET] *)
Definition credentials_missing (c : Config) : bool :=
  negb (ToBoolean (of_env (ZOOM_ACCOUNT_ID c)))
  || negb (ToBoolean (of_env (ZOOM_CLIENT_ID c)))
  || negb (ToBoolean (of_env (ZOOM_CLIENT_SECRET c))).

Definition missing_credentials_message : string :=
  "Missing Zoom credentials. Set ZOOM_ACCOUNT_ID, ZOOM_CLIENT_ID, and ZOOM_CLIENT_SECRET environment variables.".

Definition auth_failed_message : string := "Failed to authenticate with Zoom".

(** The [try] block of [getZoomAccessToken]. *)
Definition refresh_token : M (option string) :=
  c <- env ;;
  console_log [Arg (VStr "🔄 Requesting new Zoom access token...")] ;;
  console_log [Arg (VStr "   Account ID:"); Arg (set_or_missing (ZOOM_ACCOUNT_ID c))] ;;
  console_log [Arg (VStr "   Client ID:"); Arg (set_or_missing (ZOOM_CLIENT_ID c))] ;;
  (if credentials_missing c
   then throw (new_Error missing_credentials_message)
   else ret tt) ;;
  emit (AxiosPost token_url (VStr (token_request_body c)) (token_request_headers c)) ;;
  w <- world ;;
  rdata <- await (zoom_oauth_token w (token_request_body c) (token_request_headers c)) ;;
  set_accessToken (access_token rdata) ;;
  t <- Date_now ;;
  set_tokenExpiry (t + (expires_in rdata - 300) * 1000)%float ;;
  console_log [Arg (VStr "✅ Zoom access token obtained successfully")] ;;
  console_log [Arg (VStr "   Token starts with:");
               Arg (VStr (substring0 20 (access_token rdata) ++ "..."))] ;;
  console_log [Arg (VStr "   Expires in:"); Arg (VNum (expires_in rdata));
               Arg (VStr "seconds")] ;;
  return_accessToken.

(** The [catch] block of [getZoomAccessToken]. *)
Definition refresh_failed (error : Error) : M (option string) :=
  console_error [Arg (VStr "❌ Failed to get Zoom access token:")] ;;
  console_error [Arg (VStr "   Status:"); Arg (response_status error)] ;;
  console_error [Arg (VStr "   Error:"); ArgJson (response_data error)] ;;
  throw (new_Error auth_failed_message).

(** [async function getZoomAccessToken()].  The result is the value of
    [accessToken] at the [return]: a string ([Some]) on every path that
    returns. *)
Definition getZoomAccessToken : M (option string) :=
  k <- get_cache ;;
  t <- Date_now ;;
  if cache_hit k t then
    console_log [Arg (VStr "📦 Using cached token")] ;;
    return_accessToken
  else
    try_catch refresh_token refresh_failed.

(** Successive calls of one computation, each in its own world, the
    cache carried from one call to the next. *)
Fixpoint calls {A} (m : M A) (c : Config) (ws : list World) (k : Cache)
  : list ((Error + A) * State) :=
  match ws with
  | [] => []
  | w :: ws' =>
      let r := run m c w k in
      r :: calls m c ws' (cache_after r)
  end.

(** *** Routes *)

(** The module variable [stripe]: the SDK when [STRIPE_SECRET_KEY] is
    truthy at start-up, [null] otherwise. *)
Definition stripe_loaded (c : Config) : bool :=
  ToBoolean (of_env (STRIPE_SECRET_KEY c)).

(** The initialisation of [stripe] when the module is loaded. *)
Definition load_stripe : M bool :=
  c <- env ;;
  if stripe_loaded c then
    console_log [Arg (VStr "✅ Stripe initialized")] ;; ret true
  else
    console_warn [Arg (VStr "⚠️ STRIPE_SECRET_KEY not set - payments will not work")] ;;
    ret false.

(** Reading member [k] of [stripe]. *)
Definition stripe_member (k : string) : M unit :=
  c <- env ;;
  if stripe_loaded c then ret tt else throw (TypeError_null k).

(** A template-literal hole filled with a string-or-null variable. *)
Definition nullable_text (x : option string) : string :=
  match x with
  | Some s => s
  | None => "null"
  end.

(** [app.get('/')] *)
Definition get_root : M Response :=
  c <- env ;;
  ret (res_json (VObj [
    ("status", VStr "ok");
    ("service", VStr "MeetSync Zoom + Stripe Server");
    ("endpoints", VObj [
       ("POST /api/create-meeting", VStr "Create a new Zoom meeting");
       ("POST /api/create-checkout-session", VStr "Create Stripe checkout session") ]);
    ("env", VObj [
       ("hasAccountId", not_not (of_env (ZOOM_ACCOUNT_ID c)));
       ("hasClientId", not_not (of_env (ZOOM_CLIENT_ID c)));
       ("hasClientSecret", not_not (of_env (ZOOM_CLIENT_SECRET c)));
       ("hasStripeKey", not_not (of_env (STRIPE_SECRET_KEY c))) ]) ])).

(** [app.get('/api/health')] *)
Definition get_health : M Response :=
  ret (res_json (VObj [ ("status", VStr "ok");
                        ("service", VStr "MeetSync Zoom Server") ])).

(** [app.get('/api/test-token')] *)
Definition get_test_token : M Response :=
  try_catch
    (token <- getZoomAccessToken ;;
     match token with
     | Some s =>
         ret (res_json (VObj [
           ("success", VBool true);
           ("message", VStr "Token obtained successfully");
           ("tokenPreview", VStr (substring0 20 s ++ "...")) ]))
     | None => throw (TypeError_null "substring")
     end)
    (fun error =>
       ret (res_status_json 500 (VObj [
         ("success", VBool false);
         ("error", VStr (message error)) ]))).

(** **** POST /api/create-meeting *)

Definition meetings_url : string := "https://api.zoom.us/v2/users/me/meetings".

(** The object literal [meetingData], from the destructured [topic]
    and [duration]. *)
Definition meetingData (topic duration : value) : value :=
  VObj [
    ("topic", or topic (VStr "MeetSync Call"));
    ("type", VNum 1);
    ("duration", or duration (VNum 60));
    ("settings", VObj [
       ("host_video", VBool true);
       ("participant_video", VBool true);
       ("join_before_host", VBool true);
       ("waiting_room", VBool false);
       ("mute_upon_entry", VBool false) ]) ].

Definition meeting_headers (token : option string) : list header :=
  [ ("Authorization", "Bearer " ++ nullable_text token);
    ("Content-Type", "application/json") ].

(** [app.post('/api/create-meeting')]; [req_body] is [req.body], the
    object parsed by [express.json()]. *)
Definition post_create_meeting (req_body : list (string * value)) : M Response :=
  try_catch
    (let topic := prop req_body "topic" in
     let startTime := prop req_body "startTime" in
     let duration := prop req_body "duration" in
     console_log [Arg (VStr "📅 Creating meeting:"); Arg topic] ;;
     token <- getZoomAccessToken ;;
     console_log [Arg (VStr "📤 Sending request to Zoom API...")] ;;
     emit (AxiosPost meetings_url (meetingData topic duration) (meeting_headers token)) ;;
     w <- world ;;
     rdata <- await (zoom_create_meeting w (meetingData topic duration)
                       (meeting_headers token)) ;;
     id <- member rdata "id" ;;
     console_log [Arg (VStr "✅ Zoom meeting created:"); Arg id] ;;
     console_log [Arg (VStr "   Join URL:"); Arg (get rdata "join_url")] ;;
     ret (res_json (VObj [
       ("success", VBool true);
       ("meeting", VObj [
          ("id", get rdata "id");
          ("joinUrl", get rdata "join_url");
          ("startUrl", get rdata "start_url");
          ("password", get rdata "password");
          ("topic", get rdata "topic") ]) ])))
    (fun error =>
       console_error [Arg (VStr "❌ Failed to create meeting:")] ;;
       console_error [Arg (VStr "   Status:"); Arg (response_status error)] ;;
       console_error [Arg (VStr "   Error:"); ArgJson (response_data error)] ;;
       ret (res_status_json 500 (VObj [
         ("success", VBool false);
         ("error", or (opt_get (response_data error) "message")
                      (VStr "Failed to create Zoom meeting")) ]))).

(** **** POST /api/stripe-webhook *)

(** The [switch (event.type)] of the webhook handler. *)
Definition handle_event (event : StripeEvent) : M unit :=
  if event_type event =? "checkout.session.completed" then
    let session := VObj (event_object event) in
    console_log [Arg (VStr "✅ Payment successful for session:"); Arg (get session "id")] ;;
    console_log [Arg (VStr "   Customer email:");
                 Arg (opt_get (get session "customer_details") "email")] ;;
    console_log [Arg (VStr "   Plan:");
                 Arg (opt_get (get session "metadata") "planName")]
  else if event_type event =? "customer.subscription.created" then
    console_log [Arg (VStr "✅ Subscription created:");
                 Arg (prop (event_object event) "id")]
  else if event_type event =? "customer.subscription.deleted" then
    console_log [Arg (VStr "⚠️ Subscription cancelled:");
                 Arg (prop (event_object event) "id")]
  else
    console_log [Arg (VStr ("Unhandled event type: " ++ event_type event))].

(** [app.post('/api/stripe-webhook')]; [req_body] is [req.body] and
    [sig] is [req.headers['stripe-signature']].  The [try] yields the
    event, the [catch] the response the handler returns at once. *)
Definition post_stripe_webhook (req_body sig : value) : M Response :=
  c <- env ;;
  let webhookSecret := of_env (STRIPE_WEBHOOK_SECRET c) in
  verified <-
    try_catch
      (stripe_member "webhooks" ;;
       emit (StripeCall "webhooks.constructEvent" [req_body; sig; webhookSecret]) ;;
       w <- world ;;
       match stripe_constructEvent w req_body sig webhookSecret with
       | inr event => ret (inr event)
       | inl err => throw err
       end)
      (fun err =>
         console_error [Arg (VStr "⚠️ Webhook signature verification failed:");
                        Arg (VStr (message err))] ;;
         ret (inl (res_status_send 400 ("Webhook Error: " ++ message err)))) ;;
  match verified with
  | inl early => ret early
  | inr event =>
      handle_event event ;;
      ret (res_json (VObj [ ("received", VBool true) ]))
  end.

(** **** POST /api/send-welcome-email *)

(** [req_body] holds the properties of [req.body], an object; for
    [req.body] itself, whatever it is, see [Mounted]. *)
Definition post_send_welcome_email (req_body : list (string * value)) : M Response :=
  try_catch
    (let sessionId := prop req_body "sessionId" in
     let plan := prop req_body "plan" in
     console_log [Arg (VStr "📧 Sending welcome email for session:"); Arg sessionId;
                  Arg (VStr "plan:"); Arg plan] ;;
     (if ToBoolean sessionId then
        try_catch
          (stripe_member "checkout" ;;
           emit (StripeCall "checkout.sessions.retrieve" [sessionId]) ;;
           w <- world ;;
           session <- await (stripe_sessions_retrieve w sessionId) ;;
           customer_details <- member session "customer_details" ;;
           let customerEmail := opt_get customer_details "email" in
           console_log [Arg (VStr "   Customer email:"); Arg customerEmail] ;;
           console_log [Arg (VStr "✅ Welcome email queued for:"); Arg customerEmail])
          (fun e =>
             console_log [Arg (VStr "Could not retrieve session:");
                          Arg (VStr (message e))])
      else ret tt) ;;
     ret (res_json (VObj [ ("success", VBool true);
                           ("message", VStr "Welcome email queued") ])))
    (fun error =>
       console_error [Arg (VStr "❌ Failed to send welcome email:");
                      Arg (VStr (message error))] ;;
       ret (res_status_json 500 (VObj [
         ("success", VBool false);
         ("error", VStr (message error)) ]))).

(** **** POST /api/create-checkout-session *)

(** The request body may hold any JSON value in any field, so the
    handler's [+], [*] and [String()] coerce.  The two conversions
    between numbers and their decimal text are those of the language;
    the handler is defined, and its properties hold, for any such
    pair. *)
Section Coercions.
Variable NumberToString : float -> string.
Variable StringToNumber : string -> float.

(** [ToString]; an array joins its elements with commas
    ([undefined] and [null] elements as empty text). *)
Fixpoint ToString (v : value) : string :=
  match v with
  | VUndefined => "undefined"
  | VNull => "null"
  | VBool true => "true"
  | VBool false => "false"
  | VNum x => NumberToString x
  | VStr s => s
  | VArr items =>
      (fix join (l : list value) : string :=
         match l with
         | [] => ""
         | [x] => if nullish x then "" else ToString x
         | x :: l' => (if nullish x then "" else ToString x) ++ "," ++ join l'
         end) items
  | VObj _ => "[object Object]"
  end.

(** [ToNumber] *)
Definition ToNumber (v : value) : float :=
  match v with
  | VUndefined => nan
  | VNull => zero
  | VBool true => one
  | VBool false => zero
  | VNum x => x
  | VStr s => StringToNumber s
  | VArr _ | VObj _ => StringToNumber (ToString v)
  end.

(** The object literal [sessionConfig], from the destructured body. *)
Definition sessionConfig
  (productId planName currency amount successUrl cancelUrl : value) : value :=
  VObj [
    ("payment_method_types", VArr [VStr "card"]);
    ("mode", VStr "subscription");
    ("success_url", VStr (ToString successUrl ++ "&session_id={CHECKOUT_SESSION_ID}"));
    ("cancel_url", cancelUrl);
    ("line_items", VArr [
       VObj [
         ("price_data", VObj [
            ("currency", or currency (VStr "usd"));
            ("product", productId);
            ("unit_amount",
             VNum (Math_round (ToNumber (or amount (VNum 149)) * 100)));
            ("recurring", VObj [ ("interval", VStr "month") ]) ]);
         ("quantity", VNum 1) ] ]);
    ("metadata", VObj [
       ("planName", planName);
       ("productId", productId);
       ("currency", currency);
       ("amount", VStr (ToString amount)) ]) ].

(** [req_body] holds the properties of [req.body], an object; for
    [req.body] itself, whatever it is, see [Mounted]. *)
Definition post_create_checkout_session (req_body : list (string * value))
  : M Response :=
  try_catch
    (let productId := prop req_body "productId" in
     let planName := prop req_body "planName" in
     let currency := prop req_body "currency" in
     let amount := prop req_body "amount" in
     let successUrl := prop req_body "successUrl" in
     let cancelUrl := prop req_body "cancelUrl" in
     console_log [Arg (VStr "💳 Creating Stripe checkout session")] ;;
     console_log [Arg (VStr "   Plan:"); Arg planName] ;;
     console_log [Arg (VStr "   Product ID:"); Arg productId] ;;
     console_log [Arg (VStr "   Currency:"); Arg currency] ;;
     console_log [Arg (VStr "   Amount:"); Arg amount] ;;
     console_log [Arg (VStr "   Success URL:"); Arg successUrl] ;;
     c <- env ;;
     if negb (stripe_loaded c) then
       console_error [Arg (VStr "❌ Stripe not initialized - missing STRIPE_SECRET_KEY")] ;;
       ret (res_status_json 500 (VObj [
         ("success", VBool false);
         ("error", VStr "Payment system not configured. Please contact support.") ]))
     else if negb (ToBoolean productId) then
       console_error [Arg (VStr "❌ Missing product ID")] ;;
       ret (res_status_json 400 (VObj [
         ("success", VBool false);
         ("error", VStr "Missing product ID") ]))
     else
       let config :=
         sessionConfig productId planName currency amount successUrl cancelUrl in
       console_log [Arg (VStr "📦 Session config:"); ArgJson config] ;;
       emit (StripeCall "checkout.sessions.create" [config]) ;;
       w <- world ;;
       session <- await (stripe_sessions_create w config) ;;
       console_log [Arg (VStr "✅ Checkout session created:"); Arg (session_id session)] ;;
       console_log [Arg (VStr "   URL:"); Arg (session_url session)] ;;
       ret (res_json (VObj [
         ("success", VBool true);
         ("sessionId", session_id session);
         ("url", session_url session) ])))
    (fun error =>
       console_error [Arg (VStr "❌ Failed to create checkout session")] ;;
       console_error [Arg (VStr "   Error type:"); Arg (type error)] ;;
       console_error [Arg (VStr "   Error message:"); Arg (VStr (message error))] ;;
       console_error [Arg (VStr "   Error code:"); Arg (code error)] ;;
       console_error [Arg (VStr "   Full error:"); ArgError error] ;;
       ret (res_status_json 500 (VObj [
         ("success", VBool false);
         ("error", or (VStr (message error))
                      (VStr "Failed to create checkout session")) ]))).

End Coercions.

End Server.
Import Server.

(* ================================================================== *)
(** ** The outcomes of [getZoomAccessToken], by case *)

(** The three lines logged before the credentials are checked. *)
Definition token_trace_prefix (c : Config) : list event :=
  [ Console "log" [Arg (VStr "🔄 Requesting new Zoom access token...")];
    Console "log" [Arg (VStr "   Account ID:"); Arg (set_or_missing (ZOOM_ACCOUNT_ID c))];
    Console "log" [Arg (VStr "   Client ID:"); Arg (set_or_missing (ZOOM_CLIENT_ID c))] ].

(** The three lines logged by the [catch] block for [error]. *)
Definition token_trace_failure (error : Error) : list event :=
  [ Console "error" [Arg (VStr "❌ Failed to get Zoom access token:")];
    Console "error" [Arg (VStr "   Status:"); Arg (response_status error)];
    Console "error" [Arg (VStr "   Error:"); ArgJson (response_data error)] ].

(** The three lines logged after a token was stored. *)
Definition token_trace_success (d : TokenData) : list event :=
  [ Console "log" [Arg (VStr "✅ Zoom access token obtained successfully")];
    Console "log" [Arg (VStr "   Token starts with:");
                   Arg (VStr (substring0 20 (access_token d) ++ "..."))];
    Console "log" [Arg (VStr "   Expires in:"); Arg (VNum (expires_in d));
                   Arg (VStr "seconds")] ].

(** The one request [getZoomAccessToken] can send, and the world's
    answer to it. *)
Definition token_request (c : Config) : event :=
  AxiosPost token_url (VStr (token_request_body c)) (token_request_headers c).

Definition upstream (c : Config) (w : World) : Settled TokenData :=
  zoom_oauth_token w (token_request_body c) (token_request_headers c).

(** The time the token is stored at, and the expiry computed from it. *)
Definition stored_at (c : Config) (w : World) : float :=
  resumed_at (upstream c w).

Definition new_expiry (c : Config) (w : World) (d : TokenData) : float :=
  (stored_at c w + (expires_in d - 300) * 1000)%float.

(** The error every failing call throws. *)
Definition auth_error : Error := new_Error auth_failed_message.

(** Every execution of [getZoomAccessToken] is one of four: a cache
    hit, a refusal for missing credentials, a stored token, a failed
    exchange.  [s] is the state the call starts in. *)
Definition getZoomAccessToken_cases (c : Config) (w : World) (s : State)
  : (Error + option string) * State :=
  if cache_hit (cache s) (clock s) then
    (inr (accessToken (cache s)),
     {| cache := cache s; clock := clock s;
        trace := trace s ++ [Console "log" [Arg (VStr "📦 Using cached token")]] |})
  else if credentials_missing c then
    (inl auth_error,
     {| cache := cache s; clock := clock s;
        trace := trace s ++ token_trace_prefix c
                 ++ token_trace_failure (new_Error missing_credentials_message) |})
  else
    match result (upstream c w) with
    | inr d =>
        (inr (Some (access_token d)),
         {| cache := {| accessToken := Some (access_token d);
                        tokenExpiry := Some (new_expiry c w d) |};
            clock := stored_at c w;
            trace := trace s ++ token_trace_prefix c ++ [token_request c]
                     ++ token_trace_success d |})
    | inl error =>
        (inl auth_error,
         {| cache := cache s; clock := stored_at c w;
            trace := trace s ++ token_trace_prefix c ++ [token_request c]
                     ++ token_trace_failure error |})
    end.

(** The state a request starts in. *)
Definition initial (w : World) (k : Cache) : State :=
  {| cache := k; clock := now w; trace := [] |}.

(** The caches the server can hold: [null]/[null] at start-up, then
    whatever the routes that call [getZoomAccessToken] leave (no other
    code assigns the two variables). *)
Inductive reachable (c : Config) : Cache -> Prop :=
| reachable_start : reachable c empty_cache
| reachable_call (k : Cache) (w : World) :
    reachable c k ->
    reachable c (cache_after (run getZoomAccessToken c w k))
| reachable_test_token (k : Cache) (w : World) :
    reachable c k ->
    reachable c (cache_after (run get_test_token c w k))
| reachable_create_meeting (k : Cache) (w : World) (req_body : list (string * value)) :
    reachable c k ->
    reachable c (cache_after (run (post_create_meeting req_body) c w k)).

(** [s.includes(t)] *)
Definition includes (s t : string) : bool :=
  match String.index 0 t s with
  | Some _ => true
  | None => false
  end.

(** The strings inside a value: string leaves and property names. *)
Fixpoint strings_of (v : value) : list string :=
  match v with
  | VStr s => [s]
  | VArr items =>
      (fix all (l : list value) : list string :=
         match l with
         | [] => []
         | x :: l' => (strings_of x ++ all l')%list
         end) items
  | VObj props =>
      (fix all (l : list (string * value)) : list string :=
         match l with
         | [] => []
         | (k, x) :: l' => (k :: strings_of x ++ all l')%list
         end) props
  | _ => []
  end.

(** Own property test on a value. *)
Definition has_own (v : value) (k : string) : bool :=
  match v with
  | VObj ps => has_prop ps k
  | _ => false
  end.

(** The property names of an object, in order. *)
Definition own_keys (v : value) : list string :=
  match v with
  | VObj ps => List.map fst ps
  | _ => []
  end.

(** [!!x] for a variable of [process.env]: set and not empty. *)
Definition is_set (x : option string) : bool := ToBoolean (of_env x).

(* ================================================================== *)
(** ** Sample data *)

Module Sample.

Definition config : Config :=
  {| ZOOM_ACCOUNT_ID := Some "acct-1"; ZOOM_CLIENT_ID := Some "id";
     ZOOM_CLIENT_SECRET := Some "secret"; STRIPE_SECRET_KEY := Some "sk_test_1";
     STRIPE_WEBHOOK_SECRET := Some "whsec_1" |}.

(** The same deployment with other secrets. *)
Definition rotated : Config :=
  {| ZOOM_ACCOUNT_ID := Some "acct-2"; ZOOM_CLIENT_ID := Some "other-id";
     ZOOM_CLIENT_SECRET := Some "other-secret"; STRIPE_SECRET_KEY := Some "sk_test_2";
     STRIPE_WEBHOOK_SECRET := None |}.

Definition no_account : Config :=
  {| ZOOM_ACCOUNT_ID := None; ZOOM_CLIENT_ID := Some "id";
     ZOOM_CLIENT_SECRET := Some "secret"; STRIPE_SECRET_KEY := Some "sk_test_1";
     STRIPE_WEBHOOK_SECRET := Some "whsec_1" |}.

Definition no_secret : Config :=
  {| ZOOM_ACCOUNT_ID := Some "acct-1"; ZOOM_CLIENT_ID := Some "id";
     ZOOM_CLIENT_SECRET := None; STRIPE_SECRET_KEY := Some "sk_test_1";
     STRIPE_WEBHOOK_SECRET := Some "whsec_1" |}.

(** A transport failure, and a 401 answer with its body. *)
Definition refused : Error :=
  new_Error "connect ECONNREFUSED".

Definition unauthorized : Error :=
  {| message := "Request failed with status code 401";
     response := Some {| status := VNum 401;
                         data := VObj [ ("reason", VStr "Invalid client secret");
                                        ("error", VStr "invalid_client") ] |};
     type := VUndefined; code := VUndefined |}.

Definition bad_signature : Error :=
  new_Error "No signatures found matching the expected signature for payload.".

Definition token (n : float) : TokenData :=
  {| access_token := "tok-1"; expires_in := n |}.

Definition paid : StripeEvent :=
  {| event_type := "checkout.session.completed";
     event_object := [ ("id", VStr "cs_1");
                       ("customer_details", VObj [ ("email", VStr "a@b.c") ]);
                       ("metadata", VObj [ ("planName", VStr "Pro") ]) ] |}.

(** A world whose clock reads [t] when the request arrives and [t']
    after any await, with the given answers of Zoom's token endpoint
    and of Stripe's signature check. *)
Definition world_with (t t' : float) (tok : Error + TokenData)
  (ev : Error + StripeEvent) : World :=
  {| now := t;
     zoom_oauth_token := fun _ _ => mkSettled tok t';
     zoom_create_meeting := fun _ _ =>
       mkSettled (inr (VObj [ ("id", VNum 42); ("join_url", VStr "https://zoom.us/j/42") ])) t';
     stripe_constructEvent := fun _ _ _ => ev;
     stripe_sessions_create := fun _ =>
       mkSettled (inr {| session_id := VStr "cs_1"; session_url := VStr "https://pay/cs_1" |}) t';
     stripe_sessions_retrieve := fun _ => mkSettled (inl (new_Error "No such session")) t' |}.

(** The clock does not move during the exchange; Zoom grants [n] seconds. *)
Definition world (t : float) (n : float) : World :=
  world_with t t (inr (token n)) (inr paid).

(** The exchange takes a second. *)
Definition slow_world : World :=
  world_with 0 1000 (inr (token 3600)) (inr paid).

Definition failing_world (e : Error) : World :=
  world_with 4000000 4000000 (inl e) (inl bad_signature).

(** The cache after a token granted for an hour at time [0]. *)
Definition cached : Cache :=
  {| accessToken := Some "tok-1"; tokenExpiry := Some 3300000%float |}.

(** Request bodies. *)
Definition checkout_body : list (string * value) :=
  [ ("productId", VStr "p1"); ("planName", VStr "Pro"); ("currency", VStr "usd");
    ("amount", VNum 149); ("successUrl", VStr "https://app.example/ok?plan=pro");
    ("cancelUrl", VStr "https://app.example/cancel") ].

Definition meeting_body (startTime : value) : list (string * value) :=
  [ ("topic", VStr "Weekly sync"); ("startTime", startTime); ("duration", VNum 30) ].

(** Stand-ins for the two number/text conversions. *)
Definition number_text (x : float) : string := "n".
Definition text_number (s : string) : float := nan.

End Sample.

(* ================================================================== *)
(** ** The billing portal route *)

Module Portal.
Local Open Scope js_scope.

(** The two methods of the Stripe SDK the route calls:
    [stripe.customers.list], of which the handler reads the [data]
    array, and [stripe.billingPortal.sessions.create]. *)
Record Sdk : Type := mkSdk {
  customers_list : value -> Settled (list value);
  billingPortal_sessions_create : value -> Settled value
}.

Definition no_billing_account_message : string :=
  "No billing account found. If you recently subscribed, please try again in a few minutes.".

(** The argument of [stripe.customers.list]. *)
Definition customer_query (email : value) : value :=
  VObj [ ("email", email); ("limit", VNum 1) ].

(** The argument of [stripe.billingPortal.sessions.create]. *)
Definition portal_params (customerId returnUrl : value) : value :=
  VObj [ ("customer", customerId);
         ("return_url", or returnUrl (VStr "https://meetsync.app")) ].

(** [app.post('/api/create-portal-session')]; [req_body] holds the
    properties of [req.body], an object; for [req.body] itself,
    whatever it is, see [Mounted]. *)
Definition post_create_portal_session (stripe : Sdk)
  (req_body : list (string * value)) : M Response :=
  try_catch
    (let email := prop req_body "email" in
     let returnUrl := prop req_body "returnUrl" in
     console_log [Arg (VStr "🔧 Creating billing portal session for email:"); Arg email] ;;
     c <- env ;;
     if negb (stripe_loaded c) then
       ret (res_status_json 500 (VObj [
         ("success", VBool false);
         ("error", VStr "Payment system not configured.") ]))
     else if negb (ToBoolean email) then
       ret (res_status_json 400 (VObj [
         ("success", VBool false);
         ("error", VStr "Email not provided.") ]))
     else
       emit (StripeCall "customers.list" [customer_query email]) ;;
       customers_data <- await (customers_list stripe (customer_query email)) ;;
       match customers_data with
       | [] =>
           console_log [Arg (VStr "❌ No customer found for email:"); Arg email] ;;
           ret (res_status_json 404 (VObj [
             ("success", VBool false);
             ("error", VStr no_billing_account_message) ]))
       | first :: _ =>
           customerId <- member first "id" ;;
           console_log [Arg (VStr "✅ Found customer:"); Arg customerId] ;;
           emit (StripeCall "billingPortal.sessions.create"
                   [portal_params customerId returnUrl]) ;;
           portalSession <- await (billingPortal_sessions_create stripe
                                     (portal_params customerId returnUrl)) ;;
           id <- member portalSession "id" ;;
           console_log [Arg (VStr "✅ Portal session created:"); Arg id] ;;
           ret (res_json (VObj [
             ("success", VBool true);
             ("url", get portalSession "url") ]))
       end)
    (fun error =>
       console_error [Arg (VStr "❌ Failed to create portal session:");
                      Arg (VStr (message error))] ;;
       ret (res_status_json 500 (VObj [
         ("success", VBool false);
         ("error", VStr (message error)) ]))).

End Portal.

(* ================================================================== *)
(** ** The first version of the token accessor *)

(** The oldest copy of [server/index.js] holds the three credentials as
    constants of the file (read here from the configuration, where they
    are then all set), has no credentials check, and logs the account
    id and the client id themselves. *)
Module Legacy.
Local Open Scope js_scope.

Definition refresh_token : M (option string) :=
  c <- env ;;
  console_log [Arg (VStr "🔄 Requesting new Zoom access token...")] ;;
  console_log [Arg (VStr "   Account ID:"); Arg (of_env (ZOOM_ACCOUNT_ID c))] ;;
  console_log [Arg (VStr "   Client ID:"); Arg (of_env (ZOOM_CLIENT_ID c))] ;;
  emit (AxiosPost token_url (VStr (token_request_body c)) (token_request_headers c)) ;;
  w <- world ;;
  rdata <- await (zoom_oauth_token w (token_request_body c) (token_request_headers c)) ;;
  set_accessToken (access_token rdata) ;;
  t <- Date_now ;;
  set_tokenExpiry (t + (expires_in rdata - 300) * 1000)%float ;;
  console_log [Arg (VStr "✅ Zoom access token obtained successfully")] ;;
  console_log [Arg (VStr "   Token starts with:");
               Arg (VStr (substring0 20 (access_token rdata) ++ "..."))] ;;
  console_log [Arg (VStr "   Expires in:"); Arg (VNum (expires_in rdata));
               Arg (VStr "seconds")] ;;
  return_accessToken.

Definition getZoomAccessToken : M (option string) :=
  k <- get_cache ;;
  t <- Date_now ;;
  if cache_hit k t then
    console_log [Arg (VStr "📦 Using cached token")] ;;
    return_accessToken
  else
    try_catch refresh_token refresh_failed.

End Legacy.

(* ================================================================== *)
(** ** Reading a trace *)

Definition is_console (ev : event) : bool :=
  match ev with
  | Console _ _ => true
  | _ => false
  end.

(** What a run wrote to the console, what it sent over HTTP, and what
    it asked of the Stripe SDK. *)
Definition console_of (t : list event) : list event := List.filter is_console t.

Definition posts_of (t : list event) : list event := List.filter is_request t.

Definition is_stripe_call (ev : event) : bool :=
  match ev with
  | StripeCall _ _ => true
  | _ => false
  end.

Definition stripe_calls_of (t : list event) : list event :=
  List.filter is_stripe_call t.

(** The request [post_create_meeting] sends with token [tok]. *)
Definition meeting_request (req_body : list (string * value)) (tok : option string)
  : event :=
  AxiosPost meetings_url
    (meetingData (prop req_body "topic") (prop req_body "duration"))
    (meeting_headers tok).

(** The world's answer to that request. *)
Definition meeting_answer (w : World) (req_body : list (string * value))
  (tok : option string) : Settled value :=
  zoom_create_meeting w
    (meetingData (prop req_body "topic") (prop req_body "duration"))
    (meeting_headers tok).

(** The status code of a response, when the handler answered. *)
Definition http_status_of (r : Error + Response) : option Z :=
  match r with
  | inr resp => Some (http_status resp)
  | inl _ => None
  end.

(** The status codes of a response. *)
Definition status_in (codes : list Z) (r : Error + Response) : Prop :=
  match r with
  | inr resp => In (http_status resp) codes
  | inl _ => False
  end.

(* ================================================================== *)
(** ** More sample data *)

Module Scenario.

(** A world given by each of its answers. *)
Definition make (t : float) (tok : Settled TokenData) (meeting : Settled value)
  (ev : Error + StripeEvent) (created : Settled StripeSession)
  (retrieved : Settled value) : World :=
  {| now := t;
     zoom_oauth_token := fun _ _ => tok;
     zoom_create_meeting := fun _ _ => meeting;
     stripe_constructEvent := fun _ _ _ => ev;
     stripe_sessions_create := fun _ => created;
     stripe_sessions_retrieve := fun _ => retrieved |}.

Definition granted (tok : string) : Settled TokenData :=
  mkSettled (inr {| access_token := tok; expires_in := 3600 |}) 0.

Definition meeting_created : Settled value :=
  mkSettled (inr (VObj [ ("id", VNum 42); ("join_url", VStr "https://zoom.us/j/42");
                         ("start_url", VStr "https://zoom.us/s/42");
                         ("password", VStr "pw"); ("topic", VStr "Weekly sync") ])) 0.

(** Zoom refuses the meeting with a 400 and a message. *)
Definition meeting_refused : Settled value :=
  mkSettled (inl {| message := "Request failed with status code 400";
                    response := Some {| status := VNum 400;
                                        data := VObj [ ("code", VNum 300);
                                                       ("message", VStr "Invalid field.") ] |};
                    type := VUndefined; code := VUndefined |}) 0.

Definition session_created : Settled StripeSession :=
  mkSettled (inr {| session_id := VStr "cs_1"; session_url := VStr "https://pay/cs_1" |}) 0.

Definition card_error : Error :=
  {| message := "No such product: 'p1'"; response := None;
     type := VStr "StripeInvalidRequestError"; code := VStr "resource_missing" |}.

Definition subscription_event : StripeEvent :=
  {| event_type := "invoice.paid"; event_object := [ ("id", VStr "in_1") ] |}.

Definition world_of (tok : Settled TokenData) (meeting : Settled value) : World :=
  make 0 tok meeting (inr subscription_event) session_created
    (mkSettled (inr (VObj [ ("customer_details", VObj [ ("email", VStr "a@b.c") ]) ])) 0).

Definition stripe_world (created : Settled StripeSession) : World :=
  make 0 (granted "tok-1") meeting_created (inr subscription_event) created
    (mkSettled (inl (new_Error "No such session")) 0).

(** Two tokens with the same first twenty characters. *)
Definition token_a : string := "eyJhbGciOiJIUzUxMiIs.first-secret-part".
Definition token_b : string := "eyJhbGciOiJIUzUxMiIs.another-secret".

(** Stripe with one customer for every e-mail, and with none. *)
Definition sdk_one : Portal.Sdk :=
  {| Portal.customers_list := fun _ =>
       mkSettled (inr [ VObj [ ("id", VStr "cus_1") ]; VObj [ ("id", VStr "cus_2") ] ]) 0;
     Portal.billingPortal_sessions_create := fun _ =>
       mkSettled (inr (VObj [ ("id", VStr "bps_1"); ("url", VStr "https://billing/bps_1") ])) 0 |}.

Definition sdk_none : Portal.Sdk :=
  {| Portal.customers_list := fun _ => mkSettled (inr []) 0;
     Portal.billingPortal_sessions_create := fun _ =>
       mkSettled (inl (new_Error "unreachable")) 0 |}.

Definition sdk_down : Portal.Sdk :=
  {| Portal.customers_list := fun _ => mkSettled (inl (new_Error "connect ETIMEDOUT")) 0;
     Portal.billingPortal_sessions_create := fun _ =>
       mkSettled (inl (new_Error "unreachable")) 0 |}.

Definition no_stripe : Config :=
  {| ZOOM_ACCOUNT_ID := Some "acct-1"; ZOOM_CLIENT_ID := Some "id";
     ZOOM_CLIENT_SECRET := Some "secret"; STRIPE_SECRET_KEY := None;
     STRIPE_WEBHOOK_SECRET := None |}.

End Scenario.

(* ================================================================== *)
(** ** The routes as Express mounts them *)

(** The handlers of [Server] and [Portal] are given the properties of
    [req.body], an object.  Mounted behind [app.use(express.json())]
    (l.17), a handler receives whatever the parser left in [req.body]:
    the parsed object or array, or, for a request without a JSON body,
    [{}] under Express 4 and [undefined] under Express 5.  Here each
    handler takes [req.body] itself, whatever it is; on an object it is
    the handler above. *)
Module Mounted.
Local Open Scope js_scope.

(** [const { first, ... } = v], where [v] is written [source] in the
    program: a [TypeError] when [v] is [undefined] or [null] (V8's
    wording, which names the first property of the pattern).
    Otherwise the properties are read one by one, with [get]. *)
Definition destructure (v : value) (source first : string) : M unit :=
  match v with
  | VUndefined =>
      throw (new_Error ("Cannot destructure property '" ++ first ++ "' of '"
                        ++ source ++ "' as it is undefined."))
  | VNull =>
      throw (new_Error ("Cannot destructure property '" ++ first ++ "' of '"
                        ++ source ++ "' as it is null."))
  | _ => ret tt
  end.

(** [app.post('/api/create-meeting')] *)
Definition create_meeting (req_body : value) : M Response :=
  try_catch
    (destructure req_body "req.body" "topic" ;;
     let topic := get req_body "topic" in
     let startTime := get req_body "startTime" in
     let duration := get req_body "duration" in
     console_log [Arg (VStr "📅 Creating meeting:"); Arg topic] ;;
     token <- getZoomAccessToken ;;
     console_log [Arg (VStr "📤 Sending request to Zoom API...")] ;;
     emit (AxiosPost meetings_url (meetingData topic duration) (meeting_headers token)) ;;
     w <- world ;;
     rdata <- await (zoom_create_meeting w (meetingData topic duration)
                       (meeting_headers token)) ;;
     id <- member rdata "id" ;;
     console_log [Arg (VStr "✅ Zoom meeting created:"); Arg id] ;;
     console_log [Arg (VStr "   Join URL:"); Arg (get rdata "join_url")] ;;
     ret (res_json (VObj [
       ("success", VBool true);
       ("meeting", VObj [
          ("id", get rdata "id");
          ("joinUrl", get rdata "join_url");
          ("startUrl", get rdata "start_url");
          ("password", get rdata "password");
          ("topic", get rdata "topic") ]) ])))
    (fun error =>
       console_error [Arg (VStr "❌ Failed to create meeting:")] ;;
       console_error [Arg (VStr "   Status:"); Arg (response_status error)] ;;
       console_error [Arg (VStr "   Error:"); ArgJson (response_data error)] ;;
       ret (res_status_json 500 (VObj [
         ("success", VBool false);
         ("error", or (opt_get (response_data error) "message")
                      (VStr "Failed to create Zoom meeting")) ]))).

(** [app.post('/api/send-welcome-email')] *)
Definition send_welcome_email (req_body : value) : M Response :=
  try_catch
    (destructure req_body "req.body" "sessionId" ;;
     let sessionId := get req_body "sessionId" in
     let plan := get req_body "plan" in
     console_log [Arg (VStr "📧 Sending welcome email for session:"); Arg sessionId;
                  Arg (VStr "plan:"); Arg plan] ;;
     (if ToBoolean sessionId then
        try_catch
          (stripe_member "checkout" ;;
           emit (StripeCall "checkout.sessions.retrieve" [sessionId]) ;;
           w <- world ;;
           session <- await (stripe_sessions_retrieve w sessionId) ;;
           customer_details <- member session "customer_details" ;;
           let customerEmail := opt_get customer_details "email" in
           console_log [Arg (VStr "   Customer email:"); Arg customerEmail] ;;
           console_log [Arg (VStr "✅ Welcome email queued for:"); Arg customerEmail])
          (fun e =>
             console_log [Arg (VStr "Could not retrieve session:");
                          Arg (VStr (message e))])
      else ret tt) ;;
     ret (res_json (VObj [ ("success", VBool true);
                           ("message", VStr "Welcome email queued") ])))
    (fun error =>
       console_error [Arg (VStr "❌ Failed to send welcome email:");
                      Arg (VStr (message error))] ;;
       ret (res_status_json 500 (VObj [
         ("success", VBool false);
         ("error", VStr (message error)) ]))).

(** [app.post('/api/create-portal-session')] *)
Definition create_portal_session (stripe : Portal.Sdk) (req_body : value)
  : M Response :=
  try_catch
    (destructure req_body "req.body" "email" ;;
     let email := get req_body "email" in
     let returnUrl := get req_body "returnUrl" in
     console_log [Arg (VStr "🔧 Creating billing portal session for email:"); Arg email] ;;
     c <- env ;;
     if negb (stripe_loaded c) then
       ret (res_status_json 500 (VObj [
         ("success", VBool false);
         ("error", VStr "Payment system not configured.") ]))
     else if negb (ToBoolean email) then
       ret (res_status_json 400 (VObj [
         ("success", VBool false);
         ("error", VStr "Email not provided.") ]))
     else
       emit (StripeCall "customers.list" [Portal.customer_query email]) ;;
       customers_data <- await (Portal.customers_list stripe
                                  (Portal.customer_query email)) ;;
       match customers_data with
       | [] =>
           console_log [Arg (VStr "❌ No customer found for email:"); Arg email] ;;
           ret (res_status_json 404 (VObj [
             ("success", VBool false);
             ("error", VStr Portal.no_billing_account_message) ]))
       | first :: _ =>
           customerId <- member first "id" ;;
           console_log [Arg (VStr "✅ Found customer:"); Arg customerId] ;;
           emit (StripeCall "billingPortal.sessions.create"
                   [Portal.portal_params customerId returnUrl]) ;;
           portalSession <- await (Portal.billingPortal_sessions_create stripe
                                     (Portal.portal_params customerId returnUrl)) ;;
           id <- member portalSession "id" ;;
           console_log [Arg (VStr "✅ Portal session created:"); Arg id] ;;
           ret (res_json (VObj [
             ("success", VBool true);
             ("url", get portalSession "url") ]))
       end)
    (fun error =>
       console_error [Arg (VStr "❌ Failed to create portal session:");
                      Arg (VStr (message error))] ;;
       ret (res_status_json 500 (VObj [
         ("success", VBool false);
         ("error", VStr (message error)) ]))).

Section Coercions.
Variable NumberToString : float -> string.
Variable StringToNumber : string -> float.

(** [app.post('/api/create-checkout-session')] *)
Definition create_checkout_session (req_body : value) : M Response :=
  try_catch
    (destructure req_body "req.body" "productId" ;;
     let productId := get req_body "productId" in
     let planName := get req_body "planName" in
     let currency := get req_body "currency" in
     let amount := get req_body "amount" in
     let successUrl := get req_body "successUrl" in
     let cancelUrl := get req_body "cancelUrl" in
     console_log [Arg (VStr "💳 Creating Stripe checkout session")] ;;
     console_log [Arg (VStr "   Plan:"); Arg planName] ;;
     console_log [Arg (VStr "   Product ID:"); Arg productId] ;;
     console_log [Arg (VStr "   Currency:"); Arg currency] ;;
     console_log [Arg (VStr "   Amount:"); Arg amount] ;;
     console_log [Arg (VStr "   Success URL:"); Arg successUrl] ;;
     c <- env ;;
     if negb (stripe_loaded c) then
       console_error [Arg (VStr "❌ Stripe not initialized - missing STRIPE_SECRET_KEY")] ;;
       ret (res_status_json 500 (VObj [
         ("success", VBool false);
         ("error", VStr "Payment system not configured. Please contact support.") ]))
     else if negb (ToBoolean productId) then
       console_error [Arg (VStr "❌ Missing product ID")] ;;
       ret (res_status_json 400 (VObj [
         ("success", VBool false);
         ("error", VStr "Missing product ID") ]))
     else
       let config :=
         sessionConfig NumberToString StringToNumber
           productId planName currency amount successUrl cancelUrl in
       console_log [Arg (VStr "📦 Session config:"); ArgJson config] ;;
       emit (StripeCall "checkout.sessions.create" [config]) ;;
       w <- world ;;
       session <- await (stripe_sessions_create w config) ;;
       console_log [Arg (VStr "✅ Checkout session created:"); Arg (session_id session)] ;;
       console_log [Arg (VStr "   URL:"); Arg (session_url session)] ;;
       ret (res_json (VObj [
         ("success", VBool true);
         ("sessionId", session_id session);
         ("url", session_url session) ])))
    (fun error =>
       console_error [Arg (VStr "❌ Failed to create checkout session")] ;;
       console_error [Arg (VStr "   Error type:"); Arg (type error)] ;;
       console_error [Arg (VStr "   Error message:"); Arg (VStr (message error))] ;;
       console_error [Arg (VStr "   Error code:"); Arg (code error)] ;;
       console_error [Arg (VStr "   Full error:"); ArgError error] ;;
       ret (res_status_json 500 (VObj [
         ("success", VBool false);
         ("error", or (VStr (message error))
                      (VStr "Failed to create checkout session")) ]))).

End Coercions.

(** *** The body parsers in front of the webhook *)

(** A POST as it arrives: whether it carries a body, whether its
    [Content-Type] is [application/json], the bytes of the body (as
    text), what the JSON parser of [express.json()] makes of them (the
    value [JSON.parse] yields, [{}] for an empty body; [None] when they
    are not JSON), and the [stripe-signature] header. *)
Record Post : Type := mkPost {
  has_body : bool;
  is_json : bool;
  raw : string;
  parsed : option value;
  stripe_signature : value
}.

(** [req.body], and the mark a body parser sets once it has read the
    body ([req._body]). *)
Record Req : Type := mkReq {
  req_body : value;
  body_read : bool
}.

Inductive Express : Type := Express4 | Express5.

(** [req.body] of a request no parser has read: [{}] behind the
    parsers of Express 4, [undefined] behind those of Express 5. *)
Definition fresh (version : Express) : Req :=
  {| req_body := match version with
                 | Express4 => VObj []
                 | Express5 => VUndefined
                 end;
     body_read := false |}.

(** A body parser for the type [application/json].  It passes on,
    untouched, a request whose body has already been read, a request
    without a body, and a request of another type.  Otherwise it reads
    the body and stores what [parse] makes of it; when [parse] fails
    the request is refused ([None]). *)
Definition body_parser (parse : Post -> option value) (post : Post) (req : Req)
  : option Req :=
  if body_read req then Some req
  else if negb (has_body post) then Some req
  else if negb (is_json post) then Some req
  else
    match parse post with
    | Some v => Some {| req_body := v; body_read := true |}
    | None => None
    end.

(** [express.json()]: the parsed body, which must be an object or an
    array (strict mode, the default). *)
Definition express_json : Post -> Req -> option Req :=
  body_parser (fun post =>
                 match parsed post with
                 | Some (VObj ps) => Some (VObj ps)
                 | Some (VArr items) => Some (VArr items)
                 | _ => None
                 end).

(** [express.raw({ type: 'application/json' })]: the bytes of the body,
    a [Buffer] (held as text here). *)
Definition express_raw : Post -> Req -> option Req :=
  body_parser (fun post => Some (VStr (raw post))).

(** The answer to a request: the handler's, or the error Express sends
    itself when a body parser refuses the request (400 for malformed
    JSON), in which case the handler does not run. *)
Inductive Answer : Type :=
| FromHandler (r : Response)
| RefusedByParser.

(** [POST /api/stripe-webhook] as it is mounted: [express.json()] for
    every route (l.17), then the route's own [express.raw] (l.130),
    then the handler, with [sig = req.headers['stripe-signature']]. *)
Definition stripe_webhook (version : Express) (post : Post) : M Answer :=
  match express_json post (fresh version) with
  | None => ret RefusedByParser
  | Some req =>
      match express_raw post req with
      | None => ret RefusedByParser
      | Some req' =>
          r <- post_stripe_webhook (req_body req') (stripe_signature post) ;;
          ret (FromHandler r)
      end
  end.

(** A route that has only [express.json()] in front of its handler. *)
Definition json_route (version : Express) (post : Post)
  (handler : value -> M Response) : M Answer :=
  match express_json post (fresh version) with
  | None => ret RefusedByParser
  | Some req => r <- handler (req_body req) ;; ret (FromHandler r)
  end.

(** The raw body: a string or a [Buffer]. *)
Definition is_raw (payload : value) : bool :=
  match payload with
  | VStr _ => true
  | _ => false
  end.

(** What [stripe.webhooks.constructEvent] requires of its first
    argument: the signature is computed over the bytes received, so the
    SDK throws when given anything but the raw body (a parsed object,
    [undefined]). *)
Definition needs_raw_body (w : World) : Prop :=
  forall payload sig secret,
    is_raw payload = false ->
    exists err, stripe_constructEvent w payload sig secret = inl err.

End Mounted.

(* ================================================================== *)
(** ** Histories of requests *)

(** A request that can change the token cache: a call of the accessor
    itself, or one of the two routes that call it. *)
Inductive ZoomRequest : Type :=
| DirectCall
| TestToken
| CreateMeeting (req_body : list (string * value)).

(** The cache one request leaves, served in world [w] from cache [k]. *)
Definition cache_left (c : Config) (q : ZoomRequest) (w : World) (k : Cache) : Cache :=
  match q with
  | DirectCall => cache_after (run getZoomAccessToken c w k)
  | TestToken => cache_after (run get_test_token c w k)
  | CreateMeeting req_body => cache_after (run (post_create_meeting req_body) c w k)
  end.

(** The cache a sequence of requests leaves, each served in its own
    world, oldest first. *)
Fixpoint cache_over (c : Config) (history : list (ZoomRequest * World)) (k : Cache)
  : Cache :=
  match history with
  | [] => k
  | (q, w) :: rest => cache_over c rest (cache_left c q w k)
  end.

(** The properties of a body that is not an object: none. *)
Definition own_props (v : value) : list (string * value) :=
  match v with
  | VObj ps => ps
  | _ => []
  end.

(** A property of the JSON body of a response. *)
Definition body_field (r : Error + Response) (k : string) : value :=
  match r with
  | inr {| body := Json v |} => get v k
  | _ => VUndefined
  end.

(* ================================================================== *)
(** ** Sample deliveries *)

Module Delivery.

Definition quote : string := String "034"%char EmptyString.

Definition quoted (s : string) : string := quote ++ s ++ quote.

(** The bytes Stripe signed and sent, and the value [JSON.parse] makes
    of them. *)
Definition signed_text : string :=
  "{" ++ quoted "type" ++ ":" ++ quoted "checkout.session.completed" ++ ","
      ++ quoted "data" ++ ":{" ++ quoted "object" ++ ":{"
      ++ quoted "id" ++ ":" ++ quoted "cs_1" ++ "}}}".

Definition signed_json : value :=
  VObj [ ("type", VStr "checkout.session.completed");
         ("data", VObj [ ("object", VObj [ ("id", VStr "cs_1") ]) ]) ].

Definition signature_header : string := "t=1700000000,v1=5257a869e7ecebeda32affa62cdca3fa51cad7e77a0e56ff536d0ce8e108d8bd".

(** The event delivered by Stripe. *)
Definition signed_post : Mounted.Post :=
  {| Mounted.has_body := true; Mounted.is_json := true;
     Mounted.raw := signed_text; Mounted.parsed := Some signed_json;
     Mounted.stripe_signature := VStr signature_header |}.

(** A POST without a body. *)
Definition empty_post : Mounted.Post :=
  {| Mounted.has_body := false; Mounted.is_json := false;
     Mounted.raw := ""; Mounted.parsed := None;
     Mounted.stripe_signature := VUndefined |}.

(** An SDK that verifies the signed bytes under their signature and
    rejects everything else. *)
Definition constructEvent (payload sig secret : value) : Error + StripeEvent :=
  match payload, sig with
  | VStr text, VStr header =>
      if (text =? signed_text) && (header =? signature_header)
      then inr {| event_type := "checkout.session.completed";
                  event_object := [ ("id", VStr "cs_1") ] |}
      else inl Sample.bad_signature
  | _, _ => inl Sample.bad_signature
  end.

Definition world : World :=
  {| now := 0;
     zoom_oauth_token := fun _ _ => Scenario.granted "tok-1";
     zoom_create_meeting := fun _ _ => Scenario.meeting_created;
     stripe_constructEvent := constructEvent;
     stripe_sessions_create := fun _ => Scenario.session_created;
     stripe_sessions_retrieve := fun _ => mkSettled (inl (new_Error "No such session")) 0 |}.

End Delivery.

(* ================================================================== *)
(** ** Proof steps *)

(** Unfolds the monad: what remains is a case tree over the
    configuration, the cache and the answers of the world. *)
Ltac run_handler :=
  cbv beta iota zeta delta
    [run bind ret throw try_catch env world get_cache set_cache emit Date_now await
     console_log console_warn console_error stripe_member member
     outcome cache_after trace_of fst snd cache clock trace].

(** The same, leaving [run] and the projections of a result folded. *)
Ltac step_handler :=
  cbv beta iota zeta delta
    [bind ret throw try_catch env world get_cache set_cache emit Date_now await
     console_log console_warn console_error stripe_member member];
  cbn [fst snd cache clock trace].

(* ================================================================== *)
(** ** Built-ins on concrete inputs *)

Example Math_round_cents : Math_round (149 * 100) = 14900%float.
Proof. reflexivity. Qed.

Example Math_round_half_up :
  Math_round 2.5 = 3%float /\ Math_round (-2.5) = (-2)%float /\
  Math_round (-0.25) = neg_zero /\ Math_round 0.25 = zero.
Proof. repeat split; reflexivity. Qed.

Example base64_basic_pair :
  base64 "a:b" = "YTpi" /\ base64 "id:secret" = "aWQ6c2VjcmV0" /\
  base64 "ab" = "YWI=" /\ base64 "a" = "YQ==".
Proof. repeat split; reflexivity. Qed.

(* ================================================================== *)
(** ** Order on doubles *)

Lemma SFcompare_antisym (x y : spec_float) (o : comparison) :
  SFcompare x y = Some o -> SFcompare y x = Some (CompOpp o).
Proof.
  destruct x as [sx|sx| |sx mx ex], y as [sy|sy| |sy my ey]; cbn;
    try discriminate;
    try (destruct sx; try destruct sy; intros [= <-]; reflexivity);
    try (destruct sy; intros [= <-]; reflexivity).
  rewrite (Z.compare_antisym ex ey).
  change (Pos.compare_cont Eq my mx) with (Pos.compare_cont (CompOpp Eq) my mx).
  rewrite <- (Pos.compare_cont_antisym mx my Eq).
  destruct sx, sy; intros [= <-]; try reflexivity;
    destruct (ex ?= ey)%Z; cbn; try reflexivity;
    destruct (Pos.compare_cont Eq mx my); reflexivity.
Qed.

(** [e <= t] excludes [t < e], NaN included. *)
Lemma leb_ltb_false (e t : float) :
  (e <=? t)%float = true -> (t <? e)%float = false.
Proof.
  rewrite leb_spec, ltb_spec. unfold SFleb, SFltb.
  destruct (SFcompare (Prim2SF e) (Prim2SF t)) as [o|] eqn:E; [|discriminate].
  rewrite (SFcompare_antisym _ _ _ E).
  destruct o; cbn; congruence.
Qed.

(** An expiry later than a clock reading at or after the epoch is a
    non-zero number, hence truthy. *)
Lemma later_than_epoch_truthy (t e : float) :
  (0 <=? t)%float = true -> (t <? e)%float = true -> truthy_number e = true.
Proof.
  unfold truthy_number, is_zero, is_nan.
  rewrite leb_spec, ltb_spec, !eqb_spec.
  change (Prim2SF 0) with (S754_zero false).
  change (Prim2SF zero) with (S754_zero false).
  unfold SFleb, SFltb, SFeqb.
  destruct (Prim2SF t) as [st|st| |st mt et], (Prim2SF e) as [se|se| |se me ee]; cbn;
    try destruct st; try destruct se; cbn; try discriminate; try reflexivity.
  all: intros _ _; rewrite Z.compare_refl, Pos.compare_cont_refl; reflexivity.
Qed.

(* ================================================================== *)
(** ** The token cache *)

Lemma truthy_string_iff (s : string) : truthy_string s = true <-> s <> "".
Proof.
  unfold truthy_string. rewrite negb_true_iff. apply String.eqb_neq.
Qed.

(** The test at the top of [getZoomAccessToken], read on the cache. *)
Lemma cache_hit_iff (k : Cache) (t : float) :
  cache_hit k t = true <->
  exists tok e, accessToken k = Some tok /\ tok <> "" /\
                tokenExpiry k = Some e /\ truthy_number e = true /\
                (t <? e)%float = true.
Proof.
  unfold cache_hit, token_value, expiry_value, expiry_number.
  destruct k as [[tok|] [e|]]; cbn.
  - rewrite !andb_true_iff, truthy_string_iff. split.
    + intros [[H1 H2] H3]. exists tok, e. auto.
    + intros (tok' & e' & [= <-] & H1 & [= <-] & H2 & H3). auto.
  - rewrite andb_false_r. split; [discriminate|].
    intros (tok' & e' & _ & _ & [=] & _).
  - split; [discriminate|]. intros (tok' & e' & [=] & _).
  - split; [discriminate|]. intros (tok' & e' & [=] & _).
Qed.

Lemma cache_hit_empty (t : float) : cache_hit empty_cache t = false.
Proof. reflexivity. Qed.

(** With a clock that reads a time at or after the epoch, a non-empty
    token whose expiry lies ahead is a hit: the expiry is then a
    non-zero number. *)
Lemma cache_hit_after_epoch (k : Cache) (tok : string) (e t : float) :
  accessToken k = Some tok -> tok <> "" -> tokenExpiry k = Some e ->
  (0 <=? t)%float = true -> (t <? e)%float = true ->
  cache_hit k t = true.
Proof.
  intros Htok Hne He H0 Hlt. apply cache_hit_iff. exists tok, e.
  repeat split; try assumption. exact (later_than_epoch_truthy t e H0 Hlt).
Qed.

(** An empty token, or an expiry of zero, is no cached token: the call
    goes to the upstream even though the clock is before the expiry. *)
Example empty_token_is_no_hit :
  cache_hit {| accessToken := Some ""; tokenExpiry := Some 3300000%float |} 1000 = false
  /\ cache_hit {| accessToken := Some "tok-1"; tokenExpiry := Some 0%float |} (-1000) = false.
Proof. split; reflexivity. Qed.

(** [getZoomAccessToken] does what [getZoomAccessToken_cases] lists. *)
Lemma getZoomAccessToken_unfold (c : Config) (w : World) (s : State) :
  getZoomAccessToken c w s = getZoomAccessToken_cases c w s.
Proof.
  unfold getZoomAccessToken_cases, getZoomAccessToken, bind, get_cache, Date_now.
  destruct (cache_hit (cache s) (clock s)); [reflexivity|].
  unfold try_catch, refresh_token, bind, env, console_log, emit. cbn [cache clock trace].
  destruct (credentials_missing c).
  - cbn. rewrite <- !app_assoc. reflexivity.
  - unfold ret, world, await, upstream. cbn [cache clock trace].
    unfold stored_at, upstream.
    destruct (result _) as [error|d]; cbn; rewrite <- !app_assoc; reflexivity.
Qed.

Lemma getZoomAccessToken_run (c : Config) (w : World) (k : Cache) :
  run getZoomAccessToken c w k = getZoomAccessToken_cases c w (initial w k).
Proof. apply getZoomAccessToken_unfold. Qed.

(** Three calls: at 0 (exchange, an hour granted), at 3299 s (served
    from the cache) and at 3301 s (fresh exchange). *)
Example token_window_scenario :
  List.map (fun r => (outcome r, tokenExpiry (cache_after r), requests (trace_of r)))
    (calls getZoomAccessToken Sample.config
       [Sample.world 0 3600; Sample.world 3299000 3600; Sample.world 3301000 3600]
       empty_cache)
  = [ (inr (Some "tok-1"), Some 3300000%float, 1%nat);
      (inr (Some "tok-1"), Some 3300000%float, 0%nat);
      (inr (Some "tok-1"), Some 6601000%float, 1%nat) ].
Proof. reflexivity. Qed.

(** A call changes the cache only by storing a fresh token. *)
Lemma cache_after_call (c : Config) (w : World) (s : State) :
  cache (snd (getZoomAccessToken c w s)) = cache s \/
  (credentials_missing c = false /\
   exists d, cache (snd (getZoomAccessToken c w s)) =
             {| accessToken := Some (access_token d);
                tokenExpiry := Some (new_expiry c w d) |}).
Proof.
  rewrite getZoomAccessToken_unfold. unfold getZoomAccessToken_cases.
  destruct (cache_hit _ _); [left; reflexivity|].
  destruct (credentials_missing c); [left; reflexivity|].
  destruct (result _) as [error|d]; [left; reflexivity|].
  right. split; [reflexivity|]. exists d. reflexivity.
Qed.

(** The two routes that call [getZoomAccessToken] leave the cache it
    leaves. *)
Lemma test_token_cache (c : Config) (w : World) (k : Cache) :
  cache_after (run get_test_token c w k) =
  cache_after (run getZoomAccessToken c w k).
Proof.
  unfold cache_after, run, get_test_token, try_catch, bind.
  destruct (getZoomAccessToken c w _) as [[e|[tok|]] s']; reflexivity.
Qed.

Lemma create_meeting_cache (c : Config) (w : World) (k : Cache)
  (req_body : list (string * value)) :
  exists s, cache s = k /\
    cache_after (run (post_create_meeting req_body) c w k) =
    cache (snd (getZoomAccessToken c w s)).
Proof.
  exists {| cache := k; clock := now w;
            trace := [Console "log" [Arg (VStr "📅 Creating meeting:");
                                     Arg (prop req_body "topic")]] |}.
  split; [reflexivity|].
  unfold cache_after, run, post_create_meeting, try_catch, bind, console_log, emit.
  cbn [cache clock trace].
  destruct (getZoomAccessToken c w _) as [[e|tok] s']; [reflexivity|].
  unfold world, await, member. cbn [cache clock trace].
  destruct (result _) as [e|rdata]; [reflexivity|].
  destruct rdata; reflexivity.
Qed.

(** Invariant: a stored expiry witnesses that the three credentials are
    configured, because only a completed exchange stores one. *)
Lemma reachable_credentials (c : Config) (k : Cache) :
  reachable c k ->
  forall e, tokenExpiry k = Some e -> credentials_missing c = false.
Proof.
  assert (step : forall w s,
             (forall e, tokenExpiry (cache s) = Some e -> credentials_missing c = false) ->
             forall e, tokenExpiry (cache (snd (getZoomAccessToken c w s))) = Some e ->
                       credentials_missing c = false).
  { intros w s IH e. destruct (cache_after_call c w s) as [-> | [H _]]; eauto. }
  induction 1 as [|k w _ IH|k w _ IH|k w req_body _ IH]; intros e.
  - discriminate.
  - apply (step w (initial w k)). exact IH.
  - rewrite test_token_cache. apply (step w (initial w k)). exact IH.
  - destruct (create_meeting_cache c w k req_body) as (s & Hs & ->).
    apply step. rewrite Hs. exact IH.
Qed.

(** Invariant: the two variables are set together. *)
Lemma reachable_paired (c : Config) (k : Cache) :
  reachable c k ->
  k = empty_cache \/ exists tok e, k = {| accessToken := Some tok; tokenExpiry := Some e |}.
Proof.
  assert (step : forall w s,
             (cache s = empty_cache \/
              exists tok e, cache s = {| accessToken := Some tok; tokenExpiry := Some e |}) ->
             cache (snd (getZoomAccessToken c w s)) = empty_cache \/
             exists tok e, cache (snd (getZoomAccessToken c w s)) =
                           {| accessToken := Some tok; tokenExpiry := Some e |}).
  { intros w s IH. destruct (cache_after_call c w s) as [-> | [_ [d ->]]]; eauto. }
  induction 1 as [|k w _ IH|k w _ IH|k w req_body _ IH].
  - left; reflexivity.
  - apply (step w (initial w k)). exact IH.
  - rewrite test_token_cache. apply (step w (initial w k)). exact IH.
  - destruct (create_meeting_cache c w k req_body) as (s & Hs & ->).
    apply step. rewrite Hs. exact IH.
Qed.

(** C1. Whenever a cached token exists (both variables truthy: a
    non-empty token and an expiry that is a non-zero number) and the
    clock reads strictly less than the stored expiry, the call returns
    the cached token at once: no request is sent and the cache is left
    as it was.  So every call of a sequence made within that window
    returns the identical token without any exchange; and if the cache
    was filled by an earlier call that found no valid token, that call
    sent exactly one request and returned the same token. *)
Theorem cached_token_served_without_exchange
  (c : Config) (k : Cache) (tok : string) (e : float) (ws : list World) :
  accessToken k = Some tok -> tok <> "" ->
  tokenExpiry k = Some e -> truthy_number e = true ->
  Forall (fun w => (now w <? e)%float = true) ws ->
  Forall (fun r => outcome r = inr (Some tok) /\
                   requests (trace_of r) = 0%nat /\
                   cache_after r = k)
         (calls getZoomAccessToken c ws k)
  /\ (forall k0 w0 v s,
        cache_hit k0 (now w0) = false ->
        run getZoomAccessToken c w0 k0 = (inr v, s) -> cache s = k ->
        v = Some tok /\ requests (trace s) = 1%nat).
Proof.
  intros Htok Hne He Htruthy Hws. split.
  - induction Hws as [|w ws Hw _ IH]; cbn [calls]; [constructor|].
    assert (Hhit : cache_hit k (now w) = true).
    { apply cache_hit_iff. exists tok, e. auto. }
    assert (Hrun : run getZoomAccessToken c w k =
                   (inr (Some tok),
                    {| cache := k; clock := now w;
                       trace := [Console "log" [Arg (VStr "📦 Using cached token")]] |})).
    { rewrite getZoomAccessToken_run. unfold getZoomAccessToken_cases, initial.
      cbn [cache clock trace]. rewrite Hhit, Htok. reflexivity. }
    rewrite Hrun. constructor.
    + repeat split.
    + exact IH.
  - intros k0 w0 v s Hmiss Hrun Hk.
    rewrite getZoomAccessToken_run in Hrun. unfold getZoomAccessToken_cases, initial in Hrun.
    cbn [cache clock trace] in Hrun. rewrite Hmiss in Hrun.
    destruct (credentials_missing c); [discriminate|].
    destruct (result _) as [error|d]; [discriminate|].
    injection Hrun as <- <-. cbn in Hk. rewrite <- Hk in Htok. cbn in Htok.
    split; [exact Htok | reflexivity].
Qed.

Lemma cached_token_served_without_exchange_witness :
  Forall (fun r => outcome r = inr (Some "tok-1") /\
                   requests (trace_of r) = 0%nat /\
                   cache_after r = Sample.cached)
         (calls getZoomAccessToken Sample.config
            [Sample.world 1000 3600; Sample.world 3299000 3600] Sample.cached)
  /\ (forall k0 w0 v s,
        cache_hit k0 (now w0) = false ->
        run getZoomAccessToken Sample.config w0 k0 = (inr v, s) ->
        cache s = Sample.cached ->
        v = Some "tok-1" /\ requests (trace s) = 1%nat).
Proof.
  apply (cached_token_served_without_exchange Sample.config Sample.cached
           "tok-1" 3300000 [Sample.world 1000 3600; Sample.world 3299000 3600]).
  - reflexivity.
  - discriminate.
  - reflexivity.
  - reflexivity.
  - repeat constructor.
Defined.

(** What a call that finds no valid token and has its credentials
    does: one request, then a stored token or the generic error. *)
Lemma refresh_run (c : Config) (w : World) (k : Cache) :
  cache_hit k (now w) = false -> credentials_missing c = false ->
  run getZoomAccessToken c w k =
  match result (upstream c w) with
  | inr d =>
      (inr (Some (access_token d)),
       {| cache := {| accessToken := Some (access_token d);
                      tokenExpiry := Some (new_expiry c w d) |};
          clock := stored_at c w;
          trace := token_trace_prefix c ++ [token_request c] ++ token_trace_success d |})
  | inl error =>
      (inl auth_error,
       {| cache := k; clock := stored_at c w;
          trace := token_trace_prefix c ++ [token_request c]
                   ++ token_trace_failure error |})
  end.
Proof.
  intros Hmiss Hcred. rewrite getZoomAccessToken_run.
  unfold getZoomAccessToken_cases, initial. cbn [cache clock trace].
  rewrite Hmiss, Hcred. destruct (result _); reflexivity.
Qed.

Lemma refresh_sends_one_request (c : Config) (w : World) (k : Cache) :
  cache_hit k (now w) = false -> credentials_missing c = false ->
  requests (trace_of (run getZoomAccessToken c w k)) = 1%nat /\
  In (token_request c) (trace_of (run getZoomAccessToken c w k)).
Proof.
  intros Hmiss Hcred. rewrite (refresh_run c w k Hmiss Hcred).
  destruct (result _); split; try reflexivity;
    unfold trace_of; cbn; auto 6.
Qed.

(** C2 as stated fails when the exchange takes time.  The call is made
    when the clock reads 0 and Zoom grants 3600 seconds; the answer
    arrives when the clock reads 1000 (one second later).  The stored
    expiry is 3301000 ms, not 0 + (3600 - 300) s = 3300000 ms: the
    second [Date.now()] is read after the [await]. *)
Lemma expiry_is_not_counted_from_call_time :
  now Sample.slow_world = 0%float
  /\ outcome (run getZoomAccessToken Sample.config Sample.slow_world empty_cache)
     = inr (Some "tok-1")
  /\ tokenExpiry (cache_after (run getZoomAccessToken Sample.config
                                   Sample.slow_world empty_cache))
     = Some 3301000%float
  /\ (now Sample.slow_world + (3600 - 300) * 1000)%float = 3300000%float
  /\ (3301000 =? 3300000)%float = false.
Proof. repeat split; reflexivity. Qed.

(** C2, amended.  A call that finds no valid token, has its three
    credentials and gets a 2xx answer carrying [access_token] and
    [expires_in = N] stores the token, sets the expiry to
    [T + (N - 300) * 1000] ms where [T] is the clock reading taken when
    the answer is stored, and returns the stored token, after exactly
    one request.  When the clock has not moved during the exchange the
    expiry is the call time plus [N - 300] seconds; in particular with
    [N = 3600] at time 0 it is 3300000 ms, a call at 3299000 ms is then
    a cache hit (for a non-empty token) and a call at 3301000 ms sends
    a fresh request. *)
Theorem refresh_stores_token_and_expiry
  (c : Config) (w : World) (k : Cache) (d : TokenData) :
  cache_hit k (now w) = false -> credentials_missing c = false ->
  result (upstream c w) = inr d ->
  outcome (run getZoomAccessToken c w k) = inr (Some (access_token d))
  /\ cache_after (run getZoomAccessToken c w k)
     = {| accessToken := Some (access_token d);
          tokenExpiry := Some (stored_at c w + (expires_in d - 300) * 1000)%float |}
  /\ requests (trace_of (run getZoomAccessToken c w k)) = 1%nat
  /\ (stored_at c w = now w ->
      tokenExpiry (cache_after (run getZoomAccessToken c w k))
      = Some (now w + (expires_in d - 300) * 1000)%float)
  /\ (now w = 0%float -> stored_at c w = 0%float -> expires_in d = 3600%float ->
      access_token d <> "" ->
      tokenExpiry (cache_after (run getZoomAccessToken c w k)) = Some 3300000%float
      /\ (forall w1, now w1 = 3299000%float ->
            outcome (run getZoomAccessToken c w1
                       (cache_after (run getZoomAccessToken c w k)))
            = inr (Some (access_token d))
            /\ requests (trace_of (run getZoomAccessToken c w1
                                     (cache_after (run getZoomAccessToken c w k))))
               = 0%nat)
      /\ (forall w2, now w2 = 3301000%float ->
            requests (trace_of (run getZoomAccessToken c w2
                                  (cache_after (run getZoomAccessToken c w k))))
            = 1%nat)).
Proof.
  intros Hmiss Hcred Hd.
  rewrite (refresh_run c w k Hmiss Hcred), Hd.
  unfold outcome, cache_after, trace_of, new_expiry. cbn [fst snd cache trace].
  split; [reflexivity|]. split; [reflexivity|]. split; [reflexivity|].
  split; [intros ->; reflexivity|].
  intros Hnow Hat Hn Htok. rewrite Hat, Hn.
  change (0 + (3600 - 300) * 1000)%float with 3300000%float.
  split; [reflexivity|]. split.
  - intros w1 Hw1. rewrite getZoomAccessToken_run.
    unfold getZoomAccessToken_cases, initial. cbn [cache clock trace].
    replace (cache_hit _ (now w1)) with true; [split; reflexivity|].
    symmetry. apply cache_hit_iff. do 2 eexists.
    rewrite Hw1. repeat split; [exact Htok|reflexivity..].
  - intros w2 Hw2. apply refresh_sends_one_request; [|exact Hcred].
    rewrite Hw2. unfold cache_hit. cbn. apply andb_false_r.
Qed.

Lemma refresh_stores_token_and_expiry_witness :
  outcome (run getZoomAccessToken Sample.config (Sample.world 0 3600) empty_cache)
  = inr (Some "tok-1")
  /\ cache_after (run getZoomAccessToken Sample.config (Sample.world 0 3600) empty_cache)
     = Sample.cached.
Proof.
  destruct (refresh_stores_token_and_expiry Sample.config (Sample.world 0 3600)
              empty_cache (Sample.token 3600))
    as (Hout & Hcache & _); [reflexivity..|].
  split; [exact Hout | exact Hcache].
Defined.

Lemma credentials_missing_iff (c : Config) :
  credentials_missing c = true <->
  is_set (ZOOM_ACCOUNT_ID c) = false \/ is_set (ZOOM_CLIENT_ID c) = false \/
  is_set (ZOOM_CLIENT_SECRET c) = false.
Proof.
  unfold credentials_missing, is_set.
  rewrite !orb_true_iff, !negb_true_iff. tauto.
Qed.

(** C3 as stated fails on what the caller receives.  With the account
    id unset, and with the client secret unset, the call throws the same
    error, "Failed to authenticate with Zoom", which is also the error
    of a refused connection: the [throw] of the descriptive message sits
    inside the [try] whose [catch] replaces every error by the generic
    one.  The message names no credential. *)
Lemma missing_credentials_error_is_generic :
  outcome (run getZoomAccessToken Sample.no_account (Sample.world 0 3600) empty_cache)
  = inl (new_Error "Failed to authenticate with Zoom")
  /\ outcome (run getZoomAccessToken Sample.no_secret (Sample.world 0 3600) empty_cache)
     = inl (new_Error "Failed to authenticate with Zoom")
  /\ outcome (run getZoomAccessToken Sample.config
                (Sample.failing_world Sample.refused) empty_cache)
     = inl (new_Error "Failed to authenticate with Zoom")
  /\ includes "Failed to authenticate with Zoom" "ZOOM_ACCOUNT_ID" = false
  /\ includes "Failed to authenticate with Zoom" "ZOOM_CLIENT_SECRET" = false
  /\ includes "Failed to authenticate with Zoom" "Missing" = false.
Proof. repeat split; reflexivity. Qed.

(** C3, amended.  A call made while any of the three credentials is
    unset (or empty) and no valid cached token exists fails: it throws,
    sends no request, and leaves the cache as it was. *)
Theorem missing_credentials_fail_without_request
  (c : Config) (w : World) (k : Cache) :
  is_set (ZOOM_ACCOUNT_ID c) = false \/ is_set (ZOOM_CLIENT_ID c) = false \/
  is_set (ZOOM_CLIENT_SECRET c) = false ->
  cache_hit k (now w) = false ->
  (exists error, outcome (run getZoomAccessToken c w k) = inl error)
  /\ requests (trace_of (run getZoomAccessToken c w k)) = 0%nat
  /\ cache_after (run getZoomAccessToken c w k) = k.
Proof.
  intros Hcred Hmiss. apply credentials_missing_iff in Hcred.
  rewrite getZoomAccessToken_run.
  unfold getZoomAccessToken_cases, initial. cbn [cache clock trace].
  rewrite Hmiss, Hcred. split; [eexists; reflexivity|]. split; reflexivity.
Qed.

Lemma missing_credentials_fail_without_request_witness :
  (exists error,
      outcome (run getZoomAccessToken Sample.no_secret (Sample.world 0 3600) empty_cache)
      = inl error)
  /\ requests (trace_of (run getZoomAccessToken Sample.no_secret
                           (Sample.world 0 3600) empty_cache)) = 0%nat
  /\ cache_after (run getZoomAccessToken Sample.no_secret
                    (Sample.world 0 3600) empty_cache) = empty_cache.
Proof.
  apply (missing_credentials_fail_without_request Sample.no_secret
           (Sample.world 0 3600) empty_cache).
  - right. right. reflexivity.
  - reflexivity.
Defined.

(** C4. When the exchange fails, whether the transport failed ([error]
    without [response]) or the upstream answered outside 2xx ([error]
    with the answer's status and body), the cache is exactly what it was
    before the call, and the caller receives the fixed error "Failed to
    authenticate with Zoom", with no [response] attached: the same
    whatever the upstream said.  The upstream status and body go to
    [console.error] only. *)
Theorem failed_exchange_keeps_cache
  (c : Config) (w : World) (k : Cache) (error : Error) :
  cache_hit k (now w) = false -> credentials_missing c = false ->
  result (upstream c w) = inl error ->
  cache_after (run getZoomAccessToken c w k) = k
  /\ outcome (run getZoomAccessToken c w k)
     = inl {| message := "Failed to authenticate with Zoom"; response := None;
              type := VUndefined; code := VUndefined |}
  /\ trace_of (run getZoomAccessToken c w k)
     = (token_trace_prefix c ++ [token_request c] ++
        [ Console "error" [Arg (VStr "❌ Failed to get Zoom access token:")];
          Console "error" [Arg (VStr "   Status:"); Arg (response_status error)];
          Console "error" [Arg (VStr "   Error:"); ArgJson (response_data error)] ])%list.
Proof.
  intros Hmiss Hcred Herr.
  rewrite (refresh_run c w k Hmiss Hcred), Herr.
  repeat split.
Qed.

Lemma failed_exchange_keeps_cache_witness :
  cache_after (run getZoomAccessToken Sample.config
                 (Sample.failing_world Sample.unauthorized) Sample.cached)
  = Sample.cached
  /\ outcome (run getZoomAccessToken Sample.config
                (Sample.failing_world Sample.unauthorized) Sample.cached)
     = inl (new_Error "Failed to authenticate with Zoom").
Proof.
  destruct (failed_exchange_keeps_cache Sample.config
              (Sample.failing_world Sample.unauthorized) Sample.cached
              Sample.unauthorized)
    as (Hcache & Hout & _); [reflexivity..|].
  split; [exact Hcache | exact Hout].
Defined.

(** Every token a call returns is the cached one served strictly before
    its expiry, or the [access_token] of the exchange just performed. *)
Lemma returned_token_origin (c : Config) (w : World) (k : Cache) (v : option string) :
  outcome (run getZoomAccessToken c w k) = inr v ->
  (exists tok e, accessToken k = Some tok /\ tokenExpiry k = Some e /\
                 (now w <? e)%float = true /\ v = Some tok /\
                 requests (trace_of (run getZoomAccessToken c w k)) = 0%nat)
  \/ (exists d, cache_hit k (now w) = false /\ result (upstream c w) = inr d /\
                v = Some (access_token d) /\
                requests (trace_of (run getZoomAccessToken c w k)) = 1%nat).
Proof.
  rewrite getZoomAccessToken_run.
  unfold getZoomAccessToken_cases, initial. cbn [cache clock trace].
  destruct (cache_hit k (now w)) eqn:Hhit.
  - apply cache_hit_iff in Hhit. destruct Hhit as (tok & e & Htok & _ & He & _ & Hlt).
    intros [= <-]. left. exists tok, e. auto.
  - destruct (credentials_missing c); [discriminate|].
    destruct (result _) as [error|d]; [discriminate|].
    intros [= <-]. right. exists d. auto.
Qed.

(** C8. A cached token whose stored expiry has passed ([now >=
    expiresAt]) is treated as absent: the call does not take the cache
    path, it returns or throws and logs exactly what it would with the
    cache empty, and it sends one fresh request; a token it returns is
    the [access_token] just received.  In general, every token value a
    call returns is either the cached one, served strictly before its
    stored expiry and without a request, or the [access_token] of the
    exchange that call performed. *)
Theorem expired_token_is_not_served
  (c : Config) (k : Cache) (w : World) (e : float) :
  reachable c k -> tokenExpiry k = Some e -> (e <=? now w)%float = true ->
  cache_hit k (now w) = false
  /\ outcome (run getZoomAccessToken c w k)
     = outcome (run getZoomAccessToken c w empty_cache)
  /\ trace_of (run getZoomAccessToken c w k)
     = trace_of (run getZoomAccessToken c w empty_cache)
  /\ requests (trace_of (run getZoomAccessToken c w k)) = 1%nat
  /\ In (token_request c) (trace_of (run getZoomAccessToken c w k))
  /\ (forall v, outcome (run getZoomAccessToken c w k) = inr v ->
        exists d, result (upstream c w) = inr d /\ v = Some (access_token d))
  /\ (forall k' w' v, outcome (run getZoomAccessToken c w' k') = inr v ->
        (exists tok e', accessToken k' = Some tok /\ tokenExpiry k' = Some e' /\
                        (now w' <? e')%float = true /\ v = Some tok /\
                        requests (trace_of (run getZoomAccessToken c w' k')) = 0%nat)
        \/ (exists d, cache_hit k' (now w') = false /\
                      result (upstream c w') = inr d /\ v = Some (access_token d) /\
                      requests (trace_of (run getZoomAccessToken c w' k')) = 1%nat)).
Proof.
  intros Hreach He Hle.
  assert (Hcred : credentials_missing c = false)
    by exact (reachable_credentials c k Hreach e He).
  assert (Hmiss : cache_hit k (now w) = false).
  { destruct (cache_hit k (now w)) eqn:Hhit; [|reflexivity].
    apply cache_hit_iff in Hhit. destruct Hhit as (tok & e' & _ & _ & He' & _ & Hlt).
    rewrite He in He'. injection He' as <-.
    rewrite (leb_ltb_false e (now w) Hle) in Hlt. discriminate. }
  split; [exact Hmiss|].
  rewrite (refresh_run c w k Hmiss Hcred).
  rewrite (refresh_run c w empty_cache (cache_hit_empty _) Hcred).
  split; [destruct (result _); reflexivity|].
  split; [destruct (result _); reflexivity|].
  split; [destruct (result _); reflexivity|].
  split; [destruct (result _); unfold trace_of; cbn; auto 6|].
  split.
  - intros v. destruct (result _) as [error|d]; [discriminate|].
    intros [= <-]. exists d. auto.
  - intros k' w' v. apply returned_token_origin.
Qed.

Lemma expired_token_is_not_served_witness :
  cache_hit Sample.cached (now (Sample.world 3300000 3600)) = false
  /\ requests (trace_of (run getZoomAccessToken Sample.config
                           (Sample.world 3300000 3600) Sample.cached)) = 1%nat.
Proof.
  destruct (expired_token_is_not_served Sample.config Sample.cached
              (Sample.world 3300000 3600) 3300000)
    as (Hmiss & _ & _ & Hone & _).
  - exact (reachable_call Sample.config empty_cache (Sample.world 0 3600)
             (reachable_start Sample.config)).
  - reflexivity.
  - reflexivity.
  - split; [exact Hmiss | exact Hone].
Defined.

(* ================================================================== *)
(** ** Checkout sessions *)

(** C5. For a checkout request with productId "p1", amount 149 and
    currency "usd" (the other fields arbitrary), the session
    configuration has exactly one line item: price data in "usd" for
    product "p1" with [unit_amount = Math.round(149 * 100) = 14900],
    recurring monthly, quantity 1.  That configuration is the only
    thing the handler passes to Stripe, and it passes it whenever the
    SDK is loaded. *)
Theorem checkout_unit_amount_in_cents
  (NumberToString : float -> string) (StringToNumber : string -> float)
  (c : Config) (w : World) (k : Cache) (req_body : list (string * value)) :
  prop req_body "productId" = VStr "p1" ->
  prop req_body "amount" = VNum 149 ->
  prop req_body "currency" = VStr "usd" ->
  let config :=
    sessionConfig NumberToString StringToNumber
      (VStr "p1") (prop req_body "planName") (VStr "usd") (VNum 149)
      (prop req_body "successUrl") (prop req_body "cancelUrl") in
  let r :=
    run (post_create_checkout_session NumberToString StringToNumber req_body) c w k in
  get config "line_items"
  = VArr [ VObj [ ("price_data",
                   VObj [ ("currency", VStr "usd");
                          ("product", VStr "p1");
                          ("unit_amount", VNum 14900);
                          ("recurring", VObj [ ("interval", VStr "month") ]) ]);
                  ("quantity", VNum 1) ] ]
  /\ (forall m args, In (StripeCall m args) (trace_of r) ->
        m = "checkout.sessions.create" /\ args = [config])
  /\ (stripe_loaded c = true ->
      In (StripeCall "checkout.sessions.create" [config]) (trace_of r)).
Proof.
  intros Hid Hamount Hcur config r. split; [reflexivity|].
  subst r. unfold run, post_create_checkout_session, try_catch, bind, console_log,
    console_error, emit, env, world, await, ret, trace_of.
  cbn [cache clock trace]. rewrite Hid, Hamount, Hcur. fold config.
  destruct (stripe_loaded c); cbn [negb ToBoolean truthy_string String.eqb].
  - cbn. destruct (result (stripe_sessions_create w config)) as [error|session];
      cbn; split.
    + intros m args [H|[H|[H|[H|[H|[H|[H|[H|H]]]]]]]]; try discriminate H.
      * injection H as <- <-. auto.
      * cbn in H. intuition discriminate.
    + auto 12.
    + intros m args [H|[H|[H|[H|[H|[H|[H|[H|H]]]]]]]]; try discriminate H.
      * injection H as <- <-. auto.
      * cbn in H. intuition discriminate.
    + auto 12.
  - cbn. split; [|discriminate].
    intros m args H. intuition discriminate.
Qed.

Lemma checkout_unit_amount_in_cents_witness :
  In (StripeCall "checkout.sessions.create"
        [sessionConfig Sample.number_text Sample.text_number
           (VStr "p1") (VStr "Pro") (VStr "usd") (VNum 149)
           (VStr "https://app.example/ok?plan=pro") (VStr "https://app.example/cancel")])
     (trace_of (run (post_create_checkout_session Sample.number_text Sample.text_number
                       Sample.checkout_body)
                  Sample.config (Sample.world 0 3600) empty_cache)).
Proof.
  destruct (checkout_unit_amount_in_cents Sample.number_text Sample.text_number
              Sample.config (Sample.world 0 3600) empty_cache Sample.checkout_body)
    as (_ & _ & Hsent); [reflexivity..|].
  apply Hsent. reflexivity.
Defined.

(** The cents of a fractional amount are rounded to the nearest
    integer: 19.99 * 100 is 1998.9999999999998 in binary64. *)
Example checkout_rounds_cents :
  ((1999 / 100) * 100 <? 1999)%float = true /\
  Math_round ((1999 / 100) * 100) = 1999%float.
Proof. split; reflexivity. Qed.

(* ================================================================== *)
(** ** The mounted handlers on a defined body *)

(** When [req.body] is neither [undefined] nor [null] the destructuring
    succeeds and a mounted handler is the handler of [Server] on the
    properties of the body (none, when the body is not an object). *)
Lemma create_meeting_on_defined_body (req_body : value) :
  nullish req_body = false ->
  Mounted.create_meeting req_body = post_create_meeting (own_props req_body).
Proof. destruct req_body; intros H; try discriminate H; reflexivity. Qed.

Lemma send_welcome_email_on_defined_body (req_body : value) :
  nullish req_body = false ->
  Mounted.send_welcome_email req_body = post_send_welcome_email (own_props req_body).
Proof. destruct req_body; intros H; try discriminate H; reflexivity. Qed.

Lemma create_portal_session_on_defined_body (stripe : Portal.Sdk) (req_body : value) :
  nullish req_body = false ->
  Mounted.create_portal_session stripe req_body
  = Portal.post_create_portal_session stripe (own_props req_body).
Proof. destruct req_body; intros H; try discriminate H; reflexivity. Qed.

Lemma create_checkout_session_on_defined_body
  (NumberToString : float -> string) (StringToNumber : string -> float)
  (req_body : value) :
  nullish req_body = false ->
  Mounted.create_checkout_session NumberToString StringToNumber req_body
  = post_create_checkout_session NumberToString StringToNumber (own_props req_body).
Proof. destruct req_body; intros H; try discriminate H; reflexivity. Qed.

Lemma get_own_props (req_body : value) (k : string) :
  prop (own_props req_body) k = get req_body k.
Proof. destruct req_body; reflexivity. Qed.

(* ================================================================== *)
(** ** The Stripe webhook *)

(** Whatever the request, the two body parsers never hand the raw body
    to the handler: a JSON body has been parsed by [express.json()]
    before [express.raw] sees it, and [express.raw] then passes it on;
    a request of another type, or without a body, is read by neither. *)
Lemma parsers_never_leave_raw_body (version : Mounted.Express) (post : Mounted.Post) :
  match Mounted.express_json post (Mounted.fresh version) with
  | None => True
  | Some req =>
      exists req', Mounted.express_raw post req = Some req' /\
                   Mounted.is_raw (Mounted.req_body req') = false
  end.
Proof.
  unfold Mounted.express_json, Mounted.express_raw, Mounted.body_parser, Mounted.fresh.
  cbn [Mounted.body_read Mounted.req_body].
  destruct (Mounted.has_body post); cbn [negb];
    [|eexists; split; [reflexivity | destruct version; reflexivity]].
  destruct (Mounted.is_json post); cbn [negb];
    [|eexists; split; [reflexivity | destruct version; reflexivity]].
  destruct (Mounted.parsed post) as [[| | | | |items|ps]|]; try exact I;
    cbn [Mounted.body_read Mounted.req_body]; eexists; split; reflexivity.
Qed.

(** The handler given a payload that is not the raw body: the SDK
    throws (or [stripe] is [null] and reading [stripe.webhooks]
    throws), the handler logs the failure and answers 400; the
    [switch] is not reached. *)
Lemma webhook_handler_rejects (c : Config) (w : World) (s : State) (payload sig : value) :
  Mounted.needs_raw_body w -> Mounted.is_raw payload = false ->
  exists err,
    (stripe_loaded c = true ->
     stripe_constructEvent w payload sig (of_env (STRIPE_WEBHOOK_SECRET c)) = inl err) /\
    post_stripe_webhook payload sig c w s
    = (inr (res_status_send 400 ("Webhook Error: " ++ message err)),
       {| cache := cache s; clock := clock s;
          trace := trace s
                   ++ (if stripe_loaded c
                       then [StripeCall "webhooks.constructEvent"
                               [payload; sig; of_env (STRIPE_WEBHOOK_SECRET c)]]
                       else [])
                   ++ [Console "error"
                         [Arg (VStr "⚠️ Webhook signature verification failed:");
                          Arg (VStr (message err))]] |}).
Proof.
  intros Hsdk Hraw.
  destruct (Hsdk payload sig (of_env (STRIPE_WEBHOOK_SECRET c)) Hraw) as [err Herr].
  unfold post_stripe_webhook. run_handler.
  destruct (stripe_loaded c).
  - exists err. split; [intros _; exact Herr|]. run_handler. rewrite Herr.
    rewrite <- app_assoc. reflexivity.
  - exists (TypeError_null "webhooks"). split; [discriminate|]. reflexivity.
Qed.

(** C6. On the route as it is mounted, [express.json()] (l.17) parses
    every JSON body before the route's [express.raw] (l.130) runs, so
    [constructEvent] is never given the raw body it needs to verify a
    signature, and it throws.  Hence no POST to [/api/stripe-webhook]
    is answered 200: Express refuses it when its body is malformed
    JSON, and otherwise the handler answers 400 with "Webhook Error: "
    and the error's message, and only logs the failure (the event is
    not processed).  This includes the POST the specification
    expects to be answered 200 with [{received: true}]: a
    [checkout.session.completed] event whose bytes the SDK verifies
    under the signature sent.  Given those bytes the handler would
    answer 200; on the route it is given the parsed object instead,
    and answers 400. *)
Theorem webhook_route_rejects_signed_event
  (version : Mounted.Express) (post : Mounted.Post)
  (c : Config) (w : World) (k : Cache) :
  Mounted.needs_raw_body w ->
  let secret := of_env (STRIPE_WEBHOOK_SECRET c) in
  let r := run (Mounted.stripe_webhook version post) c w k in
  ((outcome r = inr Mounted.RefusedByParser /\ trace_of r = []) \/
   exists err,
     outcome r = inr (Mounted.FromHandler
                        {| http_status := 400;
                           body := Text ("Webhook Error: " ++ message err) |})
     /\ console_of (trace_of r)
        = [ Console "error" [Arg (VStr "⚠️ Webhook signature verification failed:");
                             Arg (VStr (message err))] ])
  /\ (forall ps event,
        stripe_loaded c = true ->
        Mounted.has_body post = true -> Mounted.is_json post = true ->
        Mounted.parsed post = Some (VObj ps) ->
        stripe_constructEvent w (VStr (Mounted.raw post))
          (Mounted.stripe_signature post) secret = inr event ->
        event_type event = "checkout.session.completed" ->
        exists err,
          stripe_constructEvent w (VObj ps) (Mounted.stripe_signature post) secret
          = inl err
          /\ outcome r = inr (Mounted.FromHandler
                                {| http_status := 400;
                                   body := Text ("Webhook Error: " ++ message err) |})
          /\ trace_of r
             = [ StripeCall "webhooks.constructEvent"
                   [VObj ps; Mounted.stripe_signature post; secret];
                 Console "error" [Arg (VStr "⚠️ Webhook signature verification failed:");
                                  Arg (VStr (message err))] ]
          /\ outcome (run (post_stripe_webhook (VStr (Mounted.raw post))
                             (Mounted.stripe_signature post)) c w k)
             = inr {| http_status := 200;
                      body := Json (VObj [ ("received", VBool true) ]) |}).
Proof.
  intros Hsdk secret r. subst secret r. split.
  - pose proof (parsers_never_leave_raw_body version post) as Hp.
    unfold Mounted.stripe_webhook.
    destruct (Mounted.express_json post (Mounted.fresh version)) as [req|];
      [|left; split; reflexivity].
    destruct Hp as (req' & -> & Hraw). right.
    destruct (webhook_handler_rejects c w (initial w k) _
                (Mounted.stripe_signature post) Hsdk Hraw) as (err & _ & Hrun).
    exists err. unfold run, bind. fold (initial w k). rewrite Hrun.
    unfold outcome, trace_of, ret. cbn [fst snd trace initial app].
    split; [reflexivity|].
    destruct (stripe_loaded c); reflexivity.
  - intros ps event Hloaded Hbody Hjson Hparsed Hevent Htype.
    assert (Hraw : Mounted.is_raw (VObj ps) = false) by reflexivity.
    destruct (webhook_handler_rejects c w (initial w k) (VObj ps)
                (Mounted.stripe_signature post) Hsdk Hraw) as (err & Herr & Hrun).
    exists err. split; [exact (Herr Hloaded)|].
    unfold Mounted.stripe_webhook, Mounted.express_json, Mounted.express_raw,
      Mounted.body_parser, Mounted.fresh.
    cbn [Mounted.body_read Mounted.req_body]. rewrite Hbody, Hjson, Hparsed.
    cbn [negb Mounted.body_read Mounted.req_body].
    unfold run, bind. fold (initial w k). rewrite Hrun, Hloaded.
    split; [reflexivity|]. split; [reflexivity|].
    unfold post_stripe_webhook. run_handler. rewrite Hloaded. run_handler.
    rewrite Hevent. unfold handle_event. rewrite Htype. reflexivity.
Qed.

Lemma webhook_route_rejects_signed_event_witness :
  stripe_constructEvent Delivery.world (VStr Delivery.signed_text)
    (VStr Delivery.signature_header) (VStr "whsec_1")
  = inr {| event_type := "checkout.session.completed";
           event_object := [ ("id", VStr "cs_1") ] |}
  /\ outcome (run (Mounted.stripe_webhook Mounted.Express4 Delivery.signed_post)
                Sample.config Delivery.world empty_cache)
     = inr (Mounted.FromHandler
              {| http_status := 400;
                 body := Text "Webhook Error: No signatures found matching the expected signature for payload." |})
  /\ outcome (run (Mounted.stripe_webhook Mounted.Express5 Delivery.signed_post)
                Sample.config Delivery.world empty_cache)
     = inr (Mounted.FromHandler
              {| http_status := 400;
                 body := Text "Webhook Error: No signatures found matching the expected signature for payload." |}).
Proof.
  assert (Hsdk : Mounted.needs_raw_body Delivery.world).
  { intros payload sig secret Hraw.
    destruct payload; try discriminate Hraw; eexists; reflexivity. }
  split; [reflexivity|]. split.
  - destruct (proj2 (webhook_route_rejects_signed_event Mounted.Express4
                       Delivery.signed_post Sample.config Delivery.world empty_cache Hsdk)
                _ _ eq_refl eq_refl eq_refl eq_refl eq_refl eq_refl)
      as (err & Herr & Hout & _ & _).
    rewrite Hout. vm_compute in Herr. injection Herr as <-. reflexivity.
  - destruct (proj2 (webhook_route_rejects_signed_event Mounted.Express5
                       Delivery.signed_post Sample.config Delivery.world empty_cache Hsdk)
                _ _ eq_refl eq_refl eq_refl eq_refl eq_refl eq_refl)
      as (err & Herr & Hout & _ & _).
    rewrite Hout. vm_compute in Herr. injection Herr as <-. reflexivity.
Defined.

(* ================================================================== *)
(** ** The service descriptor *)

(** C7. The answer of [GET /] depends only on which of the four
    variables are set (set and not empty, as [!!] tests), never on
    their values: two deployments that agree on that get the identical
    answer.  The body holds no credential: its property names and
    strings are the fixed ones below, the four flags being booleans. *)
Theorem root_reports_presence_only
  (c1 c2 : Config) (w1 w2 : World) (k1 k2 : Cache) :
  is_set (ZOOM_ACCOUNT_ID c1) = is_set (ZOOM_ACCOUNT_ID c2) ->
  is_set (ZOOM_CLIENT_ID c1) = is_set (ZOOM_CLIENT_ID c2) ->
  is_set (ZOOM_CLIENT_SECRET c1) = is_set (ZOOM_CLIENT_SECRET c2) ->
  is_set (STRIPE_SECRET_KEY c1) = is_set (STRIPE_SECRET_KEY c2) ->
  outcome (run get_root c1 w1 k1) = outcome (run get_root c2 w2 k2)
  /\ exists v,
       outcome (run get_root c1 w1 k1) = inr {| http_status := 200; body := Json v |}
       /\ strings_of v
          = [ "status"; "ok"; "service"; "MeetSync Zoom + Stripe Server";
              "endpoints";
              "POST /api/create-meeting"; "Create a new Zoom meeting";
              "POST /api/create-checkout-session"; "Create Stripe checkout session";
              "env"; "hasAccountId"; "hasClientId"; "hasClientSecret"; "hasStripeKey" ]
       /\ get (get v "env") "hasAccountId" = VBool (is_set (ZOOM_ACCOUNT_ID c1))
       /\ get (get v "env") "hasClientId" = VBool (is_set (ZOOM_CLIENT_ID c1))
       /\ get (get v "env") "hasClientSecret" = VBool (is_set (ZOOM_CLIENT_SECRET c1))
       /\ get (get v "env") "hasStripeKey" = VBool (is_set (STRIPE_SECRET_KEY c1)).
Proof.
  unfold is_set. intros Ha Hi Hs Hk. unfold get_root, not_not. run_handler.
  rewrite Ha, Hi, Hs, Hk. split; [reflexivity|].
  eexists. split; [reflexivity|]. repeat split.
Qed.

Lemma root_reports_presence_only_witness :
  outcome (run get_root Sample.config (Sample.world 0 3600) empty_cache)
  = outcome (run get_root Sample.rotated (Sample.world 5 60) Sample.cached).
Proof.
  apply (root_reports_presence_only Sample.config Sample.rotated
           (Sample.world 0 3600) (Sample.world 5 60) empty_cache Sample.cached);
    reflexivity.
Defined.

(* ================================================================== *)
(** ** The welcome e-mail *)

(** On the properties of an object body the handler always answers 200
    with [{success: true, message: 'Welcome email queued'}], whether or
    not a session id is given, whether the SDK is loaded or not, and
    whether retrieving the session succeeds or fails. *)
Lemma welcome_email_on_object_body
  (c : Config) (w : World) (k : Cache) (req_body : list (string * value)) :
  outcome (run (post_send_welcome_email req_body) c w k)
  = inr {| http_status := 200;
           body := Json (VObj [ ("success", VBool true);
                                ("message", VStr "Welcome email queued") ]) |}.
Proof.
  unfold post_send_welcome_email. run_handler.
  destruct (ToBoolean (prop req_body "sessionId")); [|reflexivity].
  run_handler. destruct (stripe_loaded c); [|reflexivity].
  run_handler.
  destruct (result (stripe_sessions_retrieve w (prop req_body "sessionId")))
    as [e|session]; [reflexivity|].
  destruct session; reflexivity.
Qed.

(** Not every request gets the success envelope.  When [req.body] is
    [undefined] the destructuring of l.226 throws inside the outer
    [try], and the outer [catch] (l.255-258) answers 500 with
    [success: false].  Express 5 leaves [req.body] undefined for a
    request that carries no JSON body. *)
Lemma welcome_email_without_body_is_500 :
  http_status_of
    (outcome (run (Mounted.send_welcome_email VUndefined)
                Sample.config (Sample.world 0 3600) empty_cache))
  = Some 500%Z
  /\ body_field
       (outcome (run (Mounted.send_welcome_email VUndefined)
                   Sample.config (Sample.world 0 3600) empty_cache))
       "success"
     = VBool false
  /\ exists m,
       outcome (run (Mounted.json_route Mounted.Express5 Delivery.empty_post
                       Mounted.send_welcome_email)
                  Sample.config (Sample.world 0 3600) empty_cache)
       = inr (Mounted.FromHandler
                {| http_status := 500;
                   body := Json (VObj [ ("success", VBool false);
                                        ("error", VStr m) ]) |}).
Proof. split; [|split; [|eexists]]; reflexivity. Qed.

(** C9. [POST /api/send-welcome-email] answers HTTP 200 with
    [{success: true, message: 'Welcome email queued'}] for every
    request whose [req.body] is defined (neither [undefined] nor
    [null]), whatever the body holds, whether or not a session id is
    given, whether the SDK is loaded or not, and whether retrieving the
    session succeeds or fails.  When [req.body] is [undefined] or
    [null] it answers HTTP 500 with [{success: false, error}], the
    error being the message of the [TypeError] the destructuring threw,
    after logging that message. *)
Theorem welcome_email_succeeds_on_defined_body
  (c : Config) (w : World) (k : Cache) (req_body : value) :
  (nullish req_body = false ->
   outcome (run (Mounted.send_welcome_email req_body) c w k)
   = inr {| http_status := 200;
            body := Json (VObj [ ("success", VBool true);
                                 ("message", VStr "Welcome email queued") ]) |})
  /\ (nullish req_body = true ->
      exists m,
        outcome (run (Mounted.send_welcome_email req_body) c w k)
        = inr {| http_status := 500;
                 body := Json (VObj [ ("success", VBool false);
                                      ("error", VStr m) ]) |}
        /\ trace_of (run (Mounted.send_welcome_email req_body) c w k)
           = [ Console "error" [Arg (VStr "❌ Failed to send welcome email:");
                                Arg (VStr m)] ]).
Proof.
  split; intros Hbody.
  - rewrite (send_welcome_email_on_defined_body req_body Hbody).
    apply welcome_email_on_object_body.
  - destruct req_body; try discriminate Hbody; eexists; split; reflexivity.
Qed.

Lemma welcome_email_succeeds_on_defined_body_witness :
  outcome (run (Mounted.send_welcome_email
                  (VObj [ ("sessionId", VStr "cs_1"); ("plan", VStr "pro") ]))
             Sample.config (Sample.world 0 3600) empty_cache)
  = inr {| http_status := 200;
           body := Json (VObj [ ("success", VBool true);
                                ("message", VStr "Welcome email queued") ]) |}.
Proof.
  apply (proj1 (welcome_email_succeeds_on_defined_body Sample.config (Sample.world 0 3600)
                  empty_cache (VObj [ ("sessionId", VStr "cs_1"); ("plan", VStr "pro") ]))).
  reflexivity.
Defined.

(* ================================================================== *)
(** ** Meeting creation *)

Lemma prop_absent (ps : list (string * value)) (key : string) :
  has_prop ps key = false -> prop ps key = VUndefined.
Proof.
  induction ps as [|[k' v] ps IH]; cbn; [reflexivity|].
  destruct (k' =? key); cbn; [discriminate | exact IH].
Qed.

(** The handler reads [topic] and [duration] of the body and nothing
    else. *)
Lemma create_meeting_reads_topic_and_duration
  (c : Config) (w : World) (s : State) (b1 b2 : list (string * value)) :
  prop b1 "topic" = prop b2 "topic" ->
  prop b1 "duration" = prop b2 "duration" ->
  post_create_meeting b1 c w s = post_create_meeting b2 c w s.
Proof.
  intros Ht Hd. unfold post_create_meeting. rewrite Ht, Hd. reflexivity.
Qed.

(** Every request the handler sends to the meetings endpoint carries
    [meetingData]. *)
Lemma create_meeting_payload
  (c : Config) (w : World) (k : Cache) (req_body : list (string * value))
  (url : string) (p : value) (h : list header) :
  In (AxiosPost url p h) (trace_of (run (post_create_meeting req_body) c w k)) ->
  url = meetings_url ->
  p = meetingData (prop req_body "topic") (prop req_body "duration").
Proof.
  intros HIn ->. revert HIn.
  unfold post_create_meeting. run_handler.
  rewrite getZoomAccessToken_unfold. unfold getZoomAccessToken_cases.
  cbn [cache clock trace].
  destruct (cache_hit k (now w));
    [|destruct (credentials_missing c);
      [|destruct (result (upstream c w)) as [error|d]]];
    run_handler;
    try (destruct (result (zoom_create_meeting w _ _)) as [error'|rdata];
         [|destruct rdata]);
    cbn; intros HIn;
    repeat (destruct HIn as [HIn|HIn]; [try discriminate HIn|]);
    try contradiction;
    try (inversion HIn; reflexivity).
Qed.

(** When the token call returns, the meeting request is sent. *)
Lemma create_meeting_sends_payload
  (c : Config) (w : World) (k : Cache) (req_body : list (string * value))
  (tok : option string) :
  outcome (run getZoomAccessToken c w k) = inr tok ->
  In (AxiosPost meetings_url
        (meetingData (prop req_body "topic") (prop req_body "duration"))
        (meeting_headers tok))
     (trace_of (run (post_create_meeting req_body) c w k)).
Proof.
  rewrite getZoomAccessToken_run.
  unfold post_create_meeting. run_handler.
  rewrite getZoomAccessToken_unfold. unfold getZoomAccessToken_cases, initial.
  cbn [cache clock trace].
  destruct (cache_hit k (now w));
    [|destruct (credentials_missing c);
      [|destruct (result (upstream c w)) as [error|d]]];
    run_handler; intros [= <-];
    (destruct (result (zoom_create_meeting w _ _)) as [error'|rdata];
     [|destruct rdata]);
    cbn; auto 12.
Qed.

(** C10. The [startTime] of the body is read and never used.  Every
    request sent to the meetings endpoint carries [meetingData], whose
    properties are exactly topic, type, duration and settings: type is
    the constant 1 and there is no start time.  The topic is 'MeetSync
    Call' when the body has none (or a falsy one) and the duration is 60
    when the body has none (or a falsy one).  Two bodies that agree on
    topic and duration, whatever their [startTime], produce the same
    run: same answer, same requests, same log, same cache. *)
Theorem meeting_payload_ignores_startTime
  (c : Config) (w : World) (k : Cache) (req_body : list (string * value)) :
  let payload := meetingData (prop req_body "topic") (prop req_body "duration") in
  let r := run (post_create_meeting req_body) c w k in
  (forall url p h, In (AxiosPost url p h) (trace_of r) -> url = meetings_url ->
                   p = payload)
  /\ (forall tok, outcome (run getZoomAccessToken c w k) = inr tok ->
                  In (AxiosPost meetings_url payload (meeting_headers tok)) (trace_of r))
  /\ own_keys payload = ["topic"; "type"; "duration"; "settings"]
  /\ get payload "type" = VNum 1
  /\ has_own payload "start_time" = false
  /\ has_own payload "startTime" = false
  /\ (ToBoolean (prop req_body "topic") = false ->
      get payload "topic" = VStr "MeetSync Call")
  /\ (has_prop req_body "topic" = false -> get payload "topic" = VStr "MeetSync Call")
  /\ (ToBoolean (prop req_body "duration") = false -> get payload "duration" = VNum 60)
  /\ (has_prop req_body "duration" = false -> get payload "duration" = VNum 60)
  /\ (forall req_body',
        prop req_body' "topic" = prop req_body "topic" ->
        prop req_body' "duration" = prop req_body "duration" ->
        run (post_create_meeting req_body') c w k = r).
Proof.
  intros payload r. subst payload r.
  split; [intros url p h; apply create_meeting_payload|].
  split; [intros tok; apply create_meeting_sends_payload|].
  split; [reflexivity|]. split; [reflexivity|].
  split; [reflexivity|]. split; [reflexivity|].
  split; [intros H; cbn; unfold or; rewrite H; reflexivity|].
  split; [intros H; cbn; rewrite (prop_absent _ _ H); reflexivity|].
  split; [intros H; cbn; unfold or; rewrite H; reflexivity|].
  split; [intros H; cbn; rewrite (prop_absent _ _ H); reflexivity|].
  intros req_body' Ht Hd. unfold run.
  apply create_meeting_reads_topic_and_duration; assumption.
Qed.

Lemma meeting_payload_ignores_startTime_witness :
  run (post_create_meeting (Sample.meeting_body (VStr "2030-01-01T10:00:00Z")))
    Sample.config (Sample.world 0 3600) empty_cache
  = run (post_create_meeting (Sample.meeting_body VUndefined))
      Sample.config (Sample.world 0 3600) empty_cache.
Proof.
  apply (meeting_payload_ignores_startTime Sample.config (Sample.world 0 3600)
           empty_cache (Sample.meeting_body VUndefined)); reflexivity.
Defined.

(* ================================================================== *)
(** ** Sample runs *)

Example create_meeting_sample :
  outcome (run (post_create_meeting (Sample.meeting_body (VStr "2030-01-01T10:00:00Z")))
             Sample.config (Sample.world 0 3600) empty_cache)
  = inr {| http_status := 200;
           body := Json (VObj [
             ("success", VBool true);
             ("meeting", VObj [ ("id", VNum 42);
                                ("joinUrl", VStr "https://zoom.us/j/42");
                                ("startUrl", VUndefined);
                                ("password", VUndefined);
                                ("topic", VUndefined) ]) ]) |}
  /\ List.filter is_request
       (trace_of (run (post_create_meeting (Sample.meeting_body VNull))
                    Sample.config (Sample.world 0 3600) empty_cache))
     = [ AxiosPost "https://zoom.us/oauth/token"
           (VStr "grant_type=account_credentials&account_id=acct-1")
           [ ("Authorization", "Basic aWQ6c2VjcmV0");
             ("Content-Type", "application/x-www-form-urlencoded") ];
         AxiosPost "https://api.zoom.us/v2/users/me/meetings"
           (VObj [ ("topic", VStr "Weekly sync"); ("type", VNum 1);
                   ("duration", VNum 30);
                   ("settings", VObj [ ("host_video", VBool true);
                                       ("participant_video", VBool true);
                                       ("join_before_host", VBool true);
                                       ("waiting_room", VBool false);
                                       ("mute_upon_entry", VBool false) ]) ])
           [ ("Authorization", "Bearer tok-1");
             ("Content-Type", "application/json") ] ].
Proof. split; reflexivity. Qed.

Example create_meeting_without_credentials :
  outcome (run (post_create_meeting []) Sample.no_account (Sample.world 0 3600) empty_cache)
  = inr {| http_status := 500;
           body := Json (VObj [ ("success", VBool false);
                                ("error", VStr "Failed to create Zoom meeting") ]) |}
  /\ requests (trace_of (run (post_create_meeting []) Sample.no_account
                           (Sample.world 0 3600) empty_cache)) = 0%nat.
Proof. split; reflexivity. Qed.

Example test_token_sample :
  outcome (run get_test_token Sample.config (Sample.world 0 3600) empty_cache)
  = inr {| http_status := 200;
           body := Json (VObj [ ("success", VBool true);
                                ("message", VStr "Token obtained successfully");
                                ("tokenPreview", VStr "tok-1...") ]) |}
  /\ outcome (run get_test_token Sample.no_secret (Sample.world 0 3600) empty_cache)
     = inr {| http_status := 500;
              body := Json (VObj [ ("success", VBool false);
                                   ("error", VStr "Failed to authenticate with Zoom") ]) |}.
Proof. split; reflexivity. Qed.

Example welcome_email_sample :
  trace_of (run (post_send_welcome_email [ ("sessionId", VStr "cs_1"); ("plan", VStr "pro") ])
              Sample.config (Sample.world 0 3600) empty_cache)
  = [ Console "log" [ Arg (VStr "📧 Sending welcome email for session:");
                      Arg (VStr "cs_1"); Arg (VStr "plan:"); Arg (VStr "pro") ];
      StripeCall "checkout.sessions.retrieve" [VStr "cs_1"];
      Console "log" [ Arg (VStr "Could not retrieve session:");
                      Arg (VStr "No such session") ] ].
Proof. reflexivity. Qed.

Example load_stripe_sample :
  run load_stripe Sample.config (Sample.world 0 3600) empty_cache
  = (inr true, {| cache := empty_cache; clock := 0;
                  trace := [Console "log" [Arg (VStr "✅ Stripe initialized")]] |}).
Proof. reflexivity. Qed.

(* ================================================================== *)
(** ** More on the token accessor *)

(** The accessor started in the middle of a handler does what a fresh
    run does from the same cache at the same clock reading, after the
    events already emitted. *)
Lemma accessor_from (c : Config) (w : World) (s : State) :
  clock s = now w ->
  getZoomAccessToken c w s
  = (outcome (run getZoomAccessToken c w (cache s)),
     {| cache := cache_after (run getZoomAccessToken c w (cache s));
        clock := clock (snd (run getZoomAccessToken c w (cache s)));
        trace := trace s ++ trace_of (run getZoomAccessToken c w (cache s)) |}).
Proof.
  intros Hclock. rewrite getZoomAccessToken_unfold, getZoomAccessToken_run.
  unfold getZoomAccessToken_cases, initial, outcome, cache_after, trace_of.
  cbn [cache clock trace]. rewrite Hclock.
  destruct (cache_hit (cache s) (now w)); [reflexivity|].
  destruct (credentials_missing c); [reflexivity|].
  destruct (result _); reflexivity.
Qed.

(** X1. A call that returns, returns the value then held in
    [accessToken]; a call that throws, throws the one error "Failed to
    authenticate with Zoom", whatever went wrong.  A call sends at most
    one request, and only the token request. *)
Theorem accessor_returns_cache_or_one_error
  (c : Config) (w : World) (k : Cache) :
  (forall v, outcome (run getZoomAccessToken c w k) = inr v ->
     v = accessToken (cache_after (run getZoomAccessToken c w k)))
  /\ (forall error, outcome (run getZoomAccessToken c w k) = inl error ->
        error = new_Error "Failed to authenticate with Zoom")
  /\ (requests (trace_of (run getZoomAccessToken c w k)) <= 1)%nat
  /\ (forall url p h,
        In (AxiosPost url p h) (trace_of (run getZoomAccessToken c w k)) ->
        AxiosPost url p h = token_request c).
Proof.
  rewrite getZoomAccessToken_run.
  unfold getZoomAccessToken_cases, initial, outcome, cache_after, trace_of.
  cbn [cache clock trace].
  destruct (cache_hit k (now w)) eqn:Hhit;
    [|destruct (credentials_missing c);
      [|destruct (result (upstream c w)) as [e|d]]];
    cbn [fst snd cache trace].
  - split; [intros v [= <-]; reflexivity|].
    split; [discriminate|]. split; [cbn; lia|].
    intros url p h HIn. cbn in HIn. intuition discriminate.
  - split; [discriminate|].
    split; [intros error [= <-]; reflexivity|]. split; [cbn; lia|].
    intros url p h HIn. cbn in HIn. intuition discriminate.
  - split; [discriminate|].
    split; [intros error [= <-]; reflexivity|]. split; [cbn; lia|].
    intros url p h HIn. cbn in HIn.
    repeat (destruct HIn as [HIn|HIn]; [try discriminate HIn|]);
      [symmetry; exact HIn | contradiction].
  - split; [intros v [= <-]; reflexivity|].
    split; [discriminate|]. split; [cbn; lia|].
    intros url p h HIn. cbn in HIn.
    repeat (destruct HIn as [HIn|HIn]; [try discriminate HIn|]);
      [symmetry; exact HIn | contradiction].
Qed.

Lemma accessor_returns_cache_or_one_error_witness :
  Some "tok-1"
  = accessToken (cache_after (run getZoomAccessToken Sample.config
                                (Sample.world 0 3600) empty_cache))
  /\ outcome (run getZoomAccessToken Sample.config
                (Sample.failing_world Sample.unauthorized) empty_cache)
     = inl (new_Error "Failed to authenticate with Zoom").
Proof.
  split.
  - apply (proj1 (accessor_returns_cache_or_one_error Sample.config
                    (Sample.world 0 3600) empty_cache) (Some "tok-1")).
    reflexivity.
  - rewrite <- (proj1 (proj2 (accessor_returns_cache_or_one_error Sample.config
                                (Sample.failing_world Sample.unauthorized) empty_cache))
                  auth_error eq_refl).
    reflexivity.
Defined.

(** A call that changes the cache found no valid token in it. *)
Lemma cache_after_call_missed (c : Config) (w : World) (s : State) :
  cache (snd (getZoomAccessToken c w s)) = cache s \/
  (credentials_missing c = false /\
   cache_hit (cache s) (clock s) = false /\
   exists d, result (upstream c w) = inr d /\
             cache (snd (getZoomAccessToken c w s)) =
             {| accessToken := Some (access_token d);
                tokenExpiry := Some (new_expiry c w d) |}).
Proof.
  rewrite getZoomAccessToken_unfold. unfold getZoomAccessToken_cases.
  destruct (cache_hit _ _); [left; reflexivity|].
  destruct (credentials_missing c); [left; reflexivity|].
  destruct (result _) as [error|d] eqn:Hd; [left; reflexivity|].
  right. split; [reflexivity|]. split; [reflexivity|].
  exists d. split; reflexivity.
Qed.

(** The accessor is the first thing the meeting handler awaits: it is
    called with the cache and at the clock reading of the request. *)
Lemma create_meeting_cache_at (c : Config) (w : World) (k : Cache)
  (req_body : list (string * value)) :
  exists s, cache s = k /\ clock s = now w /\
    cache_after (run (post_create_meeting req_body) c w k) =
    cache (snd (getZoomAccessToken c w s)).
Proof.
  exists {| cache := k; clock := now w;
            trace := [Console "log" [Arg (VStr "📅 Creating meeting:");
                                     Arg (prop req_body "topic")]] |}.
  split; [reflexivity|]. split; [reflexivity|].
  unfold cache_after, run, post_create_meeting, try_catch, bind, console_log, emit.
  cbn [cache clock trace].
  destruct (getZoomAccessToken c w _) as [[e|tok] s']; [reflexivity|].
  unfold world, await, member. cbn [cache clock trace].
  destruct (result _) as [e|rdata]; [reflexivity|].
  destruct rdata; reflexivity.
Qed.

(** One request changes the cache only on a miss, and only by storing
    the token and the expiry of the answer it received itself. *)
Lemma cache_left_origin (c : Config) (q : ZoomRequest) (w : World) (k : Cache) :
  cache_left c q w k = k \/
  (credentials_missing c = false /\
   cache_hit k (now w) = false /\
   exists d, result (upstream c w) = inr d /\
             cache_left c q w k
             = {| accessToken := Some (access_token d);
                  tokenExpiry := Some (new_expiry c w d) |}).
Proof.
  destruct q as [| |req_body]; cbn [cache_left].
  - exact (cache_after_call_missed c w (initial w k)).
  - rewrite test_token_cache. exact (cache_after_call_missed c w (initial w k)).
  - destruct (create_meeting_cache_at c w k req_body) as (s & Hs & Hclock & ->).
    rewrite <- Hs, <- Hclock. exact (cache_after_call_missed c w s).
Qed.

Lemma cache_over_app (c : Config) (h1 h2 : list (ZoomRequest * World)) (k : Cache) :
  cache_over c (h1 ++ h2) k = cache_over c h2 (cache_over c h1 k).
Proof.
  revert k. induction h1 as [|[q w] h1 IH]; intros k; cbn; [reflexivity | apply IH].
Qed.

(** The caches left by histories are the reachable ones. *)
Lemma reachable_iff_history (c : Config) (k : Cache) :
  reachable c k <-> exists history, k = cache_over c history empty_cache.
Proof.
  split.
  - induction 1 as [|k w _ [h ->]|k w _ [h ->]|k w req_body _ [h ->]].
    + exists []. reflexivity.
    + exists (h ++ [(DirectCall, w)])%list. rewrite cache_over_app. reflexivity.
    + exists (h ++ [(TestToken, w)])%list. rewrite cache_over_app. reflexivity.
    + exists (h ++ [(CreateMeeting req_body, w)])%list.
      rewrite cache_over_app. reflexivity.
  - intros [history ->].
    assert (H : forall k0, reachable c k0 -> reachable c (cache_over c history k0)).
    { induction history as [|[q w] rest IH]; intros k0 Hk0; cbn [cache_over];
        [exact Hk0|].
      apply IH. destruct q as [| |req_body]; cbn [cache_left];
        [apply reachable_call | apply reachable_test_token
         | apply reachable_create_meeting]; exact Hk0. }
    apply H. apply reachable_start.
Qed.

(** X2. Invariant of the cache, over every sequence of requests served
    since start-up: it is empty, or the three credentials are
    configured and it holds what one request of the sequence stored:
    that request found no valid token, the token endpoint gave it a
    2xx answer, and the cache holds the [access_token] of that answer
    together with the expiry computed from that same answer, the time
    it was stored plus [expires_in - 300] seconds.  Token and expiry
    never come from different answers, nor from anywhere but an answer
    received, and nothing is stored without credentials. *)
Theorem cache_holds_one_answer_of_its_history
  (c : Config) (history : list (ZoomRequest * World)) :
  let k := cache_over c history empty_cache in
  k = empty_cache \/
  (credentials_missing c = false /\
   exists before q w after d,
     history = (before ++ (q, w) :: after)%list /\
     cache_hit (cache_over c before empty_cache) (now w) = false /\
     result (zoom_oauth_token w (token_request_body c) (token_request_headers c)) = inr d /\
     k = {| accessToken := Some (access_token d);
            tokenExpiry :=
              Some (resumed_at (zoom_oauth_token w (token_request_body c)
                                  (token_request_headers c))
                    + (expires_in d - 300) * 1000)%float |}).
Proof.
  cbv zeta. induction history as [|[q w] h IH] using rev_ind.
  - left; reflexivity.
  - rewrite cache_over_app. cbn [cache_over].
    destruct (cache_left_origin c q w (cache_over c h empty_cache))
      as [-> | (Hcred & Hmiss & d & Hd & ->)].
    + destruct IH as [IH | (Hcred & before & q' & w' & after & d & -> & Hmiss & Hd & Hk)];
        [left; exact IH|].
      right. split; [exact Hcred|].
      exists before, q', w', (after ++ [(q, w)])%list, d.
      split; [rewrite <- app_assoc; reflexivity|].
      split; [exact Hmiss|]. split; [exact Hd | exact Hk].
    + right. split; [exact Hcred|].
      exists h, q, w, [], d.
      split; [reflexivity|]. split; [exact Hmiss|]. split; [exact Hd | reflexivity].
Qed.

Example cache_over_sample :
  cache_over Sample.config
    [ (TestToken, Sample.failing_world Sample.refused);
      (CreateMeeting (Sample.meeting_body VNull), Sample.world 0 3600);
      (DirectCall, Sample.failing_world Sample.unauthorized) ]
    empty_cache
  = Sample.cached.
Proof. reflexivity. Qed.

(** X3. The accessor never writes a credential to the console, and
    what it returns, stores and logs depends on the credentials only
    through the answer of the upstream: two configurations that agree
    on which credentials are set, and get the same answer, produce the
    same console output, the same result and the same cache. *)
Theorem accessor_console_hides_credentials
  (c1 c2 : Config) (w : World) (k : Cache) :
  is_set (ZOOM_ACCOUNT_ID c1) = is_set (ZOOM_ACCOUNT_ID c2) ->
  is_set (ZOOM_CLIENT_ID c1) = is_set (ZOOM_CLIENT_ID c2) ->
  is_set (ZOOM_CLIENT_SECRET c1) = is_set (ZOOM_CLIENT_SECRET c2) ->
  upstream c1 w = upstream c2 w ->
  console_of (trace_of (run getZoomAccessToken c1 w k))
  = console_of (trace_of (run getZoomAccessToken c2 w k))
  /\ outcome (run getZoomAccessToken c1 w k) = outcome (run getZoomAccessToken c2 w k)
  /\ cache_after (run getZoomAccessToken c1 w k)
     = cache_after (run getZoomAccessToken c2 w k).
Proof.
  unfold is_set. intros Ha Hi Hs Hup. rewrite !getZoomAccessToken_run.
  unfold getZoomAccessToken_cases, initial, outcome, cache_after, trace_of,
    new_expiry, stored_at, token_trace_prefix, set_or_missing, credentials_missing.
  cbn [cache clock trace]. rewrite Ha, Hi, Hs, Hup.
  destruct (cache_hit k (now w)); [repeat split|].
  destruct (_ || _ || _)%bool; [repeat split|].
  destruct (result (upstream c2 w)); repeat split.
Qed.

Lemma accessor_console_hides_credentials_witness :
  console_of (trace_of (run getZoomAccessToken Sample.config (Sample.world 0 3600)
                          empty_cache))
  = console_of (trace_of (run getZoomAccessToken Sample.rotated (Sample.world 0 3600)
                            empty_cache)).
Proof.
  apply (accessor_console_hides_credentials Sample.config Sample.rotated
           (Sample.world 0 3600) empty_cache); reflexivity.
Defined.

Lemma substring0_length (n : nat) (s : string) :
  (String.length (substring0 n s) <= n)%nat.
Proof.
  unfold substring0. revert s.
  induction n as [|n IH]; intros [|a s]; cbn; try lia.
  specialize (IH s). lia.
Qed.

Lemma append_length (s t : string) :
  String.length (s ++ t) = (String.length s + String.length t)%nat.
Proof. induction s as [|a s IH]; cbn; [reflexivity | rewrite IH; reflexivity]. Qed.

(** [GET /api/test-token] adds nothing to what the accessor does, and
    answers from its result alone. *)
Lemma test_token_run (c : Config) (w : World) (k : Cache) :
  run get_test_token c w k
  = (inr match outcome (run getZoomAccessToken c w k) with
         | inr (Some tok) =>
             res_json (VObj [ ("success", VBool true);
                              ("message", VStr "Token obtained successfully");
                              ("tokenPreview", VStr (substring0 20 tok ++ "...")) ])
         | inr None =>
             res_status_json 500 (VObj [
               ("success", VBool false);
               ("error", VStr (message (TypeError_null "substring"))) ])
         | inl error =>
             res_status_json 500 (VObj [ ("success", VBool false);
                                         ("error", VStr (message error)) ])
         end,
     snd (run getZoomAccessToken c w k)).
Proof.
  unfold get_test_token. run_handler.
  destruct (getZoomAccessToken c w _) as [[e|[tok|]] s]; reflexivity.
Qed.

Lemma outcome_pair {A} (a : Error + A) (s : State) : outcome (a, s) = a.
Proof. reflexivity. Qed.

Lemma trace_of_pair {A} (a : Error + A) (s : State) : trace_of (a, s) = trace s.
Proof. reflexivity. Qed.

Lemma cache_after_pair {A} (a : Error + A) (s : State) : cache_after (a, s) = cache s.
Proof. reflexivity. Qed.

(** The accessor throws one error only; when the exchange was refused
    or not attempted, it leaves the cache. *)
Lemma accessor_error (c : Config) (w : World) (k : Cache) (error : Error) :
  outcome (run getZoomAccessToken c w k) = inl error ->
  error = auth_error /\ cache_after (run getZoomAccessToken c w k) = k.
Proof.
  rewrite getZoomAccessToken_run.
  unfold getZoomAccessToken_cases, initial. cbn [cache clock trace].
  destruct (cache_hit k (now w)); [discriminate|].
  destruct (credentials_missing c); [intros [= <-]; split; reflexivity|].
  destruct (result _); [intros [= <-]; split; reflexivity | discriminate].
Qed.

(** X4. [GET /api/test-token] answers 200 with a preview made of the
    first 20 characters of the token followed by "...", never more than
    23 characters, when the accessor returns a token, and 500 with
    "Failed to authenticate with Zoom" when it throws.  The route itself
    logs nothing, sends nothing and leaves the cache to the accessor. *)
Theorem test_token_previews_twenty_characters (c : Config) (w : World) (k : Cache) :
  (forall tok, outcome (run getZoomAccessToken c w k) = inr (Some tok) ->
     outcome (run get_test_token c w k)
     = inr {| http_status := 200;
              body := Json (VObj [ ("success", VBool true);
                                   ("message", VStr "Token obtained successfully");
                                   ("tokenPreview", VStr (substring0 20 tok ++ "...")) ]) |}
     /\ (String.length (substring0 20 tok ++ "...") <= 23)%nat
     /\ prefix (substring0 20 tok) tok = true)
  /\ (forall error, outcome (run getZoomAccessToken c w k) = inl error ->
        outcome (run get_test_token c w k)
        = inr {| http_status := 500;
                 body := Json (VObj [ ("success", VBool false);
                                      ("error", VStr "Failed to authenticate with Zoom") ]) |})
  /\ trace_of (run get_test_token c w k) = trace_of (run getZoomAccessToken c w k)
  /\ cache_after (run get_test_token c w k) = cache_after (run getZoomAccessToken c w k).
Proof.
  rewrite test_token_run, !outcome_pair, trace_of_pair, cache_after_pair.
  split; [|split; [|split; reflexivity]].
  - intros tok ->. split; [reflexivity|]. split.
    + rewrite append_length. pose proof (substring0_length 20 tok). cbn. lia.
    + unfold substring0. generalize 20%nat. intros n. revert tok.
      induction n as [|n IH]; intros [|a s]; cbn; try reflexivity.
      destruct (Ascii.ascii_dec a a) as [_|Hne]; [apply IH | contradiction].
  - intros error Herr.
    destruct (accessor_error c w k error Herr) as [-> _].
    rewrite Herr. reflexivity.
Qed.

Lemma test_token_previews_twenty_characters_witness :
  outcome (run get_test_token Sample.config
             (Scenario.world_of (Scenario.granted Scenario.token_a) Scenario.meeting_created)
             empty_cache)
  = inr {| http_status := 200;
           body := Json (VObj [ ("success", VBool true);
                                ("message", VStr "Token obtained successfully");
                                ("tokenPreview", VStr "eyJhbGciOiJIUzUxMiIs...") ]) |}.
Proof.
  apply (proj1 (test_token_previews_twenty_characters Sample.config
                  (Scenario.world_of (Scenario.granted Scenario.token_a)
                     Scenario.meeting_created) empty_cache) Scenario.token_a).
  reflexivity.
Defined.

(** X5. Of a token just received, the console and the answer of
    [GET /api/test-token] show the first 20 characters and nothing
    else: two answers of the token endpoint that agree on [expires_in]
    and on the first 20 characters of [access_token] give the same
    console output and the same test-token response. *)
Theorem fresh_token_shown_by_prefix_only
  (c : Config) (k : Cache) (w1 w2 : World) (d1 d2 : TokenData) :
  now w1 = now w2 ->
  result (upstream c w1) = inr d1 -> result (upstream c w2) = inr d2 ->
  expires_in d1 = expires_in d2 ->
  substring0 20 (access_token d1) = substring0 20 (access_token d2) ->
  console_of (trace_of (run getZoomAccessToken c w1 k))
  = console_of (trace_of (run getZoomAccessToken c w2 k))
  /\ console_of (trace_of (run get_test_token c w1 k))
     = console_of (trace_of (run get_test_token c w2 k))
  /\ outcome (run get_test_token c w1 k) = outcome (run get_test_token c w2 k).
Proof.
  intros Hnow H1 H2 Hexp Hpre. rewrite !test_token_run, !outcome_pair, !trace_of_pair.
  rewrite !getZoomAccessToken_run.
  unfold getZoomAccessToken_cases, initial, outcome, trace_of, token_trace_success.
  cbn [cache clock trace]. rewrite H1, H2, Hnow, Hexp, Hpre.
  destruct (cache_hit k (now w2)); [repeat split|].
  destruct (credentials_missing c); [repeat split|].
  cbn [fst snd trace]. rewrite Hpre. repeat split.
Qed.

Lemma fresh_token_shown_by_prefix_only_witness :
  outcome (run get_test_token Sample.config
             (Scenario.world_of (Scenario.granted Scenario.token_a) Scenario.meeting_created)
             empty_cache)
  = outcome (run get_test_token Sample.config
               (Scenario.world_of (Scenario.granted Scenario.token_b)
                  Scenario.meeting_created)
               empty_cache).
Proof.
  apply (fresh_token_shown_by_prefix_only Sample.config empty_cache
           (Scenario.world_of (Scenario.granted Scenario.token_a) Scenario.meeting_created)
           (Scenario.world_of (Scenario.granted Scenario.token_b) Scenario.meeting_created)
           {| access_token := Scenario.token_a; expires_in := 3600 |}
           {| access_token := Scenario.token_b; expires_in := 3600 |});
    reflexivity.
Defined.

(* ================================================================== *)
(** ** More on meeting creation *)

(** The handler up to the point where the accessor has answered. *)
Lemma create_meeting_after_token (c : Config) (w : World) (k : Cache)
  (req_body : list (string * value)) :
  exists s,
    cache s = cache_after (run getZoomAccessToken c w k) /\
    posts_of (trace s) = posts_of (trace_of (run getZoomAccessToken c w k)) /\
    run (post_create_meeting req_body) c w k
    = match outcome (run getZoomAccessToken c w k) with
      | inl error =>
          (console_error [Arg (VStr "❌ Failed to create meeting:")] ;;
           console_error [Arg (VStr "   Status:"); Arg (response_status error)] ;;
           console_error [Arg (VStr "   Error:"); ArgJson (response_data error)] ;;
           ret (res_status_json 500 (VObj [
             ("success", VBool false);
             ("error", or (opt_get (response_data error) "message")
                          (VStr "Failed to create Zoom meeting")) ])))%js c w s
      | inr token =>
          try_catch
            (console_log [Arg (VStr "📤 Sending request to Zoom API...")] ;;
             emit (meeting_request req_body token) ;;
             rdata <- await (meeting_answer w req_body token) ;;
             id <- member rdata "id" ;;
             console_log [Arg (VStr "✅ Zoom meeting created:"); Arg id] ;;
             console_log [Arg (VStr "   Join URL:"); Arg (get rdata "join_url")] ;;
             ret (res_json (VObj [
               ("success", VBool true);
               ("meeting", VObj [
                  ("id", get rdata "id");
                  ("joinUrl", get rdata "join_url");
                  ("startUrl", get rdata "start_url");
                  ("password", get rdata "password");
                  ("topic", get rdata "topic") ]) ])))%js
            (fun error =>
               console_error [Arg (VStr "❌ Failed to create meeting:")] ;;
               console_error [Arg (VStr "   Status:"); Arg (response_status error)] ;;
               console_error [Arg (VStr "   Error:"); ArgJson (response_data error)] ;;
               ret (res_status_json 500 (VObj [
                 ("success", VBool false);
                 ("error", or (opt_get (response_data error) "message")
                              (VStr "Failed to create Zoom meeting")) ])))%js c w s
      end.
Proof.
  exists {| cache := cache_after (run getZoomAccessToken c w k);
            clock := clock (snd (run getZoomAccessToken c w k));
            trace := [Console "log" [Arg (VStr "📅 Creating meeting:");
                                     Arg (prop req_body "topic")]]
                     ++ trace_of (run getZoomAccessToken c w k) |}.
  split; [reflexivity|]. split; [reflexivity|].
  unfold post_create_meeting, meeting_request, meeting_answer. unfold run at 1.
  step_handler.
  rewrite accessor_from by reflexivity. cbn [cache trace].
  destruct (outcome (run getZoomAccessToken c w k)); reflexivity.
Qed.

Lemma posts_of_app (t1 t2 : list event) :
  posts_of (t1 ++ t2) = (posts_of t1 ++ posts_of t2)%list.
Proof. apply List.filter_app. Qed.

(** X6. When the accessor throws, [POST /api/create-meeting] answers
    500 with the fixed text "Failed to create Zoom meeting" (the
    accessor's own message is not passed on) and sends no request to
    the meetings endpoint: the requests of the run are those of the
    accessor. *)
Theorem create_meeting_without_token
  (c : Config) (w : World) (k : Cache) (req_body : list (string * value))
  (error : Error) :
  outcome (run getZoomAccessToken c w k) = inl error ->
  outcome (run (post_create_meeting req_body) c w k)
  = inr {| http_status := 500;
           body := Json (VObj [ ("success", VBool false);
                                ("error", VStr "Failed to create Zoom meeting") ]) |}
  /\ posts_of (trace_of (run (post_create_meeting req_body) c w k))
     = posts_of (trace_of (run getZoomAccessToken c w k))
  /\ (forall p h,
        ~ In (AxiosPost meetings_url p h)
             (trace_of (run (post_create_meeting req_body) c w k))).
Proof.
  intros Herr.
  destruct (create_meeting_after_token c w k req_body) as (s & Hc & Hp & ->).
  destruct (accessor_error c w k error Herr) as [-> _].
  rewrite Herr. step_handler.
  rewrite outcome_pair, trace_of_pair. cbn [cache trace].
  assert (Hposts : posts_of
                     (((trace s ++ [Console "error" [Arg (VStr "❌ Failed to create meeting:")]])
                       ++ [Console "error" [Arg (VStr "   Status:");
                                            Arg (response_status auth_error)]])
                      ++ [Console "error" [Arg (VStr "   Error:");
                                           ArgJson (response_data auth_error)]])
                   = posts_of (trace_of (run getZoomAccessToken c w k))).
  { rewrite !posts_of_app, Hp. cbn. rewrite !app_nil_r. reflexivity. }
  split; [reflexivity|]. split; [exact Hposts|].
  intros p h HIn.
  assert (HIn' : In (AxiosPost meetings_url p h)
                    (posts_of (trace_of (run getZoomAccessToken c w k)))).
  { rewrite <- Hposts. apply List.filter_In. split; [exact HIn | reflexivity]. }
  apply List.filter_In in HIn'. destruct HIn' as [HIn' _].
  revert HIn'. rewrite getZoomAccessToken_run.
  unfold getZoomAccessToken_cases, initial, trace_of. cbn [cache clock trace].
  destruct (cache_hit k (now w));
    [|destruct (credentials_missing c);
      [|destruct (result (upstream c w)) as [e|d]]];
    cbn [snd trace]; cbn; intros HIn';
    repeat (destruct HIn' as [HIn'|HIn']; [discriminate HIn'|]);
    contradiction.
Qed.

Lemma create_meeting_without_token_witness :
  outcome (run (post_create_meeting (Sample.meeting_body VNull)) Sample.no_secret
             (Sample.world 0 3600) empty_cache)
  = inr {| http_status := 500;
           body := Json (VObj [ ("success", VBool false);
                                ("error", VStr "Failed to create Zoom meeting") ]) |}.
Proof.
  apply (create_meeting_without_token Sample.no_secret (Sample.world 0 3600)
           empty_cache (Sample.meeting_body VNull)
           (new_Error "Failed to authenticate with Zoom")).
  reflexivity.
Defined.

(** X7. When the accessor returns [token], exactly one more request is
    sent after the accessor's: the POST to the meetings endpoint, with
    the header [Authorization: Bearer token].  With a valid cached token
    it is the only request of the whole run, and it carries the cached
    token. *)
Theorem create_meeting_sends_bearer_token
  (c : Config) (w : World) (k : Cache) (req_body : list (string * value))
  (token : option string) :
  outcome (run getZoomAccessToken c w k) = inr token ->
  posts_of (trace_of (run (post_create_meeting req_body) c w k))
  = (posts_of (trace_of (run getZoomAccessToken c w k))
     ++ [ AxiosPost "https://api.zoom.us/v2/users/me/meetings"
            (meetingData (prop req_body "topic") (prop req_body "duration"))
            [ ("Authorization", ("Bearer " ++ nullable_text token)%string);
              ("Content-Type", "application/json") ] ])%list
  /\ (exists tok, token = Some tok)
  /\ (cache_hit k (now w) = true ->
      token = accessToken k /\
      requests (trace_of (run (post_create_meeting req_body) c w k)) = 1%nat)
  /\ (requests (trace_of (run (post_create_meeting req_body) c w k)) <= 2)%nat.
Proof.
  intros Htok.
  assert (Hsome : exists tok, token = Some tok).
  { revert Htok. rewrite getZoomAccessToken_run.
    unfold getZoomAccessToken_cases, initial. cbn [cache clock trace].
    destruct (cache_hit k (now w)) eqn:Hhit.
    - apply cache_hit_iff in Hhit. destruct Hhit as (tok & e & -> & _).
      intros [= <-]. eauto.
    - destruct (credentials_missing c); [discriminate|].
      destruct (result _); [discriminate|]. intros [= <-]. eauto. }
  assert (Hacc : (cache_hit k (now w) = true ->
                  token = accessToken k /\
                  posts_of (trace_of (run getZoomAccessToken c w k)) = []) /\
                 (List.length (posts_of (trace_of (run getZoomAccessToken c w k))) <= 1)%nat).
  { revert Htok. rewrite getZoomAccessToken_run.
    unfold getZoomAccessToken_cases, initial. cbn [cache clock trace].
    destruct (cache_hit k (now w)).
    - intros [= <-]. split; [split; reflexivity | cbn; lia].
    - destruct (credentials_missing c); [discriminate|].
      destruct (result _); [discriminate|]. intros _.
      split; [discriminate | cbn; lia]. }
  assert (Hposts :
    posts_of (trace_of (run (post_create_meeting req_body) c w k))
    = (posts_of (trace_of (run getZoomAccessToken c w k))
       ++ [meeting_request req_body token])%list).
  { destruct (create_meeting_after_token c w k req_body) as (s & Hc & Hp & ->).
    rewrite Htok. unfold meeting_answer. step_handler.
    destruct (result (zoom_create_meeting w _ _)) as [e|rdata]; [|destruct rdata];
      rewrite trace_of_pair; cbn [trace];
      rewrite !posts_of_app, Hp; cbn; rewrite ?app_nil_r; reflexivity. }
  split; [exact Hposts|]. split; [exact Hsome|].
  unfold requests. fold (posts_of (trace_of (run (post_create_meeting req_body) c w k))).
  rewrite Hposts, List.length_app. cbn [List.length]. split.
  - intros Hhit. destruct (proj1 Hacc Hhit) as [Ht Hnone].
    split; [exact Ht|]. rewrite Hnone. reflexivity.
  - destruct Hacc as [_ Hle]. lia.
Qed.

Lemma create_meeting_sends_bearer_token_witness :
  posts_of (trace_of (run (post_create_meeting (Sample.meeting_body VNull))
                        Sample.config (Sample.world 1000 3600) Sample.cached))
  = [ AxiosPost "https://api.zoom.us/v2/users/me/meetings"
        (meetingData (VStr "Weekly sync") (VNum 30))
        [ ("Authorization", "Bearer tok-1"); ("Content-Type", "application/json") ] ].
Proof.
  apply (proj1 (create_meeting_sends_bearer_token Sample.config (Sample.world 1000 3600)
                  Sample.cached (Sample.meeting_body VNull) (Some "tok-1") eq_refl)).
Defined.

(** X8. When the accessor returns [token] and the meetings endpoint
    rejects the request, the handler answers 500 with
    [error.response?.data?.message || 'Failed to create Zoom meeting']:
    the upstream's own message when its body has a non-empty one (it is
    passed to the client as it is), the fixed text when the transport
    failed.  The token obtained for the failed request stays cached. *)
Theorem create_meeting_passes_on_upstream_message
  (c : Config) (w : World) (k : Cache) (req_body : list (string * value))
  (token : option string) (error : Error) :
  outcome (run getZoomAccessToken c w k) = inr token ->
  result (meeting_answer w req_body token) = inl error ->
  outcome (run (post_create_meeting req_body) c w k)
  = inr {| http_status := 500;
           body := Json (VObj [
             ("success", VBool false);
             ("error", or (opt_get (response_data error) "message")
                          (VStr "Failed to create Zoom meeting")) ]) |}
  /\ (forall st ps m,
        response error = Some {| status := st; data := VObj ps |} ->
        prop ps "message" = VStr m -> m <> "" ->
        outcome (run (post_create_meeting req_body) c w k)
        = inr {| http_status := 500;
                 body := Json (VObj [ ("success", VBool false); ("error", VStr m) ]) |})
  /\ (response error = None ->
      outcome (run (post_create_meeting req_body) c w k)
      = inr {| http_status := 500;
               body := Json (VObj [ ("success", VBool false);
                                    ("error", VStr "Failed to create Zoom meeting") ]) |})
  /\ cache_after (run (post_create_meeting req_body) c w k)
     = cache_after (run getZoomAccessToken c w k).
Proof.
  intros Htok Herr.
  destruct (create_meeting_after_token c w k req_body) as (s & Hc & Hp & ->).
  rewrite Htok. step_handler. rewrite Herr.
  rewrite !outcome_pair, cache_after_pair. cbn [cache].
  split; [reflexivity|]. split; [|split; [|exact Hc]].
  - intros st ps m Hresp Hm Hne. unfold response_data. rewrite Hresp.
    cbn [data opt_get nullish get]. rewrite Hm. unfold or. cbn [ToBoolean].
    apply truthy_string_iff in Hne. rewrite Hne. reflexivity.
  - intros Hresp. unfold response_data. rewrite Hresp. reflexivity.
Qed.

Lemma create_meeting_passes_on_upstream_message_witness :
  outcome (run (post_create_meeting (Sample.meeting_body VNull)) Sample.config
             (Scenario.world_of (Scenario.granted "tok-1") Scenario.meeting_refused)
             empty_cache)
  = inr {| http_status := 500;
           body := Json (VObj [ ("success", VBool false);
                                ("error", VStr "Invalid field.") ]) |}.
Proof.
  refine (proj1 (proj2 (create_meeting_passes_on_upstream_message Sample.config
                   (Scenario.world_of (Scenario.granted "tok-1") Scenario.meeting_refused)
                   empty_cache (Sample.meeting_body VNull) (Some "tok-1") _ eq_refl eq_refl))
            (VNum 400) _ "Invalid field." eq_refl eq_refl _).
  discriminate.
Defined.

(** X9. When the accessor returns [token] and the meetings endpoint
    answers 2xx with a body, the handler answers 200 with [success:
    true] and a [meeting] whose id, joinUrl, startUrl, password and
    topic are the body's [id], [join_url], [start_url], [password] and
    [topic] ([undefined] for a field the body lacks); with an empty
    ([undefined] or [null]) body it answers 500 with the fixed text. *)
Theorem create_meeting_maps_upstream_fields
  (c : Config) (w : World) (k : Cache) (req_body : list (string * value))
  (token : option string) (rdata : value) :
  outcome (run getZoomAccessToken c w k) = inr token ->
  result (meeting_answer w req_body token) = inr rdata ->
  (nullish rdata = false ->
   outcome (run (post_create_meeting req_body) c w k)
   = inr {| http_status := 200;
            body := Json (VObj [
              ("success", VBool true);
              ("meeting", VObj [ ("id", get rdata "id");
                                 ("joinUrl", get rdata "join_url");
                                 ("startUrl", get rdata "start_url");
                                 ("password", get rdata "password");
                                 ("topic", get rdata "topic") ]) ]) |})
  /\ (nullish rdata = true ->
      outcome (run (post_create_meeting req_body) c w k)
      = inr {| http_status := 500;
               body := Json (VObj [ ("success", VBool false);
                                    ("error", VStr "Failed to create Zoom meeting") ]) |}).
Proof.
  intros Htok Hdata.
  destruct (create_meeting_after_token c w k req_body) as (s & Hc & Hp & ->).
  rewrite Htok. step_handler. rewrite Hdata.
  destruct rdata; cbn; split; intros H; try discriminate H; reflexivity.
Qed.

Lemma create_meeting_maps_upstream_fields_witness :
  outcome (run (post_create_meeting (Sample.meeting_body VNull)) Sample.config
             (Scenario.world_of (Scenario.granted "tok-1") Scenario.meeting_created)
             empty_cache)
  = inr {| http_status := 200;
           body := Json (VObj [
             ("success", VBool true);
             ("meeting", VObj [ ("id", VNum 42);
                                ("joinUrl", VStr "https://zoom.us/j/42");
                                ("startUrl", VStr "https://zoom.us/s/42");
                                ("password", VStr "pw");
                                ("topic", VStr "Weekly sync") ]) ]) |}.
Proof.
  refine (proj1 (create_meeting_maps_upstream_fields Sample.config
                   (Scenario.world_of (Scenario.granted "tok-1") Scenario.meeting_created)
                   empty_cache (Sample.meeting_body VNull) (Some "tok-1") _ eq_refl eq_refl)
            eq_refl).
Defined.

(* ================================================================== *)
(** ** More on checkout sessions *)

(** The two guards of the checkout handler, on an object body. *)
Lemma checkout_guards_on_object_body
  (NumberToString : float -> string) (StringToNumber : string -> float)
  (c : Config) (w : World) (k : Cache) (req_body : list (string * value)) :
  (stripe_loaded c = false ->
   outcome (run (post_create_checkout_session NumberToString StringToNumber req_body) c w k)
   = inr {| http_status := 500;
            body := Json (VObj [
              ("success", VBool false);
              ("error", VStr "Payment system not configured. Please contact support.") ]) |}
   /\ stripe_calls_of
        (trace_of (run (post_create_checkout_session NumberToString StringToNumber req_body)
                     c w k)) = [])
  /\ (stripe_loaded c = true -> ToBoolean (prop req_body "productId") = false ->
      outcome (run (post_create_checkout_session NumberToString StringToNumber req_body)
                 c w k)
      = inr {| http_status := 400;
               body := Json (VObj [ ("success", VBool false);
                                    ("error", VStr "Missing product ID") ]) |}
      /\ stripe_calls_of
           (trace_of (run (post_create_checkout_session NumberToString StringToNumber
                             req_body) c w k)) = []).
Proof.
  unfold post_create_checkout_session. split.
  - intros Hloaded. run_handler. rewrite Hloaded. split; reflexivity.
  - intros Hloaded Hid. run_handler. rewrite Hloaded, Hid. split; reflexivity.
Qed.

(** X10. [POST /api/create-checkout-session] checks before it calls the
    SDK.  For a request whose [req.body] is defined: without a loaded
    SDK it answers 500 "Payment system not configured. Please contact
    support.", and with the SDK but a missing (or falsy) productId it
    answers 400 "Missing product ID".  When [req.body] is [undefined]
    or [null] the destructuring of l.51 throws before either check and
    the [catch] answers 500 with the message of that [TypeError].  In
    all three cases nothing is asked of Stripe. *)
Theorem checkout_validates_before_calling_stripe
  (NumberToString : float -> string) (StringToNumber : string -> float)
  (c : Config) (w : World) (k : Cache) (req_body : value) :
  let r :=
    run (Mounted.create_checkout_session NumberToString StringToNumber req_body) c w k in
  (nullish req_body = true ->
   (exists m,
      outcome r = inr {| http_status := 500;
                         body := Json (VObj [ ("success", VBool false);
                                              ("error", VStr m) ]) |})
   /\ stripe_calls_of (trace_of r) = [])
  /\ (nullish req_body = false -> stripe_loaded c = false ->
      outcome r
      = inr {| http_status := 500;
               body := Json (VObj [
                 ("success", VBool false);
                 ("error", VStr "Payment system not configured. Please contact support.") ]) |}
      /\ stripe_calls_of (trace_of r) = [])
  /\ (nullish req_body = false -> stripe_loaded c = true ->
      ToBoolean (get req_body "productId") = false ->
      outcome r
      = inr {| http_status := 400;
               body := Json (VObj [ ("success", VBool false);
                                    ("error", VStr "Missing product ID") ]) |}
      /\ stripe_calls_of (trace_of r) = []).
Proof.
  intros r. subst r. split; [|split].
  - intros Hbody.
    destruct req_body; try discriminate Hbody;
      (split; [eexists; reflexivity | reflexivity]).
  - intros Hbody Hloaded.
    rewrite (create_checkout_session_on_defined_body _ _ req_body Hbody).
    apply checkout_guards_on_object_body. exact Hloaded.
  - intros Hbody Hloaded Hid.
    rewrite (create_checkout_session_on_defined_body _ _ req_body Hbody).
    apply checkout_guards_on_object_body; [exact Hloaded|].
    rewrite get_own_props. exact Hid.
Qed.

Lemma checkout_validates_before_calling_stripe_witness :
  outcome (run (Mounted.create_checkout_session Sample.number_text Sample.text_number
                  (VObj [ ("amount", VNum 149) ]))
             Sample.config (Sample.world 0 3600) empty_cache)
  = inr {| http_status := 400;
           body := Json (VObj [ ("success", VBool false);
                                ("error", VStr "Missing product ID") ]) |}
  /\ stripe_calls_of
       (trace_of (run (Mounted.create_checkout_session Sample.number_text
                         Sample.text_number VUndefined)
                    Scenario.no_stripe (Sample.world 0 3600) empty_cache))
     = [].
Proof.
  split.
  - apply (proj2 (proj2 (checkout_validates_before_calling_stripe Sample.number_text
                           Sample.text_number Sample.config (Sample.world 0 3600)
                           empty_cache (VObj [ ("amount", VNum 149) ]))));
      reflexivity.
  - apply (proj1 (checkout_validates_before_calling_stripe Sample.number_text
                    Sample.text_number Scenario.no_stripe (Sample.world 0 3600)
                    empty_cache VUndefined)).
    reflexivity.
Defined.

(** X11. With the SDK loaded and a productId, the handler calls
    [stripe.checkout.sessions.create] once with [sessionConfig].  If
    the call fulfils it answers 200 with the session's id and url; if it
    rejects it answers 500 with the error's message, or with "Failed to
    create checkout session" when that message is empty. *)
Theorem checkout_reports_stripe_outcome
  (NumberToString : float -> string) (StringToNumber : string -> float)
  (c : Config) (w : World) (k : Cache) (req_body : list (string * value)) :
  stripe_loaded c = true -> ToBoolean (prop req_body "productId") = true ->
  let config :=
    sessionConfig NumberToString StringToNumber
      (prop req_body "productId") (prop req_body "planName") (prop req_body "currency")
      (prop req_body "amount") (prop req_body "successUrl") (prop req_body "cancelUrl") in
  let r :=
    run (post_create_checkout_session NumberToString StringToNumber req_body) c w k in
  stripe_calls_of (trace_of r) = [StripeCall "checkout.sessions.create" [config]]
  /\ (forall session, result (stripe_sessions_create w config) = inr session ->
        outcome r = inr {| http_status := 200;
                           body := Json (VObj [ ("success", VBool true);
                                                ("sessionId", session_id session);
                                                ("url", session_url session) ]) |})
  /\ (forall error, result (stripe_sessions_create w config) = inl error ->
        message error <> "" ->
        outcome r = inr {| http_status := 500;
                           body := Json (VObj [ ("success", VBool false);
                                                ("error", VStr (message error)) ]) |})
  /\ (forall error, result (stripe_sessions_create w config) = inl error ->
        message error = "" ->
        outcome r = inr {| http_status := 500;
                           body := Json (VObj [
                             ("success", VBool false);
                             ("error", VStr "Failed to create checkout session") ]) |}).
Proof.
  intros Hloaded Hid config r. subst r.
  unfold post_create_checkout_session. fold config. run_handler.
  rewrite Hloaded, Hid. cbn [negb]. fold config.
  destruct (result (stripe_sessions_create w config)) as [e|session].
  - split; [reflexivity|]. split; [discriminate|]. split.
    + intros error [= <-] Hne. unfold or. cbn [ToBoolean].
      apply truthy_string_iff in Hne. rewrite Hne. reflexivity.
    + intros error [= <-] Hempty. unfold or. cbn [ToBoolean]. rewrite Hempty.
      reflexivity.
  - split; [reflexivity|]. split; [intros s [= <-]; reflexivity|].
    split; discriminate.
Qed.

Lemma checkout_reports_stripe_outcome_witness :
  outcome (run (post_create_checkout_session Sample.number_text Sample.text_number
                  Sample.checkout_body)
             Sample.config
             (Scenario.stripe_world (mkSettled (inl Scenario.card_error) 0)) empty_cache)
  = inr {| http_status := 500;
           body := Json (VObj [ ("success", VBool false);
                                ("error", VStr "No such product: 'p1'") ]) |}.
Proof.
  refine (proj1 (proj2 (proj2 (checkout_reports_stripe_outcome Sample.number_text
                   Sample.text_number Sample.config
                   (Scenario.stripe_world (mkSettled (inl Scenario.card_error) 0))
                   empty_cache Sample.checkout_body eq_refl eq_refl)))
            Scenario.card_error eq_refl _).
  discriminate.
Defined.

(** X12. A missing or falsy amount (absent, [null], [0], the empty
    string, [false]) is priced as 149: the line item's [unit_amount] is
    14900, for any product and currency, while the metadata keeps the
    text of the amount received.  Likewise a missing or falsy currency
    is priced in "usd" while the metadata keeps the currency received. *)
Theorem checkout_defaults_amount_and_currency
  (NumberToString : float -> string) (StringToNumber : string -> float)
  (productId planName currency amount successUrl cancelUrl : value) :
  ToBoolean amount = false ->
  let config :=
    sessionConfig NumberToString StringToNumber
      productId planName currency amount successUrl cancelUrl in
  get config "line_items"
  = VArr [ VObj [ ("price_data",
                   VObj [ ("currency", or currency (VStr "usd"));
                          ("product", productId);
                          ("unit_amount", VNum 14900);
                          ("recurring", VObj [ ("interval", VStr "month") ]) ]);
                  ("quantity", VNum 1) ] ]
  /\ get (get config "metadata") "amount"
     = VStr (ToString NumberToString amount)
  /\ (ToBoolean currency = false ->
      or currency (VStr "usd") = VStr "usd" /\
      get (get config "metadata") "currency" = currency).
Proof.
  intros Hamount config. subst config. unfold sessionConfig.
  cbn [get prop String.eqb Ascii.eqb Bool.eqb]. unfold or at 2. rewrite Hamount.
  split; [reflexivity|]. split; [reflexivity|].
  intros Hcur. unfold or. rewrite Hcur. split; reflexivity.
Qed.

Lemma checkout_defaults_amount_and_currency_witness :
  get (sessionConfig Sample.number_text Sample.text_number
         (VStr "p1") (VStr "Pro") (VStr "eur") (VNum 0) (VStr "https://a/ok?x=1")
         (VStr "https://a/no"))
      "line_items"
  = VArr [ VObj [ ("price_data",
                   VObj [ ("currency", VStr "eur");
                          ("product", VStr "p1");
                          ("unit_amount", VNum 14900);
                          ("recurring", VObj [ ("interval", VStr "month") ]) ]);
                  ("quantity", VNum 1) ] ].
Proof.
  apply (checkout_defaults_amount_and_currency Sample.number_text Sample.text_number
           (VStr "p1") (VStr "Pro") (VStr "eur") (VNum 0) (VStr "https://a/ok?x=1")
           (VStr "https://a/no")).
  reflexivity.
Defined.

(* ================================================================== *)
(** ** The billing portal *)

(** The two guards of the portal handler, on an object body. *)
Lemma portal_guards_on_object_body
  (stripe : Portal.Sdk) (c : Config) (w : World) (k : Cache)
  (req_body : list (string * value)) :
  (stripe_loaded c = false ->
   outcome (run (Portal.post_create_portal_session stripe req_body) c w k)
   = inr {| http_status := 500;
            body := Json (VObj [ ("success", VBool false);
                                 ("error", VStr "Payment system not configured.") ]) |}
   /\ stripe_calls_of
        (trace_of (run (Portal.post_create_portal_session stripe req_body) c w k)) = [])
  /\ (stripe_loaded c = true -> ToBoolean (prop req_body "email") = false ->
      outcome (run (Portal.post_create_portal_session stripe req_body) c w k)
      = inr {| http_status := 400;
               body := Json (VObj [ ("success", VBool false);
                                    ("error", VStr "Email not provided.") ]) |}
      /\ stripe_calls_of
           (trace_of (run (Portal.post_create_portal_session stripe req_body) c w k))
         = []).
Proof.
  unfold Portal.post_create_portal_session. split.
  - intros Hloaded. run_handler. rewrite Hloaded. split; reflexivity.
  - intros Hloaded Hemail. run_handler. rewrite Hloaded, Hemail. split; reflexivity.
Qed.

(** X13. [POST /api/create-portal-session] checks before it calls the
    SDK.  For a request whose [req.body] is defined: without a loaded
    SDK it answers 500 "Payment system not configured.", and with the
    SDK but a missing (or falsy) email it answers 400 "Email not
    provided.".  When [req.body] is [undefined] or [null] the
    destructuring of l.168 throws before either check and the [catch]
    answers 500 with the message of that [TypeError].  In all three
    cases nothing is asked of Stripe. *)
Theorem portal_validates_before_calling_stripe
  (stripe : Portal.Sdk) (c : Config) (w : World) (k : Cache) (req_body : value) :
  let r := run (Mounted.create_portal_session stripe req_body) c w k in
  (nullish req_body = true ->
   (exists m,
      outcome r = inr {| http_status := 500;
                         body := Json (VObj [ ("success", VBool false);
                                              ("error", VStr m) ]) |})
   /\ stripe_calls_of (trace_of r) = [])
  /\ (nullish req_body = false -> stripe_loaded c = false ->
      outcome r
      = inr {| http_status := 500;
               body := Json (VObj [ ("success", VBool false);
                                    ("error", VStr "Payment system not configured.") ]) |}
      /\ stripe_calls_of (trace_of r) = [])
  /\ (nullish req_body = false -> stripe_loaded c = true ->
      ToBoolean (get req_body "email") = false ->
      outcome r
      = inr {| http_status := 400;
               body := Json (VObj [ ("success", VBool false);
                                    ("error", VStr "Email not provided.") ]) |}
      /\ stripe_calls_of (trace_of r) = []).
Proof.
  intros r. subst r. split; [|split].
  - intros Hbody.
    destruct req_body; try discriminate Hbody;
      (split; [eexists; reflexivity | reflexivity]).
  - intros Hbody Hloaded.
    rewrite (create_portal_session_on_defined_body stripe req_body Hbody).
    apply portal_guards_on_object_body. exact Hloaded.
  - intros Hbody Hloaded Hemail.
    rewrite (create_portal_session_on_defined_body stripe req_body Hbody).
    apply portal_guards_on_object_body; [exact Hloaded|].
    rewrite get_own_props. exact Hemail.
Qed.

Lemma portal_validates_before_calling_stripe_witness :
  outcome (run (Mounted.create_portal_session Scenario.sdk_one
                  (VObj [ ("email", VStr "a@b.c") ]))
             Scenario.no_stripe (Sample.world 0 3600) empty_cache)
  = inr {| http_status := 500;
           body := Json (VObj [ ("success", VBool false);
                                ("error", VStr "Payment system not configured.") ]) |}
  /\ stripe_calls_of
       (trace_of (run (Mounted.create_portal_session Scenario.sdk_one VUndefined)
                    Sample.config (Sample.world 0 3600) empty_cache))
     = [].
Proof.
  split.
  - apply (proj1 (proj2 (portal_validates_before_calling_stripe Scenario.sdk_one
                           Scenario.no_stripe (Sample.world 0 3600) empty_cache
                           (VObj [ ("email", VStr "a@b.c") ]))));
      reflexivity.
  - apply (proj1 (portal_validates_before_calling_stripe Scenario.sdk_one
                    Sample.config (Sample.world 0 3600) empty_cache VUndefined)).
    reflexivity.
Defined.

(** X14. When Stripe lists no customer for the email, the handler
    answers 404 with the "No billing account found ..." text; it has
    asked Stripe for the customers of that email, at most one, and has
    created no portal session. *)
Theorem portal_unknown_customer_is_404
  (stripe : Portal.Sdk) (c : Config) (w : World) (k : Cache)
  (req_body : list (string * value)) :
  stripe_loaded c = true -> ToBoolean (prop req_body "email") = true ->
  result (Portal.customers_list stripe
            (VObj [ ("email", prop req_body "email"); ("limit", VNum 1) ])) = inr [] ->
  outcome (run (Portal.post_create_portal_session stripe req_body) c w k)
  = inr {| http_status := 404;
           body := Json (VObj [
             ("success", VBool false);
             ("error", VStr "No billing account found. If you recently subscribed, please try again in a few minutes.") ]) |}
  /\ stripe_calls_of
       (trace_of (run (Portal.post_create_portal_session stripe req_body) c w k))
     = [ StripeCall "customers.list"
           [VObj [ ("email", prop req_body "email"); ("limit", VNum 1) ]] ].
Proof.
  intros Hloaded Hemail Hnone.
  unfold Portal.post_create_portal_session, Portal.customer_query. run_handler.
  rewrite Hloaded, Hemail. cbn [negb]. run_handler. rewrite Hnone.
  split; reflexivity.
Qed.

Lemma portal_unknown_customer_is_404_witness :
  http_status_of
    (outcome (run (Portal.post_create_portal_session Scenario.sdk_none
                     [ ("email", VStr "a@b.c") ])
                Sample.config (Sample.world 0 3600) empty_cache))
  = Some 404%Z.
Proof.
  rewrite (proj1 (portal_unknown_customer_is_404 Scenario.sdk_none Sample.config
                    (Sample.world 0 3600) empty_cache [ ("email", VStr "a@b.c") ]
                    eq_refl eq_refl eq_refl)).
  reflexivity.
Defined.

(** X15. When Stripe lists customers for the email, the handler opens
    a portal session for the first one only: it calls
    [billingPortal.sessions.create] with that customer's id and with
    [returnUrl || 'https://meetsync.app'], and answers 200 with the
    session's url.  The other customers of the list play no part. *)
Theorem portal_opens_session_for_first_customer
  (stripe : Portal.Sdk) (c : Config) (w : World) (k : Cache)
  (req_body : list (string * value)) (first : value) (others : list value)
  (portalSession : value) :
  stripe_loaded c = true -> ToBoolean (prop req_body "email") = true ->
  result (Portal.customers_list stripe
            (VObj [ ("email", prop req_body "email"); ("limit", VNum 1) ]))
  = inr (first :: others) ->
  nullish first = false ->
  let params :=
    VObj [ ("customer", get first "id");
           ("return_url", or (prop req_body "returnUrl") (VStr "https://meetsync.app")) ] in
  result (Portal.billingPortal_sessions_create stripe params) = inr portalSession ->
  nullish portalSession = false ->
  outcome (run (Portal.post_create_portal_session stripe req_body) c w k)
  = inr {| http_status := 200;
           body := Json (VObj [ ("success", VBool true);
                                ("url", get portalSession "url") ]) |}
  /\ stripe_calls_of
       (trace_of (run (Portal.post_create_portal_session stripe req_body) c w k))
     = [ StripeCall "customers.list"
           [VObj [ ("email", prop req_body "email"); ("limit", VNum 1) ]];
         StripeCall "billingPortal.sessions.create" [params] ]
  /\ (ToBoolean (prop req_body "returnUrl") = false ->
      get params "return_url" = VStr "https://meetsync.app").
Proof.
  intros Hloaded Hemail Hlist Hfirst params Hcreate Hsession.
  unfold Portal.post_create_portal_session, Portal.customer_query, Portal.portal_params.
  run_handler. rewrite Hloaded, Hemail. cbn [negb]. run_handler. rewrite Hlist.
  destruct first; try discriminate Hfirst;
    run_handler; fold params; rewrite Hcreate;
    (destruct portalSession; try discriminate Hsession);
    (split; [reflexivity|]; split; [reflexivity|];
     intros Hret; subst params; cbn; unfold or; rewrite Hret; reflexivity).
Qed.

Lemma portal_opens_session_for_first_customer_witness :
  outcome (run (Portal.post_create_portal_session Scenario.sdk_one
                  [ ("email", VStr "a@b.c") ])
             Sample.config (Sample.world 0 3600) empty_cache)
  = inr {| http_status := 200;
           body := Json (VObj [ ("success", VBool true);
                                ("url", VStr "https://billing/bps_1") ]) |}.
Proof.
  refine (proj1 (portal_opens_session_for_first_customer Scenario.sdk_one Sample.config
                   (Sample.world 0 3600) empty_cache [ ("email", VStr "a@b.c") ]
                   (VObj [ ("id", VStr "cus_1") ]) [ VObj [ ("id", VStr "cus_2") ] ]
                   (VObj [ ("id", VStr "bps_1"); ("url", VStr "https://billing/bps_1") ])
                   eq_refl eq_refl eq_refl eq_refl eq_refl eq_refl)).
Defined.

(** X16. When a call to Stripe rejects, the handler answers 500 with
    the error's message as it is (no fallback text): if listing the
    customers rejects, no portal session is created. *)
Theorem portal_reports_stripe_error
  (stripe : Portal.Sdk) (c : Config) (w : World) (k : Cache)
  (req_body : list (string * value)) (error : Error) :
  stripe_loaded c = true -> ToBoolean (prop req_body "email") = true ->
  (result (Portal.customers_list stripe
             (VObj [ ("email", prop req_body "email"); ("limit", VNum 1) ])) = inl error ->
   outcome (run (Portal.post_create_portal_session stripe req_body) c w k)
   = inr {| http_status := 500;
            body := Json (VObj [ ("success", VBool false);
                                 ("error", VStr (message error)) ]) |}
   /\ stripe_calls_of
        (trace_of (run (Portal.post_create_portal_session stripe req_body) c w k))
      = [ StripeCall "customers.list"
            [VObj [ ("email", prop req_body "email"); ("limit", VNum 1) ]] ])
  /\ (forall first others,
        result (Portal.customers_list stripe
                  (VObj [ ("email", prop req_body "email"); ("limit", VNum 1) ]))
        = inr (first :: others) ->
        nullish first = false ->
        result (Portal.billingPortal_sessions_create stripe
                  (VObj [ ("customer", get first "id");
                          ("return_url", or (prop req_body "returnUrl")
                                            (VStr "https://meetsync.app")) ]))
        = inl error ->
        outcome (run (Portal.post_create_portal_session stripe req_body) c w k)
        = inr {| http_status := 500;
                 body := Json (VObj [ ("success", VBool false);
                                      ("error", VStr (message error)) ]) |}).
Proof.
  intros Hloaded Hemail.
  unfold Portal.post_create_portal_session, Portal.customer_query, Portal.portal_params.
  split.
  - intros Hlist. run_handler. rewrite Hloaded, Hemail. cbn [negb]. run_handler.
    rewrite Hlist. split; reflexivity.
  - intros first others Hlist Hfirst Hcreate. run_handler.
    rewrite Hloaded, Hemail. cbn [negb]. run_handler. rewrite Hlist.
    destruct first; try discriminate Hfirst; run_handler; rewrite Hcreate; reflexivity.
Qed.

Lemma portal_reports_stripe_error_witness :
  outcome (run (Portal.post_create_portal_session Scenario.sdk_down
                  [ ("email", VStr "a@b.c") ])
             Sample.config (Sample.world 0 3600) empty_cache)
  = inr {| http_status := 500;
           body := Json (VObj [ ("success", VBool false);
                                ("error", VStr "connect ETIMEDOUT") ]) |}.
Proof.
  refine (proj1 (proj1 (portal_reports_stripe_error Scenario.sdk_down Sample.config
                          (Sample.world 0 3600) empty_cache [ ("email", VStr "a@b.c") ]
                          (new_Error "connect ETIMEDOUT") eq_refl eq_refl)
                   eq_refl)).
Defined.

(* ================================================================== *)
(** ** More on the webhook and the welcome e-mail *)

(** X17. Every event that passes verification is acknowledged with 200
    [{received: true}], whatever its type.  An event of a type other
    than the three the handler knows only leaves the line "Unhandled
    event type: " followed by the type in the console. *)
Theorem webhook_acknowledges_every_verified_event
  (c : Config) (w : World) (k : Cache) (req_body sig : value) (event : StripeEvent) :
  stripe_loaded c = true ->
  stripe_constructEvent w req_body sig (of_env (STRIPE_WEBHOOK_SECRET c)) = inr event ->
  outcome (run (post_stripe_webhook req_body sig) c w k)
  = inr {| http_status := 200; body := Json (VObj [ ("received", VBool true) ]) |}
  /\ (event_type event <> "checkout.session.completed" ->
      event_type event <> "customer.subscription.created" ->
      event_type event <> "customer.subscription.deleted" ->
      console_of (trace_of (run (post_stripe_webhook req_body sig) c w k))
      = [ Console "log" [Arg (VStr ("Unhandled event type: " ++ event_type event))] ]).
Proof.
  intros Hloaded Hevent. unfold post_stripe_webhook. run_handler.
  rewrite Hloaded. run_handler. rewrite Hevent. unfold handle_event. split.
  - destruct (event_type event =? "checkout.session.completed");
      [reflexivity|].
    destruct (event_type event =? "customer.subscription.created");
      [reflexivity|].
    destruct (event_type event =? "customer.subscription.deleted"); reflexivity.
  - intros H1 H2 H3.
    apply String.eqb_neq in H1, H2, H3. rewrite H1, H2, H3. reflexivity.
Qed.

Lemma webhook_acknowledges_every_verified_event_witness :
  console_of (trace_of (run (post_stripe_webhook (VStr "{}") (VStr "t=1,v1=ab"))
                          Sample.config
                          (Scenario.world_of (Scenario.granted "tok-1")
                             Scenario.meeting_created)
                          empty_cache))
  = [ Console "log" [Arg (VStr "Unhandled event type: invoice.paid")] ].
Proof.
  refine (proj2 (webhook_acknowledges_every_verified_event Sample.config
                   (Scenario.world_of (Scenario.granted "tok-1") Scenario.meeting_created)
                   empty_cache (VStr "{}") (VStr "t=1,v1=ab") Scenario.subscription_event
                   eq_refl eq_refl) _ _ _); discriminate.
Defined.

(** X18. [POST /api/send-welcome-email] asks Stripe for the session only
    when the body has a (truthy) sessionId and the SDK is loaded, and
    then exactly once, for that id; otherwise it asks nothing. *)
Theorem welcome_email_retrieves_session_once
  (c : Config) (w : World) (k : Cache) (req_body : list (string * value)) :
  stripe_calls_of (trace_of (run (post_send_welcome_email req_body) c w k))
  = if ToBoolean (prop req_body "sessionId") && stripe_loaded c
    then [StripeCall "checkout.sessions.retrieve" [prop req_body "sessionId"]]
    else [].
Proof.
  unfold post_send_welcome_email. run_handler.
  destruct (ToBoolean (prop req_body "sessionId")); [|reflexivity].
  run_handler. destruct (stripe_loaded c); [|reflexivity].
  run_handler.
  destruct (result (stripe_sessions_retrieve w (prop req_body "sessionId")))
    as [e|session]; [reflexivity|].
  destruct session; reflexivity.
Qed.

(* ================================================================== *)
(** ** Across the routes *)

(** X19. The Stripe routes and the two descriptors never touch the
    token cache and send no HTTP request of their own; the Zoom routes
    ask nothing of the Stripe SDK. *)
Theorem routes_keep_to_their_service
  (NumberToString : float -> string) (StringToNumber : string -> float)
  (stripe : Portal.Sdk) (c : Config) (w : World) (k : Cache)
  (req_body : list (string * value)) (payload sig : value) :
  (cache_after (run get_root c w k) = k /\ trace_of (run get_root c w k) = [])
  /\ (cache_after (run get_health c w k) = k /\ trace_of (run get_health c w k) = [])
  /\ (cache_after (run (post_create_checkout_session NumberToString StringToNumber
                          req_body) c w k) = k /\
      posts_of (trace_of (run (post_create_checkout_session NumberToString
                                 StringToNumber req_body) c w k)) = [])
  /\ (cache_after (run (Portal.post_create_portal_session stripe req_body) c w k) = k /\
      posts_of (trace_of (run (Portal.post_create_portal_session stripe req_body)
                            c w k)) = [])
  /\ (cache_after (run (post_stripe_webhook payload sig) c w k) = k /\
      posts_of (trace_of (run (post_stripe_webhook payload sig) c w k)) = [])
  /\ (cache_after (run (post_send_welcome_email req_body) c w k) = k /\
      posts_of (trace_of (run (post_send_welcome_email req_body) c w k)) = [])
  /\ stripe_calls_of (trace_of (run getZoomAccessToken c w k)) = []
  /\ stripe_calls_of (trace_of (run get_test_token c w k)) = []
  /\ stripe_calls_of (trace_of (run (post_create_meeting req_body) c w k)) = [].
Proof.
  split; [split; reflexivity|]. split; [split; reflexivity|].
  split.
  { unfold post_create_checkout_session. run_handler.
    destruct (stripe_loaded c); [|split; reflexivity].
    destruct (ToBoolean (prop req_body "productId")); [|split; reflexivity].
    cbn [negb]. destruct (result (stripe_sessions_create w _)); split; reflexivity. }
  split.
  { unfold Portal.post_create_portal_session. run_handler.
    destruct (stripe_loaded c); [|split; reflexivity].
    destruct (ToBoolean (prop req_body "email")); [|split; reflexivity].
    cbn [negb]. run_handler.
    destruct (result (Portal.customers_list stripe _)) as [e|[|first others]];
      [split; reflexivity | split; reflexivity |].
    destruct first; run_handler; try (split; reflexivity);
      (destruct (result (Portal.billingPortal_sessions_create stripe _))
         as [e|session]; [split; reflexivity|]);
      destruct session; split; reflexivity. }
  split.
  { unfold post_stripe_webhook. run_handler.
    destruct (stripe_loaded c); [|split; reflexivity]. run_handler.
    destruct (stripe_constructEvent w payload sig _) as [e|event];
      [split; reflexivity|].
    unfold handle_event.
    destruct (event_type event =? "checkout.session.completed");
      [split; reflexivity|].
    destruct (event_type event =? "customer.subscription.created");
      [split; reflexivity|].
    destruct (event_type event =? "customer.subscription.deleted");
      split; reflexivity. }
  split.
  { unfold post_send_welcome_email. run_handler.
    destruct (ToBoolean (prop req_body "sessionId")); [|split; reflexivity].
    run_handler. destruct (stripe_loaded c); [|split; reflexivity].
    run_handler.
    destruct (result (stripe_sessions_retrieve w _)) as [e|session];
      [split; reflexivity|].
    destruct session; split; reflexivity. }
  assert (Hacc : stripe_calls_of (trace_of (run getZoomAccessToken c w k)) = []).
  { rewrite getZoomAccessToken_run.
    unfold getZoomAccessToken_cases, initial. cbn [cache clock trace].
    destruct (cache_hit k (now w)); [reflexivity|].
    destruct (credentials_missing c); [reflexivity|].
    destruct (result _); reflexivity. }
  split; [exact Hacc|].
  split; [rewrite test_token_run, trace_of_pair; exact Hacc|].
  unfold post_create_meeting. run_handler.
  rewrite getZoomAccessToken_unfold. unfold getZoomAccessToken_cases.
  cbn [cache clock trace].
  destruct (cache_hit k (now w));
    [|destruct (credentials_missing c);
      [|destruct (result (upstream c w)) as [error|d]]];
    run_handler;
    try (destruct (result (zoom_create_meeting w _ _)) as [error'|rdata];
         [|destruct rdata]);
    reflexivity.
Qed.

(** The handlers that take a body, on an object body. *)
Lemma handlers_answer_on_object_bodies
  (NumberToString : float -> string) (StringToNumber : string -> float)
  (stripe : Portal.Sdk) (c : Config) (w : World) (k : Cache)
  (req_body : list (string * value)) :
  status_in [200; 500]%Z (outcome (run (post_create_meeting req_body) c w k))
  /\ status_in [200; 400; 500]%Z
       (outcome (run (post_create_checkout_session NumberToString StringToNumber
                        req_body) c w k))
  /\ status_in [200; 400; 404; 500]%Z
       (outcome (run (Portal.post_create_portal_session stripe req_body) c w k)).
Proof.
  split.
  { destruct (create_meeting_after_token c w k req_body) as (s & _ & _ & ->).
    destruct (outcome (run getZoomAccessToken c w k)) as [e|token];
      step_handler; [cbn; auto|].
    destruct (result (meeting_answer w req_body token)) as [e|rdata];
      [cbn; auto|].
    destruct rdata; cbn; auto. }
  split.
  { unfold post_create_checkout_session. run_handler.
    destruct (stripe_loaded c); [|cbn; auto].
    destruct (ToBoolean (prop req_body "productId")); [|cbn; auto].
    cbn [negb]. destruct (result (stripe_sessions_create w _)); cbn; auto. }
  unfold Portal.post_create_portal_session. run_handler.
  destruct (stripe_loaded c); [|cbn; auto].
  destruct (ToBoolean (prop req_body "email")); [|cbn; auto].
  cbn [negb]. run_handler.
  destruct (result (Portal.customers_list stripe _)) as [e|[|first others]];
    [cbn; auto | cbn; auto |].
  destruct first; run_handler; try (cbn; auto; fail);
    (destruct (result (Portal.billingPortal_sessions_create stripe _))
       as [e|session]; [cbn; auto|]);
    destruct session; cbn; auto.
Qed.

(** X20. Every route but the webhook answers every request: the two
    descriptors cannot throw, and the handler of each other route is
    one [try]/[catch], so no error escapes, whatever [req.body] is
    ([undefined] included), whatever the configuration and the answers
    of Zoom and Stripe.  The status is 200 for the two descriptors, 200
    or 500 for test-token, create-meeting and the welcome e-mail, 200,
    400 or 500 for checkout, and 200, 400, 404 or 500 for the billing
    portal.  (The [switch] of the webhook stands outside its [try].) *)
Theorem guarded_routes_always_answer
  (NumberToString : float -> string) (StringToNumber : string -> float)
  (stripe : Portal.Sdk) (c : Config) (w : World) (k : Cache) (req_body : value) :
  status_in [200]%Z (outcome (run get_root c w k))
  /\ status_in [200]%Z (outcome (run get_health c w k))
  /\ status_in [200; 500]%Z (outcome (run get_test_token c w k))
  /\ status_in [200; 500]%Z (outcome (run (Mounted.create_meeting req_body) c w k))
  /\ status_in [200; 400; 500]%Z
       (outcome (run (Mounted.create_checkout_session NumberToString StringToNumber
                        req_body) c w k))
  /\ status_in [200; 400; 404; 500]%Z
       (outcome (run (Mounted.create_portal_session stripe req_body) c w k))
  /\ status_in [200; 500]%Z (outcome (run (Mounted.send_welcome_email req_body) c w k)).
Proof.
  split; [cbn; auto|]. split; [cbn; auto|].
  split.
  { rewrite test_token_run, outcome_pair.
    destruct (outcome (run getZoomAccessToken c w k)) as [e|[tok|]]; cbn; auto. }
  destruct (nullish req_body) eqn:Hbody.
  - destruct req_body; try discriminate Hbody; repeat split; cbn; auto.
  - rewrite (create_meeting_on_defined_body req_body Hbody),
      (create_checkout_session_on_defined_body _ _ req_body Hbody),
      (create_portal_session_on_defined_body stripe req_body Hbody),
      (send_welcome_email_on_defined_body req_body Hbody),
      welcome_email_on_object_body.
    destruct (handlers_answer_on_object_bodies NumberToString StringToNumber stripe
                c w k (own_props req_body)) as (Hm & Hc & Hp).
    split; [exact Hm|]. split; [exact Hc|]. split; [exact Hp|]. cbn; auto.
Qed.

(* ================================================================== *)
(** ** The first version of the accessor *)

Lemma legacy_accessor_run (c : Config) (w : World) (k : Cache) :
  run Legacy.getZoomAccessToken c w k
  = if cache_hit k (now w) then
      (inr (accessToken k),
       {| cache := k; clock := now w;
          trace := [Console "log" [Arg (VStr "📦 Using cached token")]] |})
    else
      match result (upstream c w) with
      | inr d =>
          (inr (Some (access_token d)),
           {| cache := {| accessToken := Some (access_token d);
                          tokenExpiry := Some (new_expiry c w d) |};
              clock := stored_at c w;
              trace :=
                [ Console "log" [Arg (VStr "🔄 Requesting new Zoom access token...")];
                  Console "log" [Arg (VStr "   Account ID:");
                                 Arg (of_env (ZOOM_ACCOUNT_ID c))];
                  Console "log" [Arg (VStr "   Client ID:");
                                 Arg (of_env (ZOOM_CLIENT_ID c))];
                  token_request c ] ++ token_trace_success d |})
      | inl error =>
          (inl auth_error,
           {| cache := k; clock := stored_at c w;
              trace :=
                [ Console "log" [Arg (VStr "🔄 Requesting new Zoom access token...")];
                  Console "log" [Arg (VStr "   Account ID:");
                                 Arg (of_env (ZOOM_ACCOUNT_ID c))];
                  Console "log" [Arg (VStr "   Client ID:");
                                 Arg (of_env (ZOOM_CLIENT_ID c))];
                  token_request c ] ++ token_trace_failure error |})
      end.
Proof.
  unfold Legacy.getZoomAccessToken, Legacy.refresh_token, refresh_failed,
    return_accessToken, set_accessToken, set_tokenExpiry.
  run_handler.
  destruct (cache_hit k (now w)); [reflexivity|].
  unfold upstream, stored_at, new_expiry, upstream.
  destruct (result _); reflexivity.
Qed.

(** X21. The first version of the accessor, which has no credentials
    check, does the same as the current one whenever the three
    credentials are set: same result, same cache, same request.  It
    differs in what it logs: on every refresh it writes the account id
    and the client id themselves to the console, where the current
    version writes only whether they are set. *)
Theorem legacy_accessor_agrees_but_logs_ids (c : Config) (w : World) (k : Cache) :
  credentials_missing c = false ->
  outcome (run Legacy.getZoomAccessToken c w k) = outcome (run getZoomAccessToken c w k)
  /\ cache_after (run Legacy.getZoomAccessToken c w k)
     = cache_after (run getZoomAccessToken c w k)
  /\ posts_of (trace_of (run Legacy.getZoomAccessToken c w k))
     = posts_of (trace_of (run getZoomAccessToken c w k))
  /\ (cache_hit k (now w) = false ->
      In (Console "log" [Arg (VStr "   Account ID:"); Arg (of_env (ZOOM_ACCOUNT_ID c))])
         (trace_of (run Legacy.getZoomAccessToken c w k))
      /\ In (Console "log" [Arg (VStr "   Client ID:"); Arg (of_env (ZOOM_CLIENT_ID c))])
            (trace_of (run Legacy.getZoomAccessToken c w k))
      /\ In (Console "log" [Arg (VStr "   Account ID:"); Arg (VStr "✓ Set")])
            (trace_of (run getZoomAccessToken c w k)))
  /\ (cache_hit k (now w) = true ->
      run Legacy.getZoomAccessToken c w k = run getZoomAccessToken c w k).
Proof.
  intros Hcred. rewrite legacy_accessor_run, getZoomAccessToken_run.
  unfold getZoomAccessToken_cases, initial. cbn [cache clock trace].
  assert (Hset : set_or_missing (ZOOM_ACCOUNT_ID c) = VStr "✓ Set").
  { unfold credentials_missing in Hcred. unfold set_or_missing.
    destruct (ToBoolean (of_env (ZOOM_ACCOUNT_ID c))); [reflexivity|discriminate]. }
  rewrite Hcred.
  destruct (cache_hit k (now w)).
  - repeat split; discriminate.
  - destruct (result (upstream c w)) as [e|d];
      (split; [reflexivity|]; split; [reflexivity|]; split; [reflexivity|];
       split; [|discriminate]; intros _;
       unfold trace_of, token_trace_prefix; cbn [snd trace];
       rewrite Hset; cbn; auto 8).
Qed.

Lemma legacy_accessor_agrees_but_logs_ids_witness :
  In (Console "log" [Arg (VStr "   Account ID:"); Arg (VStr "acct-1")])
     (trace_of (run Legacy.getZoomAccessToken Sample.config (Sample.world 0 3600)
                  empty_cache)).
Proof.
  refine (proj1 (proj1 (proj2 (proj2 (proj2
            (legacy_accessor_agrees_but_logs_ids Sample.config (Sample.world 0 3600)
               empty_cache eq_refl)))) eq_refl)).
Defined.
